(** * Pulse objects of qudi: a shallow embedding of
      [logic/pulsed/pulse_objects.py]

    The four data classes ([PulseBlockElement], [PulseBlock],
    [PulseBlockEnsemble], [PulseSequence]), the helper
    [_get_ensemble_count_length] of [PredefinedGeneratorBase] and the method
    harvesting of [PulseObjectGenerator] are translated method by method.

    Conventions of the embedding:
    - a method that mutates [self] is a function from the object to an
      outcome and the object afterwards ([method]); a Python exception is an
      outcome [Raise e], and the object that comes with it is the state the
      interpreter leaves behind;
    - a position is a Python [int], hence a [Z]; indexing follows Python:
      a negative index counts from the end of the list;
    - a Python [float] is an IEEE 754 binary64 number, Rocq's primitive
      [float]: every operation rounds to nearest, ties to even; an [int]
      that meets a float is converted, which raises [OverflowError] beyond
      the double range; the lengths and increments of elements and blocks
      are floats (the default increment, the [int] 0, is the float 0);
    - a [dict] whose iteration order is observable is an association list,
      a [set] is a [gset], a parameter dictionary is a [gmap]. *)

From Stdlib Require Import ZArith QArith Qcanon Floats String Ascii.
From stdpp Require Import base option list gmap strings.

Open Scope Z_scope.

(** ** Outcomes of Python code *)

Inductive exn : Set :=
| ValueError
| IndexError
| TypeError
| KeyError
| AttributeError
| OverflowError.

Inductive result (A : Type) : Type :=
| Ret (a : A)
| Raise (e : exn).
Arguments Ret {A} a.
Arguments Raise {A} e.

(** A method of an object of class [S]: the outcome, and the object after
    the call. *)
Definition method (S A : Type) : Type := S -> result A * S.

#[global] Instance method_ret {S} : MRet (method S) :=
  fun A (a : A) s => (Ret a, s).
#[global] Instance method_bind {S} : MBind (method S) :=
  fun A B (k : A -> method S B) (m : method S A) s =>
    match m s with
    | (Ret a, s') => k a s'
    | (Raise e, s') => (Raise e, s')
    end.

Definition raise {S A} (e : exn) : method S A := fun s => (Raise e, s).
Definition get {S} : method S S := fun s => (Ret s, s).
Definition put {S} (s : S) : method S unit := fun _ => (Ret tt, s).
(** [self.attr = v]: the object is replaced by its update. *)
Definition assign {S} (set : S -> S) : method S unit := fun self => (Ret tt, set self).
(** An expression that may raise, evaluated inside a method. *)
Definition eval {S A} (r : result A) : method S A := fun s => (r, s).

(** ** Python floats *)

(** [m * 2**e] as a float, rounded once; Python raises [OverflowError] when
    the rounded number is beyond the double range. *)
Definition float_of_dyadic (m e : Z) : result float :=
  match SpecFloat.binary_normalize FloatOps.prec FloatOps.emax m e false with
  | SpecFloat.S754_infinity _ => Raise OverflowError
  | x => Ret (FloatOps.SF2Prim x)
  end.

(** An [int] that meets a float in an operation: [float(z)]. *)
Definition float_of_int (z : Z) : result float := float_of_dyadic z 0.

(** [z / 2] on an [int]: true division gives the float nearest to the
    quotient. *)
Definition int_truediv_2 (z : Z) : result float := float_of_dyadic z (-1).

(** ** Python lists *)

Definition len {A} (l : list A) : Z := Z.of_nat (length l).

(** The index Python resolves [l[i]] to, when there is one. *)
Definition py_index {A} (l : list A) (i : Z) : option nat :=
  if (0 <=? i) && (i <? len l) then Some (Z.to_nat i)
  else if (- len l <=? i) && (i <? 0) then Some (Z.to_nat (len l + i))
  else None.

(** [l[i]] *)
Definition py_getitem {A} (l : list A) (i : Z) : result A :=
  match py_index l i with
  | Some k => match l !! k with Some x => Ret x | None => Raise IndexError end
  | None => Raise IndexError
  end.

(** [l[i] = x] *)
Definition py_setitem {A} (l : list A) (i : Z) (x : A) : result (list A) :=
  match py_index l i with
  | Some k => Ret (<[k := x]> l)
  | None => Raise IndexError
  end.

(** [del l[i]] *)
Definition py_delitem {A} (l : list A) (i : Z) : result (list A) :=
  match py_index l i with
  | Some k => Ret (delete k l)
  | None => Raise IndexError
  end.

(** [l.insert(i, x)]: never raises, the position is clamped. *)
Definition py_insert_pos {A} (l : list A) (i : Z) : nat :=
  if i <? 0 then Z.to_nat (Z.max 0 (len l + i)) else Z.to_nat (Z.min i (len l)).

Definition py_insert {A} (l : list A) (i : Z) (x : A) : list A :=
  take (py_insert_pos l i) l ++ x :: drop (py_insert_pos l i) l.

(** An argument of a dynamically typed call: an instance of the expected
    class, or something else ([isinstance] tells them apart). *)
Inductive pyarg (A : Type) : Type :=
| Inst (a : A)
| Other.
Arguments Inst {A} a.
Arguments Other {A}.

(** [for x in l: body(x)] *)
Fixpoint for_each {S A} (l : list A) (body : A -> method S unit) : method S unit :=
  match l with
  | [] => mret tt
  | x :: l' => body x;; for_each l' body
  end.

(** [for ii, x in enumerate(l): body(ii, x)], counting from [ii]. *)
Fixpoint for_each_enumerate {S A} (ii : nat) (l : list A)
    (body : nat -> A -> method S unit) : method S unit :=
  match l with
  | [] => mret tt
  | x :: l' => body ii x;; for_each_enumerate (Datatypes.S ii) l' body
  end.

(** ** Python dictionaries with observable order *)

Definition dict (V : Type) : Type := list (string * V).

(** [set(d)]: the set of the keys. *)
Definition keys {V} (d : dict V) : gset string := list_to_set (d.*1).

(** [d[k] = v]: an existing key keeps its place, a new key goes last. *)
Fixpoint dict_setitem {V} (k : string) (v : V) (d : dict V) : dict V :=
  match d with
  | [] => [(k, v)]
  | (k', v') :: d' =>
      if String.eqb k' k then (k, v) :: d' else (k', v') :: dict_setitem k v d'
  end.

(** [{chnl for chnl in channels if chnl.startswith(c)}] *)
Definition channels_starting_with (c : string) (channels : gset string) : gset string :=
  filter (fun chnl => String.prefix c chnl = true) channels.

(** * PulseBlockElement *)

Module PulseBlockElement.
Section Class.
Context {SF : Type}.

Record t : Type := mk {
  init_length_s : float;
  increment_s : float;
  pulse_function : dict SF;
  digital_high : dict bool;
  analog_channels : gset string;
  digital_channels : gset string;
  channel_set : gset string
}.

(** [__init__]: an argument that is left out is [None] here; for the two
    dictionaries an explicit [None] is treated alike.  The default length
    [10e-9] is the float [0x1.5798ee2308c3ap-27]. *)
Definition init (init_length_s : option float) (increment_s : option float)
    (pulse_function : option (dict SF)) (digital_high : option (dict bool)) : t :=
  let pulse_function := default [] pulse_function in
  let digital_high := default [] digital_high in
  {| init_length_s := default 0x1.5798ee2308c3ap-27%float init_length_s;
     increment_s := default 0%float increment_s;
     pulse_function := pulse_function;
     digital_high := digital_high;
     analog_channels := keys pulse_function;
     digital_channels := keys digital_high;
     channel_set := keys pulse_function ∪ keys digital_high |}.
End Class.
Arguments t : clear implicits.

(** A waveform object in its declarative form: [{'name': ..., 'params': ...}]. *)
Record sample_dict (P : Type) : Type := mk_sample_dict {
sd_name : string;
sd_params : P
}.
Arguments mk_sample_dict {P} sd_name sd_params.
Arguments sd_name {P} s.
Arguments sd_params {P} s.

Section Serialization.
(** The waveform catalog [SamplingFunctions] is an external module: its
    objects [SF], their parameter mappings [P], the method
    [get_dict_representation] of an object ([sf_repr]) and the call
    construction of the class named [name] from [params] ([sf_new]) are parameters. *)
Context {SF P : Type}.
Variable sf_repr : SF -> sample_dict P.
Variable sf_new : string -> P -> result SF.

(** A value of [element_dict['pulse_function']]: the declarative record,
    or the waveform object that [element_from_dict] puts in its place. *)
Inductive pf_entry : Type :=
| SampleDict (d : sample_dict P)
| SampleObj (f : SF).

Record dict_repr : Type := mk_dict {
  d_init_length_s : float;
  d_increment_s : float;
  d_digital_high : dict bool;
  d_pulse_function : dict pf_entry
}.

Definition set_d_pulse_function (v : dict pf_entry) (element_dict : dict_repr) : dict_repr :=
  mk_dict (d_init_length_s element_dict) (d_increment_s element_dict)
          (d_digital_high element_dict) v.

Definition get_dict_representation (self : t SF) : dict_repr :=
  {| d_init_length_s := init_length_s self;
     d_increment_s := increment_s self;
     d_digital_high := digital_high self;
     d_pulse_function :=
       fold_left (fun acc '(chnl, func) => dict_setitem chnl (SampleDict (sf_repr func)) acc)
                 (pulse_function self) [] |}.

(** [sample_dict['name']], [sample_dict['params']]: a waveform object is
    not subscriptable. *)
Definition subscript (entry : pf_entry) : result (sample_dict P) :=
  match entry with
  | SampleDict d => Ret d
  | SampleObj _ => Raise TypeError
  end.

(** The body of the loop of [element_from_dict]. *)
Definition from_dict_step (item : string * pf_entry) : method dict_repr unit :=
  sample_dict ← eval (subscript item.2);
  f ← eval (sf_new (sd_name sample_dict) (sd_params sample_dict));
  assign (fun element_dict =>
    set_d_pulse_function
      (dict_setitem item.1 (SampleObj f) (d_pulse_function element_dict)) element_dict).

(** The values the constructor finds in the dictionary after the loop:
    every key has been visited, so all of them are waveform objects. *)
Fixpoint objects (d : dict pf_entry) : result (dict SF) :=
  match d with
  | [] => Ret []
  | (chnl, SampleObj f) :: d' =>
      match objects d' with
      | Ret fs => Ret ((chnl, f) :: fs)
      | Raise e => Raise e
      end
  | (_, SampleDict _) :: _ => Raise TypeError
  end.

(** [element_from_dict(element_dict)]: the state is the caller's record. *)
Definition element_from_dict : method dict_repr (t SF) :=
  element_dict ← get;
  for_each (d_pulse_function element_dict) from_dict_step;;
  element_dict ← get;
  pulse_function ← eval (objects (d_pulse_function element_dict));
  mret (init (Some (d_init_length_s element_dict)) (Some (d_increment_s element_dict))
             (Some pulse_function) (Some (d_digital_high element_dict))).
End Serialization.
Arguments pf_entry : clear implicits.
Arguments dict_repr : clear implicits.
End PulseBlockElement.

(** * PulseBlock *)

Module PulseBlock.
Section Class.
Context {SF : Type}.
Abbreviation Element := (PulseBlockElement.t SF).

Record t : Type := mk {
  name : string;
  element_list : list Element;
  init_length_s : float;
  increment_s : float;
  analog_channels : gset string;
  digital_channels : gset string;
  channel_set : gset string
}.

Definition set_element_list (v : list Element) (self : t) : t :=
  mk (name self) v (init_length_s self) (increment_s self)
     (analog_channels self) (digital_channels self) (channel_set self).
Definition set_init_length_s (v : float) (self : t) : t :=
  mk (name self) (element_list self) v (increment_s self)
     (analog_channels self) (digital_channels self) (channel_set self).
Definition set_increment_s (v : float) (self : t) : t :=
  mk (name self) (element_list self) (init_length_s self) v
     (analog_channels self) (digital_channels self) (channel_set self).
Definition set_analog_channels (v : gset string) (self : t) : t :=
  mk (name self) (element_list self) (init_length_s self) (increment_s self)
     v (digital_channels self) (channel_set self).
Definition set_digital_channels (v : gset string) (self : t) : t :=
  mk (name self) (element_list self) (init_length_s self) (increment_s self)
     (analog_channels self) v (channel_set self).
Definition set_channel_set (v : gset string) (self : t) : t :=
  mk (name self) (element_list self) (init_length_s self) (increment_s self)
     (analog_channels self) (digital_channels self) v.

(** The body of the loop of [refresh_parameters]. *)
Definition refresh_step (elem : Element) : method t unit :=
  assign (fun self =>
    set_init_length_s (init_length_s self + PulseBlockElement.init_length_s elem)%float self);;
  assign (fun self =>
    set_increment_s (increment_s self + PulseBlockElement.increment_s elem)%float self);;
  self ← get;
  if bool_decide (channel_set self = ∅) then
    assign (set_channel_set (PulseBlockElement.channel_set elem))
  else if bool_decide (channel_set self ≠ PulseBlockElement.channel_set elem) then
    raise ValueError
  else mret tt.

Definition refresh_parameters : method t unit :=
  assign (set_init_length_s 0%float);;
  assign (set_increment_s 0%float);;
  assign (set_channel_set ∅);;
  self ← get;
  for_each (element_list self) refresh_step;;
  assign (fun self => set_analog_channels (channels_starting_with "a" (channel_set self)) self);;
  assign (fun self => set_digital_channels (channels_starting_with "d" (channel_set self)) self).

(** [__init__(name, element_list=None)]: the object exists only when
    [refresh_parameters] does not raise. *)
Definition init (name : string) (element_list : option (list Element)) : result t :=
  match refresh_parameters
          (mk name (default [] element_list) 0%float 0%float ∅ ∅ ∅) with
  | (Ret _, self) => Ret self
  | (Raise e, _) => Raise e
  end.

Definition replace_element (position : Z) (element : pyarg Element) : method t Z :=
  self ← get;
  match element with
  | Other => mret (-1)
  | Inst element =>
    if len (element_list self) <=? position then mret (-1)
    else if bool_decide (PulseBlockElement.channel_set element ≠ channel_set self) then
      raise ValueError
    else
      old ← eval (py_getitem (element_list self) position);
      assign (fun self =>
        set_init_length_s (init_length_s self - PulseBlockElement.init_length_s old)%float self);;
      self ← get;
      old ← eval (py_getitem (element_list self) position);
      assign (fun self =>
        set_increment_s (increment_s self - PulseBlockElement.increment_s old)%float self);;
      assign (fun self =>
        set_init_length_s (init_length_s self + PulseBlockElement.init_length_s element)%float self);;
      assign (fun self =>
        set_increment_s (increment_s self + PulseBlockElement.increment_s element)%float self);;
      self ← get;
      l ← eval (py_setitem (element_list self) position element);
      assign (set_element_list l);;
      mret 0
  end.

Definition delete_element (position : Z) : method t Z :=
  self ← get;
  if len (element_list self) <=? position then mret (-1)
  else
    old ← eval (py_getitem (element_list self) position);
    assign (fun self =>
      set_init_length_s (init_length_s self - PulseBlockElement.init_length_s old)%float self);;
    self ← get;
    old ← eval (py_getitem (element_list self) position);
    assign (fun self =>
      set_increment_s (increment_s self - PulseBlockElement.increment_s old)%float self);;
    self ← get;
    l ← eval (py_delitem (element_list self) position);
    assign (set_element_list l);;
    self ← get;
    (if len (element_list self) =? 0 then
       assign (set_init_length_s 0%float);;
       assign (set_increment_s 0%float)
     else mret tt);;
    mret 0.

Definition insert_element (position : Z) (element : pyarg Element) : method t Z :=
  self ← get;
  match element with
  | Other => mret (-1)
  | Inst element =>
    if len (element_list self) <? position then mret (-1)
    else
      (if bool_decide (channel_set self = ∅) then
         assign (set_channel_set (PulseBlockElement.channel_set element));;
         assign (fun self =>
           set_analog_channels (channels_starting_with "a" (channel_set self)) self);;
         assign (fun self =>
           set_digital_channels (channels_starting_with "d" (channel_set self)) self)
       else if bool_decide (PulseBlockElement.channel_set element ≠ channel_set self) then
         raise ValueError
       else mret tt);;
      assign (fun self =>
        set_init_length_s (init_length_s self + PulseBlockElement.init_length_s element)%float self);;
      assign (fun self =>
        set_increment_s (increment_s self + PulseBlockElement.increment_s element)%float self);;
      assign (fun self =>
        set_element_list (py_insert (element_list self) position element) self);;
      mret 0
  end.

Definition append_element (element : pyarg Element) (at_beginning : bool) : method t Z :=
  self ← get;
  let position := if at_beginning then 0 else len (element_list self) in
  insert_element position element.
End Class.
Arguments t : clear implicits.

Section Serialization.
Context {SF P : Type}.
Variable sf_repr : SF -> PulseBlockElement.sample_dict P.
Variable sf_new : string -> P -> result SF.
Abbreviation Element := (PulseBlockElement.t SF).
Abbreviation element_dict_repr := (PulseBlockElement.dict_repr SF P).

(** An entry of [block_dict['element_list']]: the record of an element, or
    the element that [block_from_dict] puts in its place. *)
Inductive elem_entry : Type :=
| ElemDict (d : element_dict_repr)
| ElemObj (e : Element).

Record dict_repr : Type := mk_dict {
  d_name : string;
  d_element_list : list elem_entry
}.

Definition set_d_element_list (v : list elem_entry) (block_dict : dict_repr) : dict_repr :=
  mk_dict (d_name block_dict) v.

Definition get_dict_representation (self : t SF) : dict_repr :=
  {| d_name := name self;
     d_element_list :=
       fold_left (fun acc element =>
                    acc ++ [ElemDict (PulseBlockElement.get_dict_representation sf_repr element)])
                 (element_list self) [] |}.

(** The body of the loop of [block_from_dict], at index [ii].  The nested
    record is changed by [element_from_dict] even when that call raises. *)
Definition from_dict_step (ii : nat) (entry : elem_entry) : method dict_repr unit :=
  match entry with
  | ElemObj _ => raise TypeError
  | ElemDict element_dict =>
      match PulseBlockElement.element_from_dict sf_new element_dict with
      | (Ret element, _) =>
          assign (fun block_dict =>
            set_d_element_list
              (<[ii := ElemObj element]> (d_element_list block_dict)) block_dict)
      | (Raise e, element_dict') =>
          assign (fun block_dict =>
            set_d_element_list
              (<[ii := ElemDict element_dict']> (d_element_list block_dict)) block_dict);;
          raise e
      end
  end.

(** The elements the constructor finds in the list after the loop. *)
Fixpoint elements (l : list elem_entry) : result (list Element) :=
  match l with
  | [] => Ret []
  | ElemObj e :: l' =>
      match elements l' with
      | Ret es => Ret (e :: es)
      | Raise e => Raise e
      end
  | ElemDict _ :: _ => Raise TypeError
  end.

Definition block_from_dict : method dict_repr (t SF) :=
  block_dict ← get;
  for_each_enumerate 0%nat (d_element_list block_dict) from_dict_step;;
  block_dict ← get;
  element_list ← eval (elements (d_element_list block_dict));
  eval (init (d_name block_dict) (Some element_list)).
End Serialization.
Arguments elem_entry : clear implicits.
Arguments dict_repr : clear implicits.
End PulseBlock.

(** * Steps of an ensemble or of a sequence

    A step is a Python pair of a name and a parameter.  The methods build
    tuples; a list handed to a constructor may hold two-element lists as
    well (a block list read back from a file).  Only a list supports item
    assignment. *)

Inductive pair_kind : Set := tuple | pylist.

Record step (P : Type) : Type := mk_step {
  kind : pair_kind;
  step_name : string;
  step_param : P
}.
Arguments mk_step {P} kind step_name step_param.
Arguments kind {P} s.
Arguments step_name {P} s.
Arguments step_param {P} s.

(** [st[0] = name] *)
Definition step_setitem0 {P} (st : step P) (name : string) : result (step P) :=
  match kind st with
  | tuple => Raise TypeError
  | pylist => Ret (mk_step pylist name (step_param st))
  end.

(** * PulseBlockEnsemble *)

Module PulseBlockEnsemble.
Section Class.
Context {V : Type}.

Record t : Type := mk {
  name : string;
  rotating_frame : bool;
  block_list : list (step Z);
  sampling_information : gmap string V;
  measurement_information : gmap string V
}.

Definition set_block_list (v : list (step Z)) (self : t) : t :=
  mk (name self) (rotating_frame self) v
     (sampling_information self) (measurement_information self).
Definition set_sampling_information (v : gmap string V) (self : t) : t :=
  mk (name self) (rotating_frame self) (block_list self)
     v (measurement_information self).
Definition set_measurement_information (v : gmap string V) (self : t) : t :=
  mk (name self) (rotating_frame self) (block_list self)
     (sampling_information self) v.

(** [__init__(name, block_list=None, rotating_frame=True)]: anything that
    is not a list gives the empty block list. *)
Definition init (name : string) (block_list : pyarg (list (step Z)))
    (rotating_frame : bool) : t :=
  {| name := name;
     rotating_frame := rotating_frame;
     block_list := match block_list with Inst l => l | Other => [] end;
     sampling_information := ∅;
     measurement_information := ∅ |}.

Definition replace_block (position : Z) (block_name : pyarg string)
    (reps : option Z) : method t Z :=
  self ← get;
  match block_name with
  | Other => mret (-1)
  | Inst block_name =>
    if len (block_list self) <=? position then mret (-1)
    else
      match reps with
      | None =>
          st ← eval (py_getitem (block_list self) position);
          st' ← eval (step_setitem0 st block_name);
          l ← eval (py_setitem (block_list self) position st');
          assign (set_block_list l);;
          mret 0
      | Some reps =>
          if 0 <=? reps then
            l ← eval (py_setitem (block_list self) position
                        (mk_step tuple block_name reps));
            assign (set_block_list l);;
            mret 0
          else mret (-1)
      end
  end.

Definition delete_block (position : Z) : method t Z :=
  self ← get;
  if len (block_list self) <=? position then mret (-1)
  else
    l ← eval (py_delitem (block_list self) position);
    assign (set_block_list l);;
    mret 0.

Definition insert_block (position : Z) (block_name : pyarg string)
    (reps : Z) : method t Z :=
  self ← get;
  match block_name with
  | Other => mret (-1)
  | Inst block_name =>
    if (len (block_list self) <? position) || (reps <? 0) then mret (-1)
    else
      assign (fun self =>
        set_block_list
          (py_insert (block_list self) position (mk_step tuple block_name reps)) self);;
      mret 0
  end.

Definition append_block (block_name : pyarg string) (reps : Z)
    (at_beginning : bool) : method t Z :=
  self ← get;
  let position := if at_beginning then 0 else len (block_list self) in
  insert_block position block_name reps.

(** The record built by [get_dict_representation]. *)
Record dict_repr : Type := mk_dict {
  d_name : string;
  d_rotating_frame : bool;
  d_block_list : list (step Z);
  d_sampling_information : gmap string V;
  d_measurement_information : gmap string V
}.

Definition get_dict_representation (self : t) : dict_repr :=
  {| d_name := name self;
     d_rotating_frame := rotating_frame self;
     d_block_list := block_list self;
     d_sampling_information := sampling_information self;
     d_measurement_information := measurement_information self |}.

End Class.
Arguments t : clear implicits.
Arguments dict_repr : clear implicits.
End PulseBlockEnsemble.

(** * PulseSequence *)

(** A sequence step parameter dictionary: [{'repetitions': 41, ...}]. *)
Abbreviation seq_param := (gmap string Z).

(** [params['repetitions']] *)
Definition repetitions (params : seq_param) : result Z :=
  match params !! "repetitions"%string with
  | Some r => Ret r
  | None => Raise KeyError
  end.

Module PulseSequence.
Section Class.
Context {V : Type}.

Record t : Type := mk {
  name : string;
  rotating_frame : bool;
  ensemble_list : list (step seq_param);
  is_finite : bool;
  sampling_information : gmap string V;
  measurement_information : gmap string V
}.

Definition set_ensemble_list (v : list (step seq_param)) (self : t) : t :=
  mk (name self) (rotating_frame self) v (is_finite self)
     (sampling_information self) (measurement_information self).
Definition set_is_finite (v : bool) (self : t) : t :=
  mk (name self) (rotating_frame self) (ensemble_list self) v
     (sampling_information self) (measurement_information self).
Definition set_sampling_information (v : gmap string V) (self : t) : t :=
  mk (name self) (rotating_frame self) (ensemble_list self) (is_finite self)
     v (measurement_information self).
Definition set_measurement_information (v : gmap string V) (self : t) : t :=
  mk (name self) (rotating_frame self) (ensemble_list self) (is_finite self)
     (sampling_information self) v.

(** The loop of [refresh_parameters]: it stops at the first step with
    negative repetitions. *)
Fixpoint refresh_loop (l : list (step seq_param)) : method t unit :=
  match l with
  | [] => mret tt
  | st :: l' =>
      r ← eval (repetitions (step_param st));
      if r <? 0 then assign (set_is_finite false)
      else refresh_loop l'
  end.

Definition refresh_parameters : method t unit :=
  assign (set_is_finite true);;
  self ← get;
  refresh_loop (ensemble_list self).

(** [__init__(name, ensemble_list=None, rotating_frame=False)] *)
Definition init (name : string) (ensemble_list : option (list (step seq_param)))
    (rotating_frame : bool) : result t :=
  match refresh_parameters
          (mk name rotating_frame (default [] ensemble_list) true ∅ ∅) with
  | (Ret _, self) => Ret self
  | (Raise e, _) => Raise e
  end.

Definition replace_ensemble (position : Z) (ensemble_name : pyarg string)
    (seq_param : option seq_param) : method t Z :=
  self ← get;
  match ensemble_name with
  | Other => mret (-1)
  | Inst ensemble_name =>
    if len (ensemble_list self) <=? position then mret (-1)
    else
      match seq_param with
      | None =>
          st ← eval (py_getitem (ensemble_list self) position);
          st' ← eval (step_setitem0 st ensemble_name);
          l ← eval (py_setitem (ensemble_list self) position st');
          assign (set_ensemble_list l);;
          mret 0
      | Some seq_param =>
          l ← eval (py_setitem (ensemble_list self) position
                      (mk_step tuple ensemble_name seq_param));
          assign (set_ensemble_list l);;
          r ← eval (repetitions seq_param);
          self ← get;
          (if (r <? 0) && is_finite self then assign (set_is_finite false)
           else
             r ← eval (repetitions seq_param);
             if (0 <=? r) && negb (is_finite self) then refresh_parameters
             else mret tt);;
          mret 0
      end
  end.

Definition delete_ensemble (position : Z) : method t Z :=
  self ← get;
  if len (ensemble_list self) <=? position then mret (-1)
  else
    st ← eval (py_getitem (ensemble_list self) position);
    r ← eval (repetitions (step_param st));
    let refresh := if r <? 0 then true else false in
    l ← eval (py_delitem (ensemble_list self) position);
    assign (set_ensemble_list l);;
    (if refresh then refresh_parameters else mret tt);;
    mret 0.

Definition insert_ensemble (position : Z) (ensemble_name : pyarg string)
    (seq_param : seq_param) : method t Z :=
  self ← get;
  match ensemble_name with
  | Other => mret (-1)
  | Inst ensemble_name =>
    if len (ensemble_list self) <? position then mret (-1)
    else
      assign (fun self =>
        set_ensemble_list
          (py_insert (ensemble_list self) position
             (mk_step tuple ensemble_name seq_param)) self);;
      r ← eval (repetitions seq_param);
      (if r <? 0 then assign (set_is_finite false) else mret tt);;
      mret 0
  end.

Definition append_ensemble (ensemble_name : pyarg string) (seq_param : seq_param)
    (at_beginning : bool) : method t Z :=
  self ← get;
  let position := if at_beginning then 0 else len (ensemble_list self) in
  insert_ensemble position ensemble_name seq_param.

Record dict_repr : Type := mk_dict {
  d_name : string;
  d_rotating_frame : bool;
  d_ensemble_list : list (step seq_param);
  d_sampling_information : gmap string V;
  d_measurement_information : gmap string V
}.

Definition get_dict_representation (self : t) : dict_repr :=
  {| d_name := name self;
     d_rotating_frame := rotating_frame self;
     d_ensemble_list := ensemble_list self;
     d_sampling_information := sampling_information self;
     d_measurement_information := measurement_information self |}.

End Class.
Arguments t : clear implicits.
Arguments dict_repr : clear implicits.
End PulseSequence.

(** * PredefinedGeneratorBase *)

Module PredefinedGeneratorBase.

(** A value of the dictionary [generation_parameters] of the logic
    module: a channel descriptor (a string) or a number. *)
Inductive pval : Type :=
| PStr (s : string)
| PNum (q : float).

(** The part of [SequenceGeneratorLogic] the base class reads. *)
Record t : Type := mk {
  generation_parameters : gmap string pval
}.

(** [channel == ''] *)
Definition is_empty_str (channel : option pval) : bool :=
  match channel with
  | Some (PStr s) => String.eqb s ""
  | _ => false
  end.

(** The truth value of [None], of a string and of a number. *)
Definition truth (v : option pval) : bool :=
  match v with
  | None => false
  | Some (PStr s) => negb (String.eqb s "")
  | Some (PNum q) => negb (PrimFloat.eqb q 0)
  end.

Definition gate_channel (self : t) : option pval :=
  let channel := generation_parameters self !! "gate_channel"%string in
  if is_empty_str channel then None else channel.

Definition laser_delay (self : t) : option pval :=
  generation_parameters self !! "laser_delay"%string.

Definition laser_length (self : t) : option pval :=
  generation_parameters self !! "laser_length"%string.

(** [a + b] on what [dict.get] returns: numbers add, strings
    concatenate, anything else (a [None] among them) is a [TypeError]. *)
Definition py_add (a b : option pval) : result pval :=
  match a, b with
  | Some (PNum x), Some (PNum y) => Ret (PNum (x + y)%float)
  | Some (PStr x), Some (PStr y) => Ret (PStr (x ++ y))
  | _, _ => Raise TypeError
  end.

Section Helpers.
Context {SF V : Type}.

(** [{block.name: block for block in created_blocks}] *)
Definition blocks_by_name (created_blocks : list (PulseBlock.t SF))
    : gmap string (PulseBlock.t SF) :=
  fold_left (fun blocks block => <[PulseBlock.name block := block]> blocks)
            created_blocks ∅.

(** [blocks[block_name]] *)
Definition lookup_block (blocks : gmap string (PulseBlock.t SF)) (block_name : string)
    : result (PulseBlock.t SF) :=
  match blocks !! block_name with
  | Some block => Ret block
  | None => Raise KeyError
  end.

(** The loop of [_get_ensemble_count_length]; the state is [length].  In
    each line the block is looked up first, then the integer is converted,
    then the product is added. *)
Definition count_step (blocks : gmap string (PulseBlock.t SF)) (st : step Z)
    : method float unit :=
  let block_name := step_name st in
  let reps := step_param st in
  block ← eval (lookup_block blocks block_name);
  n ← eval (float_of_int (reps + 1));
  assign (fun length => length + PulseBlock.init_length_s block * n)%float;;
  block ← eval (lookup_block blocks block_name);
  h ← eval (int_truediv_2 (reps ^ 2 + reps));
  assign (fun length => length + PulseBlock.increment_s block * h)%float.

Definition _get_ensemble_count_length (self : t) (ensemble : PulseBlockEnsemble.t V)
    (created_blocks : list (PulseBlock.t SF)) : result pval :=
  if truth (gate_channel self) then
    py_add (laser_length self) (laser_delay self)
  else
    let blocks := blocks_by_name created_blocks in
    match for_each (PulseBlockEnsemble.block_list ensemble) (count_step blocks)
                   0%float with
    | (Ret _, length) => Ret (PNum length)
    | (Raise e, _) => Raise e
    end.
End Helpers.
End PredefinedGeneratorBase.

(** * PulseObjectGenerator *)

(** [s[n:]] *)
Fixpoint string_drop (n : nat) (s : string) : string :=
  match n, s with
  | O, _ => s
  | S n', String _ s' => string_drop n' s'
  | S _, EmptyString => EmptyString
  end.

Module PulseObjectGenerator.
Section Class.
(** [M]: references to bound methods. *)
Context {M : Type}.

(** A class object: its identity, its direct bases ([__bases__]) and what
    [inspect.getmembers(instance, inspect.ismethod)] lists for one of its
    instances (pairs of a name and a bound method, sorted by name). *)
Record pyclass : Type := mk_class {
  cls_id : string;
  cls_bases : list string;
  cls_methods : list (string * M)
}.

(** A member of a module: a class, or any other object. *)
Inductive pyobj : Type :=
| PyClass (c : pyclass)
| PyOther.

(** The identity of the class [PredefinedGeneratorBase]. *)
Definition PredefinedGeneratorBase : string := "PredefinedGeneratorBase".

Definition is_generator_class (obj : pyobj) : bool :=
  match obj with
  | PyClass c =>
      bool_decide (PredefinedGeneratorBase ∈ cls_bases c) && (len (cls_bases c) =? 1)
  | PyOther => false
  end.

(** A scan location: a path that may not exist; when it does, for each
    python file in it the outcome of importing the module, a successful
    import giving [inspect.getmembers(mod)]. *)
Record location : Type := mk_location {
  loc_path : string;
  loc_exists : bool;
  loc_modules : list (result (list (string * pyobj)))
}.

(** [tmp_list = [m[1] for m in inspect.getmembers(mod, self.is_generator_class)]] *)
Definition generator_classes_of (members : list (string * pyobj)) : list pyclass :=
  omap (fun m => match m.2 with
                 | PyClass c => if is_generator_class m.2 then Some c else None
                 | PyOther => None
                 end) members.

(** The loop over the modules of one location; the state is [class_list]. *)
Definition import_module (module : result (list (string * pyobj)))
    : method (list pyclass) unit :=
  members ← eval module;
  assign (fun class_list => class_list ++ generator_classes_of members).

(** [__import_external_generators(paths)]: the class list, and the paths
    reported to the log as missing. *)
Fixpoint import_external_generators (paths : list location) (class_list : list pyclass)
    (log : list string) : result (list pyclass) * list string :=
  match paths with
  | [] => (Ret class_list, log)
  | path :: paths' =>
      if negb (loc_exists path) then
        import_external_generators paths' class_list (log ++ [loc_path path])
      else
        match for_each (loc_modules path) import_module class_list with
        | (Ret _, class_list) => import_external_generators paths' class_list log
        | (Raise e, _) => (Raise e, log)
        end
  end.

(** The inner loop of [__populate_method_dict]; the state is
    [self._generate_methods]. *)
Definition harvest (member : string * M) : method (gmap string M) unit :=
  let method_name := member.1 in
  let method_ref := member.2 in
  if String.prefix "generate_" method_name then
    assign (fun generate_methods => <[string_drop 9 method_name := method_ref]> generate_methods)
  else mret tt.

(** [__populate_method_dict(instance_list)]: an instance is given by the
    members [inspect.getmembers] lists for it. *)
Definition populate_method_dict (instance_list : list (list (string * M)))
    : gmap string M :=
  (for_each instance_list (fun instance => for_each instance harvest) ∅).2.

(** The part of [__init__] that builds [self._generate_methods]: import
    the classes, instantiate them, harvest their methods. *)
Definition init (paths : list location) : result (gmap string M) * list string :=
  match import_external_generators paths [] [] with
  | (Ret generator_classes, log) =>
      let generator_instances := cls_methods <$> generator_classes in
      (Ret (populate_method_dict generator_instances), log)
  | (Raise e, log) => (Raise e, log)
  end.
End Class.
Arguments pyclass : clear implicits.
Arguments pyobj : clear implicits.
Arguments location : clear implicits.
End PulseObjectGenerator.

(** * Editing sessions

    A caller edits an object by a series of method calls and goes on after
    a failure, whether it is returned or raised: the object is then in the
    state the failed call left. *)

Module BlockScript.
Section Script.
Context {SF : Type}.

Inductive call : Type :=
| insert_element (position : Z) (element : pyarg (PulseBlockElement.t SF))
| replace_element (position : Z) (element : pyarg (PulseBlockElement.t SF))
| delete_element (position : Z)
| append_element (element : pyarg (PulseBlockElement.t SF)) (at_beginning : bool).

Definition run_call (c : call) : method (PulseBlock.t SF) Z :=
  match c with
  | insert_element position element => PulseBlock.insert_element position element
  | replace_element position element => PulseBlock.replace_element position element
  | delete_element position => PulseBlock.delete_element position
  | append_element element at_beginning => PulseBlock.append_element element at_beginning
  end.

Fixpoint run (calls : list call) (self : PulseBlock.t SF) : PulseBlock.t SF :=
  match calls with
  | [] => self
  | c :: calls' => run calls' (run_call c self).2
  end.


(** [PulseBlock(name)] *)
Definition empty (name : string) : PulseBlock.t SF :=
  PulseBlock.mk name [] 0%float 0%float ∅ ∅ ∅.
End Script.
Arguments call : clear implicits.
End BlockScript.

Module EnsembleScript.
Section Script.
Context {V : Type}.

Inductive call : Type :=
| insert_block (position : Z) (block_name : pyarg string) (reps : Z)
| replace_block (position : Z) (block_name : pyarg string) (reps : option Z)
| delete_block (position : Z)
| append_block (block_name : pyarg string) (reps : Z) (at_beginning : bool).

Definition run_call (c : call) : method (PulseBlockEnsemble.t V) Z :=
  match c with
  | insert_block position block_name reps =>
      PulseBlockEnsemble.insert_block position block_name reps
  | replace_block position block_name reps =>
      PulseBlockEnsemble.replace_block position block_name reps
  | delete_block position => PulseBlockEnsemble.delete_block position
  | append_block block_name reps at_beginning =>
      PulseBlockEnsemble.append_block block_name reps at_beginning
  end.

Fixpoint run (calls : list call) (self : PulseBlockEnsemble.t V) : PulseBlockEnsemble.t V :=
  match calls with
  | [] => self
  | c :: calls' => run calls' (run_call c self).2
  end.
End Script.
End EnsembleScript.

Module SequenceScript.
Section Script.
Context {V : Type}.

Inductive call : Type :=
| insert_ensemble (position : Z) (ensemble_name : pyarg string) (seq_param : seq_param)
| replace_ensemble (position : Z) (ensemble_name : pyarg string)
    (seq_param : option seq_param)
| delete_ensemble (position : Z)
| append_ensemble (ensemble_name : pyarg string) (seq_param : seq_param)
    (at_beginning : bool).

Definition run_call (c : call) : method (PulseSequence.t V) Z :=
  match c with
  | insert_ensemble position ensemble_name seq_param =>
      PulseSequence.insert_ensemble position ensemble_name seq_param
  | replace_ensemble position ensemble_name seq_param =>
      PulseSequence.replace_ensemble position ensemble_name seq_param
  | delete_ensemble position => PulseSequence.delete_ensemble position
  | append_ensemble ensemble_name seq_param at_beginning =>
      PulseSequence.append_ensemble ensemble_name seq_param at_beginning
  end.

Fixpoint run (calls : list call) (self : PulseSequence.t V) : PulseSequence.t V :=
  match calls with
  | [] => self
  | c :: calls' => run calls' (run_call c self).2
  end.

(** The parameter dictionaries a call hands over. *)
Definition params_of (c : call) : list seq_param :=
  match c with
  | insert_ensemble _ _ seq_param => [seq_param]
  | replace_ensemble _ _ (Some seq_param) => [seq_param]
  | replace_ensemble _ _ None => []
  | delete_ensemble _ => []
  | append_ensemble _ seq_param _ => [seq_param]
  end.
End Script.
End SequenceScript.

(** * The derived quantities of the data model *)

(** The number a finite float stands for. *)
Definition exact (x : float) : option Qc :=
  match FloatOps.Prim2SF x with
  | SpecFloat.S754_zero _ => Some (Q2Qc 0)
  | SpecFloat.S754_finite s m e =>
      Some (Q2Qc ((if s then -1 else 1) * inject_Z (Z.pos m) * Qpower 2 e))
  | _ => None
  end.


(** [Σ] over a list of floats: every addition rounds, so the order counts.
    The sum is accumulated from [0.0], from the first number to the last, as
    [refresh_parameters] does. *)
Definition sum_of (xs : list float) : float := fold_left PrimFloat.add xs 0%float.

(** [total_duration = Σ duration], [total_increment = Σ duration_increment]. *)
Definition total_duration {SF} (elements : list (PulseBlockElement.t SF)) : float :=
  sum_of (PulseBlockElement.init_length_s <$> elements).
Definition total_increment {SF} (elements : list (PulseBlockElement.t SF)) : float :=
  sum_of (PulseBlockElement.increment_s <$> elements).

(** The stored totals of a block agree with the sums over its elements. *)
Definition totals_consistent {SF} (b : PulseBlock.t SF) : Prop :=
  PulseBlock.init_length_s b = total_duration (PulseBlock.element_list b)
  /\ PulseBlock.increment_s b = total_increment (PulseBlock.element_list b).





(** * Finiteness of a sequence *)

(** A parameter dictionary with a ['repetitions'] entry. *)
Definition has_repetitions (p : seq_param) : Prop := is_Some (p !! "repetitions"%string).

(** A step whose repetitions are negative. *)
Definition is_negative (st : step seq_param) : bool :=
  match step_param st !! "repetitions"%string with
  | Some r => r <? 0
  | None => false
  end.

(** Every step carries repetitions, and the flag [is_finite] is up to date. *)
Definition sequence_ok {V} (s : PulseSequence.t V) : Prop :=
  Forall (fun st => has_repetitions (step_param st)) (PulseSequence.ensemble_list s)
  /\ PulseSequence.is_finite s = negb (existsb is_negative (PulseSequence.ensemble_list s)).

(** * Playback duration of an ensemble, as the specification words it *)

(** The block a name refers to in a collection of blocks: the last one of
    that name. *)
Definition block_named {SF} (known_blocks : list (PulseBlock.t SF)) (block_name : string)
    : option (PulseBlock.t SF) :=
  last (filter (fun block => PulseBlock.name block = block_name) known_blocks).

(** [block.total_duration * (reps+1) + block.total_increment * (reps² + reps)/2]
    over the real numbers. *)
Definition exact_step_duration (duration increment : Qc) (reps : Z) : Qc :=
  (duration * Q2Qc (inject_Z (reps + 1))
   + increment * Q2Qc (inject_Z (reps * reps + reps)) / Q2Qc 2)%Qc.

(** One step in floats, added to the length counted so far:
    [block.total_duration * (reps+1)] is added first, then
    [block.total_increment * ((reps² + reps)/2)]; each of the four
    operations rounds, and an integer beyond the double range is an
    [OverflowError]. *)
Definition add_step_duration {SF} (block : PulseBlock.t SF) (reps : Z) (length : float)
    : result float :=
  match float_of_int (reps + 1) with
  | Raise e => Raise e
  | Ret n =>
      match int_truediv_2 (reps * reps + reps) with
      | Raise e => Raise e
      | Ret h =>
          Ret (length + PulseBlock.init_length_s block * n
               + PulseBlock.increment_s block * h)%float
      end
  end.

(** The steps counted one after the other, from a length; a block name that
    is not in the collection is a [KeyError]. *)
Fixpoint ensemble_playback_duration {SF} (known_blocks : list (PulseBlock.t SF))
    (steps : list (step Z)) (length : float) : result float :=
  match steps with
  | [] => Ret length
  | st :: steps' =>
      match block_named known_blocks (step_name st) with
      | None => Raise KeyError
      | Some block =>
          match add_step_duration block (step_param st) length with
          | Ret length' => ensemble_playback_duration known_blocks steps' length'
          | Raise e => Raise e
          end
      end
  end.

(** The two integers of a step are within the double range. *)
Definition converts (reps : Z) : Prop :=
  (exists n, float_of_int (reps + 1) = Ret n)
  /\ (exists h, int_truediv_2 (reps * reps + reps) = Ret h).

(** * Objects as the constructors leave them *)



(** The catalog builds from the declarative form of a waveform object an
    equal object. *)
Definition catalog_inverse {SF P} (sf_repr : SF -> PulseBlockElement.sample_dict P)
    (sf_new : string -> P -> result SF) : Prop :=
  forall f, sf_new (PulseBlockElement.sd_name (sf_repr f))
                   (PulseBlockElement.sd_params (sf_repr f)) = Ret f.

(** The catalog builds the object [f] from the entry of a record. *)
Definition builds {SF P} (sf_new : string -> P -> result SF)
    (item : string * PulseBlockElement.pf_entry SF P) (f : SF) : Prop :=
  exists sample_dict,
    item.2 = PulseBlockElement.SampleDict sample_dict
    /\ sf_new (PulseBlockElement.sd_name sample_dict)
               (PulseBlockElement.sd_params sample_dict) = Ret f.

(** [element_from_dict] builds the element [e] from the entry of a block
    record. *)
Definition reads {SF P} (sf_new : string -> P -> result SF)
    (entry : PulseBlock.elem_entry SF P) (e : PulseBlockElement.t SF) : Prop :=
  exists element_dict,
    entry = PulseBlock.ElemDict element_dict
    /\ (PulseBlockElement.element_from_dict sf_new element_dict).1 = Ret e.


(** * Concrete objects *)

Module Examples.
(** A small waveform catalog in the shape of [SamplingFunctions]:
    [Idle()], [DC(voltage)] and [Sin(amplitude, frequency, phase)]. *)
Inductive wave : Type :=
| Idle
| DC (voltage : float)
| Sin (amplitude frequency phase : float).

(** [n e-9], as Python reads the literal: the float nearest to [n * 10**-9]. *)
Definition ns (n : Z) : float :=
  (PrimFloat.of_uint63 (Uint63.of_Z n) / 1000000000)%float.

(** [PulseBlockElement()] *)
Definition e_default : PulseBlockElement.t wave :=
  PulseBlockElement.init None None None None.

(** Two elements on the digital channel [d_ch1], one on [d_ch2]. *)
Definition e_10ns : PulseBlockElement.t wave :=
  PulseBlockElement.init (Some (ns 10)) (Some 0%float) None
                         (Some [("d_ch1"%string, true)]).
Definition e_5ns : PulseBlockElement.t wave :=
  PulseBlockElement.init (Some (ns 5)) (Some (ns 1)) None
                         (Some [("d_ch1"%string, false)]).
Definition e_other : PulseBlockElement.t wave :=
  PulseBlockElement.init (Some (ns 5)) (Some 0%float) None
                         (Some [("d_ch2"%string, true)]).

(** [B = PulseBlock('B'); B.append_element(e_10ns)] *)
Definition block_one : PulseBlock.t wave :=
  BlockScript.run [BlockScript.append_element (Inst e_10ns) false]
                  (BlockScript.empty "B").

(** [... ; B.append_element(e_5ns)] *)
Definition block_two : PulseBlock.t wave :=
  BlockScript.run [BlockScript.append_element (Inst e_5ns) false] block_one.

(** [ens = PulseBlockEnsemble('ens'); ens.append_block('A', 2)] *)
Definition ensemble_one : PulseBlockEnsemble.t Z :=
  EnsembleScript.run [EnsembleScript.append_block (Inst "A"%string) 2 false]
                     (PulseBlockEnsemble.init "ens" Other true).

Definition reps (r : Z) : seq_param := {["repetitions"%string := r]}.

(** [PulseSequence('seq')] *)
Definition sequence_empty : PulseSequence.t Z :=
  PulseSequence.mk "seq" false [] true ∅ ∅.

(** [seq.append_ensemble('E1', {'repetitions': 3})] *)
Definition sequence_one : PulseSequence.t Z :=
  SequenceScript.run [SequenceScript.append_ensemble (Inst "E1"%string) (reps 3) false]
                     sequence_empty.

(** [... ; seq.append_ensemble('E2', {'repetitions': -1})] *)
Definition sequence_two : PulseSequence.t Z :=
  SequenceScript.run [SequenceScript.append_ensemble (Inst "E2"%string) (reps (-1)) false]
                     sequence_one.

(** A block with a total duration of 10 ns and a total increment of 2 ns. *)
Definition e_10ns_2ns : PulseBlockElement.t wave :=
  PulseBlockElement.init (Some (ns 10)) (Some (ns 2)) None
                         (Some [("d_ch1"%string, true)]).
Definition block_B : PulseBlock.t wave :=
  BlockScript.run [BlockScript.append_element (Inst e_10ns_2ns) false]
                  (BlockScript.empty "B").

(** [ens.append_block('B', 2)] *)
Definition ensemble_B : PulseBlockEnsemble.t Z :=
  EnsembleScript.run [EnsembleScript.append_block (Inst "B"%string) 2 false]
                     (PulseBlockEnsemble.init "ens" Other true).

(** An ensemble whose repetitions are beyond the double range. *)
Definition ensemble_huge : PulseBlockEnsemble.t Z :=
  EnsembleScript.run [EnsembleScript.append_block (Inst "B"%string) (10 ^ 400) false]
                     (PulseBlockEnsemble.init "ens" Other true).

(** Settings without a gate channel, and with one. *)
Definition no_gate : PredefinedGeneratorBase.t :=
  PredefinedGeneratorBase.mk
    (<["gate_channel"%string := PredefinedGeneratorBase.PStr ""]>
      (<["laser_length"%string := PredefinedGeneratorBase.PNum (ns 3000)]>
        {["laser_delay"%string := PredefinedGeneratorBase.PNum (ns 500)]})).
Definition with_gate : PredefinedGeneratorBase.t :=
  PredefinedGeneratorBase.mk
    (<["gate_channel"%string := PredefinedGeneratorBase.PStr "d_ch2"]>
      (<["laser_length"%string := PredefinedGeneratorBase.PNum (ns 3000)]>
        {["laser_delay"%string := PredefinedGeneratorBase.PNum (ns 500)]})).
(** Two plugin classes that both define [generate_foo]; a method
    reference is a number here. *)
Definition class_A : PulseObjectGenerator.pyclass nat :=
  PulseObjectGenerator.mk_class "A" [PulseObjectGenerator.PredefinedGeneratorBase]
    [("_helper"%string, 0%nat); ("generate_foo"%string, 1%nat)].
Definition class_B : PulseObjectGenerator.pyclass nat :=
  PulseObjectGenerator.mk_class "B" [PulseObjectGenerator.PredefinedGeneratorBase]
    [("generate_bar"%string, 2%nat); ("generate_foo"%string, 3%nat)].

(** A class with the generator base and one more base, and a class that
    inherits from the base only through [A]. *)
Definition class_mixed : PulseObjectGenerator.pyclass nat :=
  PulseObjectGenerator.mk_class "Mixed"
    [PulseObjectGenerator.PredefinedGeneratorBase; "Mixin"%string]
    [("generate_mixed"%string, 4%nat)].
Definition class_derived : PulseObjectGenerator.pyclass nat :=
  PulseObjectGenerator.mk_class "Derived" ["A"%string]
    [("generate_derived"%string, 5%nat); ("generate_foo"%string, 1%nat)].

(** A location with one module. *)
Definition plugin_dir (members : list (string * PulseObjectGenerator.pyobj nat))
    : PulseObjectGenerator.location nat :=
  PulseObjectGenerator.mk_location "predefined_generate_methods" true [Ret members].
(** The catalog of [wave]: the declarative form lists the parameters in
    the order of the constructor. *)
Definition wave_repr (f : wave) : PulseBlockElement.sample_dict (list float) :=
  match f with
  | Idle => PulseBlockElement.mk_sample_dict "Idle" []
  | DC voltage => PulseBlockElement.mk_sample_dict "DC" [voltage]
  | Sin amplitude frequency phase =>
      PulseBlockElement.mk_sample_dict "Sin" [amplitude; frequency; phase]
  end.

Definition wave_new (name : string) (params : list float) : result wave :=
  if String.eqb name "Idle" then
    match params with [] => Ret Idle | _ => Raise TypeError end
  else if String.eqb name "DC" then
    match params with [voltage] => Ret (DC voltage) | _ => Raise TypeError end
  else if String.eqb name "Sin" then
    match params with
    | [amplitude; frequency; phase] => Ret (Sin amplitude frequency phase)
    | _ => Raise TypeError
    end
  else Raise AttributeError.

(** An element with a sine on [a_ch1], and its record. *)
Definition e_sine : PulseBlockElement.t wave :=
  PulseBlockElement.init (Some (ns 20)) (Some 0%float)
    (Some [("a_ch1"%string, Sin 1%float 2870000000%float 0%float)])
    (Some [("d_ch1"%string, false)]).
Definition record_sine : PulseBlockElement.dict_repr wave (list float) :=
  PulseBlockElement.get_dict_representation wave_repr e_sine.

(** The record of an element without analog channels. *)
Definition record_digital : PulseBlockElement.dict_repr wave (list float) :=
  PulseBlockElement.get_dict_representation wave_repr e_10ns.

(** The records of a block with one element, and of a block without. *)
Definition record_block_one : PulseBlock.dict_repr wave (list float) :=
  PulseBlock.get_dict_representation wave_repr block_one.
Definition record_block_empty : PulseBlock.dict_repr wave (list float) :=
  PulseBlock.get_dict_representation wave_repr (BlockScript.empty "B").

(** [B.append_element(e_10ns); B.append_element(e_5ns); B.delete_element(0)] *)
Definition block_drifted : PulseBlock.t wave :=
  BlockScript.run [BlockScript.delete_element 0] block_two.

End Examples.

(** * PredefinedGeneratorBase: the element helpers

    The helpers read the active channels from [pulse_generator_settings]
    and the channel assignments from [generation_parameters], and build
    elements with the waveform classes of the external catalog.  The helpers
    whose length is itself a setting ([_get_delay_element],
    [_get_delay_gate_element]) are left out: an element holds a number. *)

(** [d[k]] on a dictionary, when the key is there. *)
Fixpoint dict_get {V} (k : string) (d : dict V) : option V :=
  match d with
  | [] => None
  | (k', v) :: d' => if String.eqb k' k then Some v else dict_get k d'
  end.

(** [{chnl: v for chnl in channels}]: one entry for each member of the set,
    in the order the set is iterated. *)
Definition dict_from_set {V} (channels : gset string) (v : V) : dict V :=
  (fun chnl => (chnl, v)) <$> elements channels.

Module GeneratorHelpers.

(** The logic module as the helpers see it: the parameters of the base
    class and [pulse_generator_settings.get('activation_config')], a pair of
    a name and a set of channels. *)
Record t : Type := mk {
  logic : PredefinedGeneratorBase.t;
  activation_config : option (string * gset string)
}.

Definition channel_set (self : t) : gset string :=
  match activation_config self with
  | Some channels => channels.2
  | None => ∅
  end.

Definition analog_channels (self : t) : gset string :=
  channels_starting_with "a" (channel_set self).

Definition digital_channels (self : t) : gset string :=
  channels_starting_with "d" (channel_set self).

(** [self.generation_parameters.get(key)] *)
Definition parameter (self : t) (key : string) : option PredefinedGeneratorBase.pval :=
  PredefinedGeneratorBase.generation_parameters (logic self) !! key.

(** [None if channel == '' else channel] *)
Definition none_if_empty (channel : option PredefinedGeneratorBase.pval)
    : option PredefinedGeneratorBase.pval :=
  if PredefinedGeneratorBase.is_empty_str channel then None else channel.

Definition laser_channel (self : t) : option PredefinedGeneratorBase.pval :=
  parameter self "laser_channel".

Definition sync_channel (self : t) : option PredefinedGeneratorBase.pval :=
  none_if_empty (parameter self "sync_channel").

Definition gate_channel (self : t) : option PredefinedGeneratorBase.pval :=
  none_if_empty (parameter self "gate_channel").

Definition microwave_channel (self : t) : option PredefinedGeneratorBase.pval :=
  none_if_empty (parameter self "microwave_channel").

Definition analog_trigger_voltage (self : t) : option PredefinedGeneratorBase.pval :=
  parameter self "analog_trigger_voltage".

(** The argument [channels] of [_get_trigger_element]: a string, a list of
    strings, or something that cannot be iterated ([None], a number). *)
Inductive channels_arg : Type :=
| ChStr (s : string)
| ChList (l : list string)
| ChOther.

(** A setting handed over as [channels]. *)
Definition channels_of (v : option PredefinedGeneratorBase.pval) : channels_arg :=
  match v with
  | Some (PredefinedGeneratorBase.PStr s) => ChStr s
  | _ => ChOther
  end.

(** [channel.startswith('d')] on a setting: only a string has the method. *)
Definition starts_with_d (v : option PredefinedGeneratorBase.pval) : result bool :=
  match v with
  | Some (PredefinedGeneratorBase.PStr s) => Ret (String.prefix "d" s)
  | _ => Raise AttributeError
  end.

(** An argument that is a number, a list of numbers, or [None]. *)
Inductive values_arg (A : Type) : Type :=
| Scalar (a : A)
| Values (l : list A)
| NoValues.
Arguments Scalar {A} a.
Arguments Values {A} l.
Arguments NoValues {A}.

Section Helpers.
Context {SF A : Type}.
(** The waveform classes of the catalog the helpers instantiate. *)
Variable sf_Idle : SF.
Variable sf_DC : option PredefinedGeneratorBase.pval -> SF.
Variable sf_Sin : A -> A -> A -> SF.
Variable sf_DoubleSin : A -> A -> A -> A -> A -> A -> SF.
Variable sf_TripleSin : A -> A -> A -> A -> A -> A -> A -> A -> A -> SF.

Abbreviation Element := (PulseBlockElement.t SF).

(** [element.digital_high[k] = v] and [element.pulse_function[k] = v]: the
    dictionary the element holds is changed, its channel sets are not. *)
Definition set_digital_high (k : string) (v : bool) (element : Element) : Element :=
  PulseBlockElement.mk
    (PulseBlockElement.init_length_s element) (PulseBlockElement.increment_s element)
    (PulseBlockElement.pulse_function element)
    (dict_setitem k v (PulseBlockElement.digital_high element))
    (PulseBlockElement.analog_channels element) (PulseBlockElement.digital_channels element)
    (PulseBlockElement.channel_set element).

Definition set_pulse_function (k : string) (v : SF) (element : Element) : Element :=
  PulseBlockElement.mk
    (PulseBlockElement.init_length_s element) (PulseBlockElement.increment_s element)
    (dict_setitem k v (PulseBlockElement.pulse_function element))
    (PulseBlockElement.digital_high element)
    (PulseBlockElement.analog_channels element) (PulseBlockElement.digital_channels element)
    (PulseBlockElement.channel_set element).

Definition _get_idle_element (self : t) (length increment : float) : Element :=
  PulseBlockElement.init (Some length) (Some increment)
    (Some (dict_from_set (analog_channels self) sf_Idle))
    (Some (dict_from_set (digital_channels self) false)).

(** The body of the loop of [_get_trigger_element]; the state is the pair
    of [pulse_function] and [digital_high]. *)
Definition trigger_step (self : t) (channel : string)
    : method (dict SF * dict bool) unit :=
  if String.prefix "d" channel then
    assign (fun d => (d.1, dict_setitem channel true d.2))
  else
    assign (fun d => (dict_setitem channel (sf_DC (analog_trigger_voltage self)) d.1, d.2)).

Definition _get_trigger_element (self : t) (length increment : float)
    (channels : channels_arg) : result Element :=
  let channels :=
    match channels with
    | ChStr s => Some [s]
    | ChList l => Some l
    | ChOther => None
    end in
  let pulse_function := dict_from_set (analog_channels self) sf_Idle in
  let digital_high := dict_from_set (digital_channels self) false in
  match channels with
  | None => Raise TypeError
  | Some channels =>
      match for_each channels (trigger_step self) (pulse_function, digital_high) with
      | (Ret _, d) =>
          Ret (PulseBlockElement.init (Some length) (Some increment) (Some d.1) (Some d.2))
      | (Raise e, _) => Raise e
      end
  end.

Definition _get_laser_element (self : t) (length increment : float) : result Element :=
  _get_trigger_element self length increment (channels_of (laser_channel self)).

Definition _get_laser_gate_element (self : t) (length increment : float) : result Element :=
  match _get_laser_element self length increment with
  | Raise e => Raise e
  | Ret laser_gate_element =>
      if PredefinedGeneratorBase.truth (gate_channel self) then
        match gate_channel self, starts_with_d (gate_channel self) with
        | Some (PredefinedGeneratorBase.PStr gate), Ret true =>
            Ret (set_digital_high gate true laser_gate_element)
        | Some (PredefinedGeneratorBase.PStr gate), Ret false =>
            Ret (set_pulse_function gate (sf_DC (analog_trigger_voltage self))
                   laser_gate_element)
        | _, Raise e => Raise e
        | _, _ => Raise AttributeError
        end
      else Ret laser_gate_element
  end.

(** The length [50e-9] is the float [0x1.ad7f29abcaf48p-25]. *)
Definition _get_sync_element (self : t) : result Element :=
  _get_trigger_element self 0x1.ad7f29abcaf48p-25%float 0%float
    (channels_of (sync_channel self)).

Definition _get_mw_element (self : t) (length increment : float) (amp freq phase : A)
    : result Element :=
  match microwave_channel self, starts_with_d (microwave_channel self) with
  | Some (PredefinedGeneratorBase.PStr mw), Ret true =>
      _get_trigger_element self length increment (channels_of (microwave_channel self))
  | Some (PredefinedGeneratorBase.PStr mw), Ret false =>
      let mw_element := _get_idle_element self length increment in
      Ret (set_pulse_function mw (sf_Sin amp freq phase) mw_element)
  | _, Raise e => Raise e
  | _, _ => Raise AttributeError
  end.

(** [isinstance(amps, (int, float))] wraps a number in a list; [len] of
    [None] is a [TypeError]. *)
Definition as_list (v : values_arg A) : result (list A) :=
  match v with
  | Scalar a => Ret [a]
  | Values l => Ret l
  | NoValues => Raise TypeError
  end.

(** The waveform [_get_multiple_mw_element] installs on an analog
    microwave channel. *)
Definition multiple_sine (amps freqs phases : values_arg A) : result SF :=
  match as_list amps with
  | Raise e => Raise e
  | Ret amps =>
  match as_list freqs with
  | Raise e => Raise e
  | Ret freqs =>
  match as_list phases with
  | Raise e => Raise e
  | Ret phases =>
      let sine_number := Z.min (Z.min (len amps) (len freqs)) (len phases) in
      let item (l : list A) (i : Z) (k : A -> result SF) : result SF :=
        match py_getitem l i with
        | Ret a => k a
        | Raise e => Raise e
        end in
      if sine_number <? 2 then
        item amps 0 (fun a0 => item freqs 0 (fun f0 => item phases 0 (fun p0 =>
          Ret (sf_Sin a0 f0 p0))))
      else if sine_number =? 2 then
        item amps 0 (fun a0 => item amps 1 (fun a1 =>
        item freqs 0 (fun f0 => item freqs 1 (fun f1 =>
        item phases 0 (fun p0 => item phases 1 (fun p1 =>
          Ret (sf_DoubleSin a0 a1 f0 f1 p0 p1)))))))
      else
        item amps 0 (fun a0 => item amps 1 (fun a1 => item amps 2 (fun a2 =>
        item freqs 0 (fun f0 => item freqs 1 (fun f1 => item freqs 2 (fun f2 =>
        item phases 0 (fun p0 => item phases 1 (fun p1 => item phases 2 (fun p2 =>
          Ret (sf_TripleSin a0 a1 a2 f0 f1 f2 p0 p1 p2))))))))))
  end end end.

Definition _get_multiple_mw_element (self : t) (length increment : float)
    (amps freqs phases : values_arg A) : result Element :=
  match microwave_channel self, starts_with_d (microwave_channel self) with
  | Some (PredefinedGeneratorBase.PStr mw), Ret true =>
      _get_trigger_element self length increment (channels_of (microwave_channel self))
  | Some (PredefinedGeneratorBase.PStr mw), Ret false =>
      let mw_element := _get_idle_element self length increment in
      match multiple_sine amps freqs phases with
      | Ret f => Ret (set_pulse_function mw f mw_element)
      | Raise e => Raise e
      end
  | _, Raise e => Raise e
  | _, _ => Raise AttributeError
  end.

Definition _get_mw_laser_element (self : t) (length increment : float) (amp freq phase : A)
    : result Element :=
  match _get_mw_element self length increment amp freq phase with
  | Raise e => Raise e
  | Ret mw_laser_element =>
      match laser_channel self, starts_with_d (laser_channel self) with
      | Some (PredefinedGeneratorBase.PStr laser), Ret true =>
          Ret (set_digital_high laser true mw_laser_element)
      | Some (PredefinedGeneratorBase.PStr laser), Ret false =>
          Ret (set_pulse_function laser (sf_DC (analog_trigger_voltage self))
                 mw_laser_element)
      | _, Raise e => Raise e
      | _, _ => Raise AttributeError
      end
  end.
End Helpers.
End GeneratorHelpers.

(** * PulseObjectGenerator: the parameters of the methods *)

Module MethodParameters.
Section Class.
(** [M]: references to bound methods; [D]: Python values, [py_None] among
    them.  [signature] stands for
    [inspect.signature(method).parameters.items()]: the names of the
    parameters, each with its default, [None] standing for [param.empty]. *)
Context {M D : Type}.
Variable py_None : D.
Variable signature : M -> list (string * option D).

(** [None if param.default is param.empty else param.default] *)
Definition recorded_default (default : option D) : D :=
  match default with
  | None => py_None
  | Some default => default
  end.

(** The inner loop of [__populate_parameter_dict]. *)
Definition param_dict (method : M) : dict D :=
  fold_left (fun param_dict param =>
               dict_setitem param.1 (recorded_default param.2) param_dict)
            (signature method) [].

(** [__populate_parameter_dict()], from [self._generate_methods]. *)
Definition populate_parameter_dict (generate_methods : gmap string M)
    : gmap string (dict D) :=
  map_fold (fun method_name method generate_method_parameters =>
              <[method_name := param_dict method]> generate_method_parameters)
           ∅ generate_methods.
End Class.
End MethodParameters.

(** * More concrete objects *)

Module MoreExamples.
(** Active channels [a_ch1], [d_ch1] and [d_ch2]; the laser on [d_ch1], the
    microwave on [a_ch1], a gate on [d_ch3], which is not active. *)
Definition context : GeneratorHelpers.t :=
  GeneratorHelpers.mk
    (PredefinedGeneratorBase.mk
       (<["laser_channel"%string := PredefinedGeneratorBase.PStr "d_ch1"]>
         (<["gate_channel"%string := PredefinedGeneratorBase.PStr "d_ch3"]>
           (<["microwave_channel"%string := PredefinedGeneratorBase.PStr "a_ch1"]>
             {["analog_trigger_voltage"%string := PredefinedGeneratorBase.PNum 1%float]}))))
    (Some ("config"%string, {["a_ch1"%string; "d_ch1"%string; "d_ch2"%string]})).

(** Waveform objects for the helpers: the parameters as they were given. *)
Inductive wave : Type :=
| Idle
| DC (voltage : option PredefinedGeneratorBase.pval)
| Sin (a f p : Z)
| DoubleSin (a1 a2 f1 f2 p1 p2 : Z)
| TripleSin (a1 a2 a3 f1 f2 f3 p1 p2 p3 : Z).

(** A step without repetitions, and steps with. *)
Definition no_repetitions : seq_param := {["go_to"%string := 0]}.
Definition sequence_one_step : PulseSequence.t Z :=
  PulseSequence.mk "seq" false [mk_step tuple "E1"%string (Examples.reps 3)] true ∅ ∅.

(** A location that does not exist, and one with a module whose import
    raises. *)
Definition missing_dir : PulseObjectGenerator.location nat :=
  PulseObjectGenerator.mk_location "additional_methods" false [].
Definition broken_dir : PulseObjectGenerator.location nat :=
  PulseObjectGenerator.mk_location "broken_methods" true [Raise AttributeError].

(** The signature of a bound method
    [generate_rabi(self, tau_start, name='rabi', num_of_points=50)]: default
    values are strings and numbers. *)
Inductive value : Type :=
| VNone
| VStr (s : string)
| VInt (z : Z).
Definition signature (method : nat) : list (string * option value) :=
  [("tau_start"%string, None); ("name"%string, Some (VStr "rabi"));
   ("num_of_points"%string, Some (VInt 50))].
End MoreExamples.

(** * What a scan finds, as the docstring of [__import_external_generators]
      words it *)

Module Scan.
Section Scan.
Context {M : Type}.

(** The generator classes of the modules of a location that exists. *)
Definition classes_of_location (path : PulseObjectGenerator.location M)
    : list (PulseObjectGenerator.pyclass M) :=
  if PulseObjectGenerator.loc_exists path then
    PulseObjectGenerator.loc_modules path ≫=
      (fun module => match module with
                     | Ret members => PulseObjectGenerator.generator_classes_of members
                     | Raise _ => []
                     end)
  else [].

(** The classes of all locations, in the order of the scan. *)
Definition discovered_classes (paths : list (PulseObjectGenerator.location M))
    : list (PulseObjectGenerator.pyclass M) :=
  paths ≫= classes_of_location.

(** The paths that do not exist, in the order of the scan. *)
Definition missing_paths (paths : list (PulseObjectGenerator.location M)) : list string :=
  PulseObjectGenerator.loc_path <$>
    filter (fun path => PulseObjectGenerator.loc_exists path = false) paths.

(** Every module of every location that exists can be imported. *)
Definition all_imports_succeed (paths : list (PulseObjectGenerator.location M)) : Prop :=
  Forall (fun path =>
            PulseObjectGenerator.loc_exists path = true ->
            Forall (fun module => exists members, module = Ret members)
                   (PulseObjectGenerator.loc_modules path)) paths.
End Scan.
End Scan.
(** * Properties *)

(** ** Running method bodies *)

Ltac run :=
  cbv beta delta [mbind method_bind mret method_ret get put eval raise assign] iota.

(** Boolean comparisons on [Z] as propositions, for [lia]. *)
Ltac zbool :=
  repeat match goal with
  | H : _ && _ = true |- _ => apply andb_true_iff in H; destruct H
  | H : _ && _ = false |- _ => apply andb_false_iff in H; destruct H
  | H : _ || _ = true |- _ => apply orb_true_iff in H; destruct H
  | H : _ || _ = false |- _ => apply orb_false_iff in H; destruct H
  | H : (_ <=? _) = true |- _ => apply Z.leb_le in H
  | H : (_ <=? _) = false |- _ => apply Z.leb_gt in H
  | H : (_ <? _) = true |- _ => apply Z.ltb_lt in H
  | H : (_ <? _) = false |- _ => apply Z.ltb_ge in H
  | H : (_ =? _) = true |- _ => apply Z.eqb_eq in H
  | H : (_ =? _) = false |- _ => apply Z.eqb_neq in H
  end.

(** A bound on the length of a concrete list. *)
Ltac len_lia :=
  unfold len;
  repeat match goal with
  | |- context [length ?l] =>
      let n := eval vm_compute in (length l) in
      progress change (length l) with n
  end; lia.

Ltac zsolve := zbool; first [done | lia | exfalso; lia | f_equal; lia].

(** ** Python list indexing *)

Section PyList.
Context {A : Type}.
Implicit Types (l : list A) (i : Z) (k : nat).

Lemma py_index_lt l i k : py_index l i = Some k -> (k < length l)%nat.
Proof. unfold py_index, len. intros H. unfold len in *. repeat case_match; simplify_eq; zsolve. Qed.

Lemma py_index_ge l i : len l <= i -> py_index l i = None.
Proof. unfold py_index, len. intros H. unfold len in *. repeat case_match; simplify_eq; zsolve. Qed.

Lemma py_index_nonneg l i : 0 <= i < len l -> py_index l i = Some (Z.to_nat i).
Proof. unfold py_index, len. intros H. unfold len in *. repeat case_match; simplify_eq; zsolve. Qed.

Lemma py_index_neg l i :
  - len l <= i < 0 -> py_index l i = Some (Z.to_nat (len l + i)).
Proof. unfold py_index, len. intros H. unfold len in *. repeat case_match; simplify_eq; zsolve. Qed.

Lemma py_index_below l i : i < - len l -> py_index l i = None.
Proof. unfold py_index, len. intros H. unfold len in *. repeat case_match; simplify_eq; zsolve. Qed.

(** Indexing either finds an element or raises [IndexError]. *)
Lemma py_getitem_cases l i :
  (exists k x, py_index l i = Some k /\ l !! k = Some x /\ py_getitem l i = Ret x)
  \/ (py_index l i = None /\ py_getitem l i = Raise IndexError).
Proof.
  unfold py_getitem. destruct (py_index l i) as [k|] eqn:E; [left|right; done].
  destruct (lookup_lt_is_Some_2 l k (py_index_lt _ _ _ E)) as [x Hx].
  exists k, x. by rewrite Hx.
Qed.

Lemma py_insert_length l i x : length (py_insert l i x) = S (length l).
Proof.
  unfold py_insert. rewrite length_app. simpl.
  rewrite length_take, length_drop. lia.
Qed.

Lemma py_insert_perm l i x : py_insert l i x ≡ₚ x :: l.
Proof.
  unfold py_insert. rewrite <- Permutation_middle.
  by rewrite take_drop.
Qed.
End PyList.

(** ** Floating-point sums *)

Section Sums.
Implicit Types (xs : list float) (x : float).

Lemma sum_of_snoc xs x : sum_of (xs ++ [x]) = (sum_of xs + x)%float.
Proof. unfold sum_of. by rewrite fold_left_app. Qed.

Lemma sum_from xs x :
  fold_left PrimFloat.add xs (0 + x)%float = sum_of (x :: xs).
Proof. reflexivity. Qed.
End Sums.

(** ** PulseBlock: what each method does *)

Section BlockMethods.
Context {SF : Type}.
Implicit Types (b : PulseBlock.t SF) (e : PulseBlockElement.t SF) (position : Z).

Lemma replace_element_eq position e b :
  PulseBlock.replace_element position (Inst e) b =
  if len (PulseBlock.element_list b) <=? position then (Ret (-1), b)
  else if bool_decide (PulseBlockElement.channel_set e ≠ PulseBlock.channel_set b)
  then (Raise ValueError, b)
  else match py_index (PulseBlock.element_list b) position with
       | None => (Raise IndexError, b)
       | Some k =>
           match PulseBlock.element_list b !! k with
           | None => (Raise IndexError, b)
           | Some old =>
               (Ret 0,
                PulseBlock.mk (PulseBlock.name b) (<[k := e]> (PulseBlock.element_list b))
                  (PulseBlock.init_length_s b - PulseBlockElement.init_length_s old
                   + PulseBlockElement.init_length_s e)%float
                  (PulseBlock.increment_s b - PulseBlockElement.increment_s old
                   + PulseBlockElement.increment_s e)%float
                  (PulseBlock.analog_channels b) (PulseBlock.digital_channels b)
                  (PulseBlock.channel_set b))
           end
       end.
Proof.
  unfold PulseBlock.replace_element. run.
  destruct (_ <=? _); [done|]. destruct (bool_decide _); [done|].
  unfold py_getitem, py_setitem. simpl.
  destruct (py_index _ _) as [k|]; [|done].
  destruct (_ !! k); done.
Qed.

Lemma delete_element_eq position b :
  PulseBlock.delete_element position b =
  if len (PulseBlock.element_list b) <=? position then (Ret (-1), b)
  else match py_index (PulseBlock.element_list b) position with
       | None => (Raise IndexError, b)
       | Some k =>
           match PulseBlock.element_list b !! k with
           | None => (Raise IndexError, b)
           | Some old =>
               let l := delete k (PulseBlock.element_list b) in
               (Ret 0,
                PulseBlock.mk (PulseBlock.name b) l
                  (if len l =? 0 then 0%float
                   else (PulseBlock.init_length_s b - PulseBlockElement.init_length_s old)%float)
                  (if len l =? 0 then 0%float
                   else (PulseBlock.increment_s b - PulseBlockElement.increment_s old)%float)
                  (PulseBlock.analog_channels b) (PulseBlock.digital_channels b)
                  (PulseBlock.channel_set b))
           end
       end.
Proof.
  unfold PulseBlock.delete_element. run.
  destruct (_ <=? _); [done|].
  unfold py_getitem, py_delitem. simpl.
  destruct (py_index _ _) as [k|]; [|done].
  destruct (_ !! k); [|done]. simpl.
  destruct (_ =? _); done.
Qed.

Lemma insert_element_eq position e b :
  PulseBlock.insert_element position (Inst e) b =
  if len (PulseBlock.element_list b) <? position then (Ret (-1), b)
  else if bool_decide (PulseBlock.channel_set b = ∅) then
    (Ret 0,
     PulseBlock.mk (PulseBlock.name b) (py_insert (PulseBlock.element_list b) position e)
       (PulseBlock.init_length_s b + PulseBlockElement.init_length_s e)%float
       (PulseBlock.increment_s b + PulseBlockElement.increment_s e)%float
       (channels_starting_with "a" (PulseBlockElement.channel_set e))
       (channels_starting_with "d" (PulseBlockElement.channel_set e))
       (PulseBlockElement.channel_set e))
  else if bool_decide (PulseBlockElement.channel_set e ≠ PulseBlock.channel_set b)
  then (Raise ValueError, b)
  else
    (Ret 0,
     PulseBlock.mk (PulseBlock.name b) (py_insert (PulseBlock.element_list b) position e)
       (PulseBlock.init_length_s b + PulseBlockElement.init_length_s e)%float
       (PulseBlock.increment_s b + PulseBlockElement.increment_s e)%float
       (PulseBlock.analog_channels b) (PulseBlock.digital_channels b)
       (PulseBlock.channel_set b)).
Proof.
  unfold PulseBlock.insert_element. run.
  destruct (_ <? _); [done|].
  destruct (bool_decide (PulseBlock.channel_set b = ∅)); [done|].
  destruct (bool_decide _); [done|]. by destruct b.
Qed.

Lemma append_element_eq element at_beginning b :
  PulseBlock.append_element element at_beginning b =
  PulseBlock.insert_element
    (if at_beginning then 0 else len (PulseBlock.element_list b)) element b.
Proof. reflexivity. Qed.

(** Something that is not an element is refused by every method. *)
Lemma block_other_arg position b :
  PulseBlock.insert_element position Other b = (Ret (-1), b)
  /\ PulseBlock.replace_element position Other b = (Ret (-1), b).
Proof. done. Qed.
End BlockMethods.

(** ** PulseBlock: the totals follow the calls *)

Section BlockTotals.
Context {SF : Type}.
Implicit Types (b : PulseBlock.t SF) (e : PulseBlockElement.t SF) (position : Z).

Lemma empty_is_init name :
  PulseBlock.init name None = Ret (BlockScript.empty (SF := SF) name).
Proof. reflexivity. Qed.

Lemma totals_consistent_empty name : totals_consistent (BlockScript.empty (SF := SF) name).
Proof. split; reflexivity. Qed.











End BlockTotals.

(** ** PulseBlockEnsemble: what each method does *)

Section EnsembleMethods.
Context {V : Type}.
Implicit Types (e : PulseBlockEnsemble.t V) (position : Z).

Lemma replace_block_eq position block_name reps e :
  PulseBlockEnsemble.replace_block position (Inst block_name) reps e =
  let l := PulseBlockEnsemble.block_list e in
  if len l <=? position then (Ret (-1), e)
  else match reps with
       | None =>
           match py_index l position with
           | None => (Raise IndexError, e)
           | Some k =>
               match l !! k with
               | None => (Raise IndexError, e)
               | Some st =>
                   match kind st with
                   | tuple => (Raise TypeError, e)
                   | pylist =>
                       (Ret 0,
                        PulseBlockEnsemble.set_block_list
                          (<[k := mk_step pylist block_name (step_param st)]> l) e)
                   end
               end
           end
       | Some reps =>
           if 0 <=? reps then
             match py_index l position with
             | None => (Raise IndexError, e)
             | Some k =>
                 (Ret 0,
                  PulseBlockEnsemble.set_block_list
                    (<[k := mk_step tuple block_name reps]> l) e)
             end
           else (Ret (-1), e)
       end.
Proof.
  unfold PulseBlockEnsemble.replace_block. run. cbv zeta.
  destruct (_ <=? _); [done|]. destruct reps as [reps|].
  - destruct (0 <=? reps); [|done]. unfold py_setitem.
    destruct (py_index _ _); done.
  - unfold py_getitem, py_setitem, step_setitem0.
    destruct (py_index _ _) as [k|]; [|done].
    destruct (_ !! k) as [st|]; [|done]. destruct (kind st); done.
Qed.

Lemma delete_block_eq position e :
  PulseBlockEnsemble.delete_block position e =
  let l := PulseBlockEnsemble.block_list e in
  if len l <=? position then (Ret (-1), e)
  else match py_index l position with
       | None => (Raise IndexError, e)
       | Some k => (Ret 0, PulseBlockEnsemble.set_block_list (delete k l) e)
       end.
Proof.
  unfold PulseBlockEnsemble.delete_block. run. cbv zeta.
  destruct (_ <=? _); [done|]. unfold py_delitem.
  destruct (py_index _ _); done.
Qed.

Lemma insert_block_eq position block_name reps e :
  PulseBlockEnsemble.insert_block position (Inst block_name) reps e =
  let l := PulseBlockEnsemble.block_list e in
  if (len l <? position) || (reps <? 0) then (Ret (-1), e)
  else (Ret 0,
        PulseBlockEnsemble.set_block_list
          (py_insert l position (mk_step tuple block_name reps)) e).
Proof.
  unfold PulseBlockEnsemble.insert_block. run. cbv zeta.
  destruct (_ || _); done.
Qed.

Lemma append_block_eq block_name reps at_beginning e :
  PulseBlockEnsemble.append_block block_name reps at_beginning e =
  PulseBlockEnsemble.insert_block
    (if at_beginning then 0 else len (PulseBlockEnsemble.block_list e)) block_name reps e.
Proof. reflexivity. Qed.

(** A name that is not a string is refused by every method. *)
Lemma ensemble_other_arg position reps reps' e :
  PulseBlockEnsemble.insert_block position Other reps e = (Ret (-1), e)
  /\ PulseBlockEnsemble.replace_block position Other reps' e = (Ret (-1), e).
Proof. done. Qed.
End EnsembleMethods.

(** ** PulseSequence: the flag [is_finite] *)

Section ExistsbEdits.
Context {A : Type} (f : A -> bool).
Implicit Types (l : list A) (k : nat).

Lemma existsb_perm l l' : l ≡ₚ l' -> existsb f l = existsb f l'.
Proof.
  induction 1 as [|x l l' _ IH|x y l|l l' l'' _ IH1 _ IH2]; simpl.
  - done.
  - by rewrite IH.
  - by rewrite !orb_assoc, (orb_comm (f y)).
  - congruence.
Qed.

Lemma existsb_py_insert l i x : existsb f (py_insert l i x) = f x || existsb f l.
Proof. by rewrite (existsb_perm _ _ (py_insert_perm l i x)). Qed.

Lemma existsb_delete l k x :
  l !! k = Some x -> existsb f l = f x || existsb f (delete k l).
Proof. intros H. by rewrite (existsb_perm _ _ (delete_Permutation l k x H)). Qed.

Lemma existsb_insert l k x y :
  l !! k = Some x -> existsb f (<[k := y]> l) = f y || existsb f (delete k l).
Proof.
  revert k. induction l as [|z l IH]; intros [|k] H; try done.
  simpl in *. rewrite (IH k H). by rewrite !orb_assoc, (orb_comm (f z)).
Qed.
End ExistsbEdits.

Section SequenceMethods.
Context {V : Type}.
Implicit Types (s : PulseSequence.t V) (position : Z) (p : seq_param)
  (l : list (step seq_param)).

Lemma repetitions_Some p : has_repetitions p -> exists r, repetitions p = Ret r.
Proof. intros [r Hr]. exists r. unfold repetitions. by rewrite Hr. Qed.

Lemma is_negative_repetitions (st : step seq_param) r :
  repetitions (step_param st) = Ret r -> is_negative st = (r <? 0).
Proof.
  unfold repetitions, is_negative. destruct (_ !! _); [|done]. by intros [= ->].
Qed.

Lemma refresh_loop_eq l s :
  Forall (fun st => has_repetitions (step_param st)) l ->
  PulseSequence.refresh_loop l s =
  (Ret tt, if existsb is_negative l then PulseSequence.set_is_finite false s else s).
Proof.
  induction 1 as [|st l Hst _ IH]; [done|].
  destruct (repetitions_Some _ Hst) as [r Hr].
  simpl. run. rewrite Hr, (is_negative_repetitions st r Hr).
  destruct (r <? 0); [done|]. apply IH.
Qed.

Lemma refresh_parameters_eq s :
  Forall (fun st => has_repetitions (step_param st)) (PulseSequence.ensemble_list s) ->
  PulseSequence.refresh_parameters s =
  (Ret tt,
   PulseSequence.set_is_finite
     (negb (existsb is_negative (PulseSequence.ensemble_list s))) s).
Proof.
  intros H. unfold PulseSequence.refresh_parameters. run.
  change (PulseSequence.ensemble_list (PulseSequence.set_is_finite true s))
    with (PulseSequence.ensemble_list s).
  rewrite (refresh_loop_eq _ _ H). by destruct (existsb _ _).
Qed.

(** The constructor succeeds when every step carries repetitions. *)
Lemma init_eq name l rotating_frame :
  Forall (fun st => has_repetitions (step_param st)) l ->
  PulseSequence.init name (Some l) rotating_frame =
  Ret (PulseSequence.mk (V := V) name rotating_frame l
         (negb (existsb is_negative l)) ∅ ∅).
Proof.
  intros H. unfold PulseSequence.init.
  rewrite refresh_parameters_eq by done. done.
Qed.

Lemma insert_ensemble_eq position ensemble_name p r s :
  repetitions p = Ret r ->
  PulseSequence.insert_ensemble position (Inst ensemble_name) p s =
  let l := PulseSequence.ensemble_list s in
  if len l <? position then (Ret (-1), s)
  else (Ret 0,
        PulseSequence.mk (PulseSequence.name s) (PulseSequence.rotating_frame s)
          (py_insert l position (mk_step tuple ensemble_name p))
          (if r <? 0 then false else PulseSequence.is_finite s)
          (PulseSequence.sampling_information s)
          (PulseSequence.measurement_information s)).
Proof.
  intros Hr. unfold PulseSequence.insert_ensemble. run. cbv zeta.
  destruct (_ <? _); [done|]. rewrite Hr. by destruct (r <? 0).
Qed.

Lemma append_ensemble_eq ensemble_name p at_beginning s :
  PulseSequence.append_ensemble ensemble_name p at_beginning s =
  PulseSequence.insert_ensemble
    (if at_beginning then 0 else len (PulseSequence.ensemble_list s)) ensemble_name p s.
Proof. reflexivity. Qed.

Lemma delete_ensemble_eq position s :
  Forall (fun st => has_repetitions (step_param st)) (PulseSequence.ensemble_list s) ->
  PulseSequence.delete_ensemble position s =
  let l := PulseSequence.ensemble_list s in
  if len l <=? position then (Ret (-1), s)
  else match py_index l position with
       | None => (Raise IndexError, s)
       | Some k =>
           match l !! k with
           | None => (Raise IndexError, s)
           | Some st =>
               (Ret 0,
                PulseSequence.mk (PulseSequence.name s) (PulseSequence.rotating_frame s)
                  (delete k l)
                  (if is_negative st then negb (existsb is_negative (delete k l))
                   else PulseSequence.is_finite s)
                  (PulseSequence.sampling_information s)
                  (PulseSequence.measurement_information s))
           end
       end.
Proof.
  intros Hwf. unfold PulseSequence.delete_ensemble. run. cbv zeta.
  destruct (_ <=? _); [done|]. unfold py_getitem, py_delitem.
  destruct (py_index _ _) as [k|]; [|done].
  destruct (_ !! k) as [st|] eqn:Hk; [|done].
  destruct (repetitions_Some (step_param st)) as [r Hr].
  { by eapply (Forall_lookup_1 _ _ _ _ Hwf). }
  rewrite Hr, (is_negative_repetitions st r Hr).
  destruct (r <? 0); [|done].
  rewrite refresh_parameters_eq; [done|].
  simpl. by apply Forall_delete.
Qed.

Lemma replace_ensemble_eq position ensemble_name p r s :
  Forall (fun st => has_repetitions (step_param st)) (PulseSequence.ensemble_list s) ->
  repetitions p = Ret r ->
  PulseSequence.replace_ensemble position (Inst ensemble_name) (Some p) s =
  let l := PulseSequence.ensemble_list s in
  if len l <=? position then (Ret (-1), s)
  else match py_index l position with
       | None => (Raise IndexError, s)
       | Some k =>
           let l' := <[k := mk_step tuple ensemble_name p]> l in
           (Ret 0,
            PulseSequence.mk (PulseSequence.name s) (PulseSequence.rotating_frame s) l'
              (if (r <? 0) && PulseSequence.is_finite s then false
               else if (0 <=? r) && negb (PulseSequence.is_finite s)
                    then negb (existsb is_negative l')
                    else PulseSequence.is_finite s)
              (PulseSequence.sampling_information s)
              (PulseSequence.measurement_information s))
       end.
Proof.
  intros Hwf Hr. unfold PulseSequence.replace_ensemble. run. cbv zeta.
  destruct (_ <=? _); [done|]. unfold py_setitem.
  destruct (py_index _ _) as [k|]; [|done].
  rewrite Hr. simpl.
  destruct ((r <? 0) && PulseSequence.is_finite s); [done|].
  destruct ((0 <=? r) && negb (PulseSequence.is_finite s)); [|by destruct s].
  rewrite refresh_parameters_eq; [done|].
  simpl. apply Forall_insert; [done|]. simpl.
  unfold has_repetitions, repetitions in *. destruct (p !! _); [by eexists|done].
Qed.

Lemma replace_ensemble_name_eq position ensemble_name s :
  PulseSequence.replace_ensemble position (Inst ensemble_name) None s =
  let l := PulseSequence.ensemble_list s in
  if len l <=? position then (Ret (-1), s)
  else match py_index l position with
       | None => (Raise IndexError, s)
       | Some k =>
           match l !! k with
           | None => (Raise IndexError, s)
           | Some st =>
               match kind st with
               | tuple => (Raise TypeError, s)
               | pylist =>
                   (Ret 0,
                    PulseSequence.set_ensemble_list
                      (<[k := mk_step pylist ensemble_name (step_param st)]> l) s)
               end
           end
       end.
Proof.
  unfold PulseSequence.replace_ensemble. run. cbv zeta.
  destruct (_ <=? _); [done|].
  unfold py_getitem, py_setitem, step_setitem0.
  destruct (py_index _ _) as [k|]; [|done].
  destruct (_ !! k) as [st|]; [|done]. destruct (kind st); done.
Qed.
End SequenceMethods.

Section SequenceFiniteness.
Context {V : Type}.
Implicit Types (s : PulseSequence.t V) (position : Z) (p : seq_param).

Lemma sequence_ok_init name l rotating_frame :
  Forall (fun st => has_repetitions (step_param st)) l ->
  exists s0 : PulseSequence.t V,
    PulseSequence.init name (Some l) rotating_frame = Ret s0
    /\ PulseSequence.ensemble_list s0 = l /\ sequence_ok s0.
Proof.
  intros H. eexists. split; [by apply init_eq|]. by split; [|split].
Qed.

Lemma insert_ensemble_ok position ensemble_name p s :
  has_repetitions p -> sequence_ok s ->
  sequence_ok (PulseSequence.insert_ensemble position ensemble_name p s).2.
Proof.
  intros Hp [Hwf Hfin]. destruct ensemble_name as [ensemble_name|]; [|done].
  destruct (repetitions_Some p Hp) as [r Hr].
  rewrite (insert_ensemble_eq _ _ _ r) by done. cbv zeta.
  destruct (_ <? _); [done|]. split; simpl.
  - unfold py_insert. apply Forall_app. split; [by apply Forall_take|].
    constructor; [done|by apply Forall_drop].
  - rewrite existsb_py_insert.
    rewrite (is_negative_repetitions (mk_step tuple ensemble_name p) r Hr).
    by destruct (r <? 0).
Qed.

Lemma delete_ensemble_ok position s :
  sequence_ok s -> sequence_ok (PulseSequence.delete_ensemble position s).2.
Proof.
  intros [Hwf Hfin]. rewrite delete_ensemble_eq by done. cbv zeta.
  destruct (_ <=? _); [done|].
  destruct (py_index _ _) as [k|]; [|done].
  destruct (_ !! k) as [st|] eqn:Hk; [|done].
  split; simpl; [by apply Forall_delete|].
  destruct (is_negative st) eqn:Hneg; [done|].
  by rewrite Hfin, (existsb_delete _ _ _ _ Hk), Hneg.
Qed.

Lemma replace_ensemble_ok position ensemble_name seq_param s :
  from_option has_repetitions True seq_param -> sequence_ok s ->
  sequence_ok (PulseSequence.replace_ensemble position ensemble_name seq_param s).2.
Proof.
  intros Hp [Hwf Hfin]. destruct ensemble_name as [ensemble_name|]; [|done].
  destruct seq_param as [p|]; simpl in Hp.
  - destruct (repetitions_Some p Hp) as [r Hr].
    rewrite (replace_ensemble_eq _ _ _ r) by done. cbv zeta.
    destruct (_ <=? _); [done|].
    destruct (py_index _ _) as [k|] eqn:Hidx; [|done].
    destruct (lookup_lt_is_Some_2 _ k (py_index_lt _ _ _ Hidx)) as [old Hold].
    split; simpl; [by apply Forall_insert|].
    rewrite (existsb_insert _ _ _ _ _ Hold).
    rewrite (is_negative_repetitions (mk_step tuple ensemble_name p) r Hr).
    rewrite Hfin, (existsb_delete _ _ _ _ Hold).
    destruct (r <? 0) eqn:E, (0 <=? r) eqn:E', (is_negative old),
      (existsb is_negative (delete k _)); simpl; try done; zbool; lia.
  - rewrite replace_ensemble_name_eq. cbv zeta.
    destruct (_ <=? _); [done|].
    destruct (py_index _ _) as [k|] eqn:Hidx; [|done].
    destruct (_ !! k) as [st|] eqn:Hk; [|done].
    destruct (kind st); [done|]. split; simpl.
    + apply Forall_insert; [done|]. simpl.
      by eapply (Forall_lookup_1 _ _ _ _ Hwf).
    + rewrite Hfin, (existsb_insert _ _ _ _ _ Hk), (existsb_delete _ _ _ _ Hk). done.
Qed.

Lemma run_call_ok (c : SequenceScript.call) s :
  Forall has_repetitions (SequenceScript.params_of c) -> sequence_ok s ->
  sequence_ok (SequenceScript.run_call c s).2.
Proof.
  destruct c as [position n p|position n [p|]|position|n p b]; simpl; intros Hp Hs.
  - apply insert_ensemble_ok; [by inversion Hp|done].
  - apply replace_ensemble_ok; [by inversion Hp|done].
  - by apply replace_ensemble_ok.
  - by apply delete_ensemble_ok.
  - rewrite append_ensemble_eq. apply insert_ensemble_ok; [by inversion Hp|done].
Qed.

Lemma run_ok (calls : list SequenceScript.call) s :
  Forall has_repetitions (calls ≫= SequenceScript.params_of) -> sequence_ok s ->
  sequence_ok (SequenceScript.run calls s).
Proof.
  revert s. induction calls as [|c calls IH]; intros s Hp Hs; [done|].
  simpl in *. apply Forall_app in Hp as [Hc Hp].
  by apply IH, run_call_ok.
Qed.

Lemma existsb_is_negative (l : list (step seq_param)) :
  existsb is_negative l = true <->
  exists st r, st ∈ l /\ repetitions (step_param st) = Ret r /\ r < 0.
Proof.
  rewrite existsb_exists. split.
  - intros (st & Hin & Hneg). unfold is_negative in Hneg.
    destruct (step_param st !! "repetitions"%string) as [r|] eqn:Hr; [|done].
    exists st, r. split; [by apply list_elem_of_In|].
    unfold repetitions. rewrite Hr. split; [done|]. by apply Z.ltb_lt.
  - intros (st & r & Hin & Hr & Hneg). exists st. split; [by apply list_elem_of_In|].
    rewrite (is_negative_repetitions st r Hr). by apply Z.ltb_lt.
Qed.

(** C3, amended.  For a sequence built by the constructor from steps that
    all carry repetitions and then edited by any series of insert, replace,
    delete and append calls whose parameter dictionaries carry repetitions:
    [is_finite] is false exactly when some step of the current list has
    negative repetitions; and deleting the only step with negative
    repetitions succeeds and leaves [is_finite] true. *)
Theorem is_finite_iff_no_negative_step name l rotating_frame
    (calls : list SequenceScript.call) :
  Forall (fun st => has_repetitions (step_param st)) l ->
  Forall has_repetitions (calls ≫= SequenceScript.params_of) ->
  exists s0 : PulseSequence.t V,
    PulseSequence.init name (Some l) rotating_frame = Ret s0
    /\ let s := SequenceScript.run calls s0 in
       (PulseSequence.is_finite s = false <->
        exists st r, st ∈ PulseSequence.ensemble_list s
                     /\ repetitions (step_param st) = Ret r /\ r < 0)
       /\ forall position st,
            0 <= position < len (PulseSequence.ensemble_list s) ->
            PulseSequence.ensemble_list s !! Z.to_nat position = Some st ->
            is_negative st = true ->
            (forall k st', k <> Z.to_nat position ->
               PulseSequence.ensemble_list s !! k = Some st' -> is_negative st' = false) ->
            exists s',
              PulseSequence.delete_ensemble position s = (Ret 0, s')
              /\ PulseSequence.ensemble_list s'
                 = delete (Z.to_nat position) (PulseSequence.ensemble_list s)
              /\ PulseSequence.is_finite s' = true.
Proof.
  intros Hl Hcalls.
  destruct (sequence_ok_init name l rotating_frame Hl) as (s0 & Hinit & _ & Hok0).
  exists s0. split; [done|]. cbv zeta.
  pose proof (run_ok calls s0 Hcalls Hok0) as [Hwf Hfin].
  set (s := SequenceScript.run calls s0) in *. split.
  - rewrite Hfin, <- existsb_is_negative. by destruct (existsb _ _).
  - intros position st Hpos Hst Hneg Honly.
    rewrite delete_ensemble_eq by done. cbv zeta.
    rewrite (proj2 (Z.leb_gt _ _)) by lia.
    rewrite py_index_nonneg by done. rewrite Hst, Hneg.
    eexists. split; [done|]. split; [done|]. simpl.
    apply negb_true_iff, not_true_is_false. intros Hex.
    apply existsb_exists in Hex as (st' & Hin & Hneg').
    apply list_elem_of_In, list_elem_of_lookup in Hin as [k Hk].
    destruct (decide (k < Z.to_nat position)%nat).
    + rewrite list_lookup_delete_lt in Hk by done.
      rewrite (Honly k st') in Hneg'; [done|lia|done].
    + rewrite list_lookup_delete_ge in Hk by lia.
      rewrite (Honly (S k) st') in Hneg'; [done|lia|done].
Qed.
End SequenceFiniteness.

(** ** Replacing only the name of a step *)

Section NameOnlyReplace.
Context {V : Type}.

Lemma ensemble_run_tuples (calls : list EnsembleScript.call) (e : PulseBlockEnsemble.t V) :
  Forall (fun st => kind st = tuple) (PulseBlockEnsemble.block_list e) ->
  Forall (fun st => kind st = tuple)
         (PulseBlockEnsemble.block_list (EnsembleScript.run calls e)).
Proof.
  revert e. induction calls as [|c calls IH]; intros e H; [done|].
  simpl. apply IH. clear IH.
  destruct c as [position [n|] r|position [n|] [r|]|position|[n|] r b]; simpl; try done.
  - rewrite insert_block_eq. cbv zeta. destruct (_ || _); [done|]. simpl.
    unfold py_insert. apply Forall_app. split; [by apply Forall_take|].
    constructor; [done|by apply Forall_drop].
  - rewrite replace_block_eq. cbv zeta.
    repeat case_match; try done; simpl; by apply Forall_insert.
  - rewrite replace_block_eq. cbv zeta.
    destruct (_ <=? _); [done|]. destruct (py_index _ _) as [k|]; [|done].
    destruct (_ !! k) as [st|] eqn:Hk; [|done].
    by rewrite (Forall_lookup_1 _ _ _ _ H Hk).
  - rewrite delete_block_eq. cbv zeta.
    repeat case_match; try done; simpl; by apply Forall_delete.
  - rewrite append_block_eq, insert_block_eq. cbv zeta.
    destruct (_ || _); [done|]. simpl.
    unfold py_insert. apply Forall_app. split; [by apply Forall_take|].
    constructor; [done|by apply Forall_drop].
Qed.

Lemma sequence_run_tuples (calls : list SequenceScript.call) (s : PulseSequence.t V) :
  Forall (fun st => has_repetitions (step_param st) /\ kind st = tuple)
         (PulseSequence.ensemble_list s) ->
  Forall has_repetitions (calls ≫= SequenceScript.params_of) ->
  Forall (fun st => has_repetitions (step_param st) /\ kind st = tuple)
         (PulseSequence.ensemble_list (SequenceScript.run calls s)).
Proof.
  revert s. induction calls as [|c calls IH]; intros s H Hp; [done|].
  simpl in *. apply Forall_app in Hp as [Hc Hp]. apply IH; [|done]. clear IH Hp.
  assert (Forall (fun st => has_repetitions (step_param st))
                 (PulseSequence.ensemble_list s)) as Hwf
    by (eapply Forall_impl; [done|by intros ? []]).
  assert (forall position n p, has_repetitions p ->
    Forall (fun st => has_repetitions (step_param st) /\ kind st = tuple)
      (PulseSequence.ensemble_list
         (PulseSequence.insert_ensemble position (Inst n) p s).2)) as Hins.
  { intros position n p Hrep. destruct (repetitions_Some p Hrep) as [r Hr].
    rewrite (insert_ensemble_eq _ _ _ r) by done. cbv zeta.
    destruct (_ <? _); [done|]. simpl.
    unfold py_insert. apply Forall_app. split; [by apply Forall_take|].
    constructor; [done|by apply Forall_drop]. }
  destruct c as [position [n|] p|position [n|] [p|]|position|[n|] p b]; simpl; try done.
  - apply Hins. by inversion Hc.
  - simpl in Hc. apply Forall_cons in Hc as [Hrep _].
    destruct (repetitions_Some p Hrep) as [r Hr].
    rewrite (replace_ensemble_eq _ _ _ r) by done. cbv zeta.
    repeat case_match; try done; simpl; by apply Forall_insert.
  - rewrite replace_ensemble_name_eq. cbv zeta.
    destruct (_ <=? _); [done|]. destruct (py_index _ _) as [k|]; [|done].
    destruct (_ !! k) as [st|] eqn:Hk; [|done].
    destruct (Forall_lookup_1 _ _ _ _ H Hk) as [_ ->]. done.
  - rewrite delete_ensemble_eq by done. cbv zeta.
    repeat case_match; try done; simpl; by apply Forall_delete.
  - rewrite append_ensemble_eq. apply Hins. by inversion Hc.
Qed.

(** C1 (the code does otherwise).  In an ensemble, and in a sequence,
    whose step list was built by the methods starting from an empty list,
    every step is a tuple; [replace_block] and [replace_ensemble] called at
    a valid position with a new name and without new parameters then raise
    [TypeError] and change nothing: the name is not updated. *)
Theorem replace_name_only_raises_TypeError position new_name :
  (forall name rotating_frame (calls : list EnsembleScript.call),
     let e := EnsembleScript.run calls
                (PulseBlockEnsemble.init (V := V) name Other rotating_frame) in
     0 <= position < len (PulseBlockEnsemble.block_list e) ->
     PulseBlockEnsemble.replace_block position (Inst new_name) None e
     = (Raise TypeError, e))
  /\ (forall name rotating_frame (calls : list SequenceScript.call),
        Forall has_repetitions (calls ≫= SequenceScript.params_of) ->
        exists s0 : PulseSequence.t V,
          PulseSequence.init name None rotating_frame = Ret s0
          /\ let s := SequenceScript.run calls s0 in
             (0 <= position < len (PulseSequence.ensemble_list s) ->
              PulseSequence.replace_ensemble position (Inst new_name) None s
              = (Raise TypeError, s))).
Proof.
  split.
  - intros name rotating_frame calls e Hpos.
    rewrite replace_block_eq. cbv zeta.
    rewrite (proj2 (Z.leb_gt _ _)) by lia. rewrite py_index_nonneg by done.
    destruct (_ !! _) as [st|] eqn:Hst.
    + assert (kind st = tuple) as ->; [|done].
      eapply (Forall_lookup_1 _ _ _ _ (ensemble_run_tuples calls _ _) Hst).
      Unshelve. constructor.
    + apply lookup_ge_None in Hst. unfold len in Hpos. lia.
  - intros name rotating_frame calls Hcalls. eexists. split; [reflexivity|].
    cbv zeta. intros Hpos.
    rewrite replace_ensemble_name_eq. cbv zeta.
    rewrite (proj2 (Z.leb_gt _ _)) by lia. rewrite py_index_nonneg by done.
    destruct (_ !! _) as [st|] eqn:Hst.
    + assert (kind st = tuple) as ->; [|done].
      eapply (Forall_lookup_1 _ _ _ _ (sequence_run_tuples calls _ _ Hcalls) Hst).
      Unshelve. constructor.
    + apply lookup_ge_None in Hst. unfold len in Hpos. lia.
Qed.
End NameOnlyReplace.

Lemma replace_name_only_witness :
  PulseBlockEnsemble.replace_block 0 (Inst "B"%string) None Examples.ensemble_one
  = (Raise TypeError, Examples.ensemble_one)
  /\ PulseSequence.replace_ensemble 0 (Inst "B"%string) None Examples.sequence_one
     = (Raise TypeError, Examples.sequence_one).
Proof.
  split.
  - apply (proj1 (replace_name_only_raises_TypeError (V := Z) 0 "B") "ens"%string true
             [EnsembleScript.append_block (Inst "A"%string) 2 false]).
    len_lia.
  - destruct (proj2 (replace_name_only_raises_TypeError (V := Z) 0 "B") "seq"%string false
                [SequenceScript.append_ensemble (Inst "E1"%string) (Examples.reps 3) false])
      as (s0 & Hinit & H).
    + repeat constructor. exists 3. reflexivity.
    + injection Hinit as <-. apply H. len_lia.
Defined.

(** ** Positions past the end *)

(** C2, amended.  In a block, an ensemble and a sequence, [replace] and
    [delete] called with a position greater than or equal to the length of
    the list return -1, do not raise and leave the object as it was. *)
Theorem position_past_the_end_returns_failure {SF V : Type} (position : Z) :
  (forall (b : PulseBlock.t SF) element,
     len (PulseBlock.element_list b) <= position ->
     PulseBlock.replace_element position element b = (Ret (-1), b)
     /\ PulseBlock.delete_element position b = (Ret (-1), b))
  /\ (forall (e : PulseBlockEnsemble.t V) block_name reps,
        len (PulseBlockEnsemble.block_list e) <= position ->
        PulseBlockEnsemble.replace_block position block_name reps e = (Ret (-1), e)
        /\ PulseBlockEnsemble.delete_block position e = (Ret (-1), e))
  /\ (forall (s : PulseSequence.t V) ensemble_name seq_param,
        len (PulseSequence.ensemble_list s) <= position ->
        PulseSequence.replace_ensemble position ensemble_name seq_param s = (Ret (-1), s)
        /\ PulseSequence.delete_ensemble position s = (Ret (-1), s)).
Proof.
  split; [|split].
  - intros b element H. apply Z.leb_le in H. split.
    + destruct element as [e|]; [|done]. rewrite replace_element_eq. by rewrite H.
    + rewrite delete_element_eq. by rewrite H.
  - intros e block_name reps H. apply Z.leb_le in H. split.
    + destruct block_name as [n|]; [|done]. rewrite replace_block_eq. cbv zeta.
      by rewrite H.
    + rewrite delete_block_eq. cbv zeta. by rewrite H.
  - intros s ensemble_name seq_param H. apply Z.leb_le in H. split.
    + destruct ensemble_name as [n|]; [|done].
      unfold PulseSequence.replace_ensemble. run. by rewrite H.
    + unfold PulseSequence.delete_ensemble. run. by rewrite H.
Qed.

Lemma position_past_the_end_witness :
  (PulseBlock.replace_element 1 (Inst Examples.e_5ns) Examples.block_one
   = (Ret (-1), Examples.block_one)
   /\ PulseBlock.delete_element 1 Examples.block_one = (Ret (-1), Examples.block_one))
  /\ (PulseBlockEnsemble.replace_block 1 (Inst "B"%string) (Some 4) Examples.ensemble_one
      = (Ret (-1), Examples.ensemble_one)
      /\ PulseBlockEnsemble.delete_block 1 Examples.ensemble_one
         = (Ret (-1), Examples.ensemble_one))
  /\ (PulseSequence.replace_ensemble 1 (Inst "B"%string) (Some (Examples.reps 4))
        Examples.sequence_one
      = (Ret (-1), Examples.sequence_one)
      /\ PulseSequence.delete_ensemble 1 Examples.sequence_one
         = (Ret (-1), Examples.sequence_one)).
Proof.
  destruct (position_past_the_end_returns_failure (SF := Examples.wave) (V := Z) 1)
    as (Hb & He & Hs).
  split; [|split].
  - apply Hb. len_lia.
  - apply He. len_lia.
  - apply Hs. len_lia.
Defined.

(** C2 as stated fails: a negative position is not refused.  On a block with
    one element [delete_element(-1)] returns 0 and removes the element; on
    the empty block it raises [IndexError]. *)
Lemma negative_position_is_not_refused :
  -1 < 0
  /\ PulseBlock.element_list Examples.block_one = [Examples.e_10ns]
  /\ (PulseBlock.delete_element (-1) Examples.block_one).1 = Ret 0
  /\ PulseBlock.element_list (PulseBlock.delete_element (-1) Examples.block_one).2 = []
  /\ PulseBlock.delete_element (-1) (BlockScript.empty (SF := Examples.wave) "B")
     = (Raise IndexError, BlockScript.empty "B").
Proof. repeat split; try done; vm_compute; reflexivity. Qed.

(** ** Channel sets *)

(** C5, amended.  An element whose channel set differs from the channel set
    stored in the block makes [replace_element] at a position below the
    length, and [insert_element] at a position up to the length into a block
    whose stored channel set is not empty, raise [ValueError] and leave the
    block as it was.  In particular, after inserting into the empty block an
    element [e1] whose channel set is not empty, inserting an element [e2]
    with another channel set raises and the block still holds [e1] only. *)
Theorem channel_set_mismatch_raises {SF : Type} :
  (forall (b : PulseBlock.t SF) (e : PulseBlockElement.t SF) position,
     PulseBlockElement.channel_set e ≠ PulseBlock.channel_set b ->
     (position < len (PulseBlock.element_list b) ->
      PulseBlock.replace_element position (Inst e) b = (Raise ValueError, b))
     /\ (PulseBlock.channel_set b ≠ ∅ ->
         position <= len (PulseBlock.element_list b) ->
         PulseBlock.insert_element position (Inst e) b = (Raise ValueError, b)))
  /\ (forall name (e1 e2 : PulseBlockElement.t SF),
        PulseBlockElement.channel_set e1 ≠ ∅ ->
        PulseBlockElement.channel_set e1 ≠ PulseBlockElement.channel_set e2 ->
        exists b1,
          PulseBlock.insert_element 0 (Inst e1) (BlockScript.empty name) = (Ret 0, b1)
          /\ PulseBlock.element_list b1 = [e1]
          /\ PulseBlock.insert_element 1 (Inst e2) b1 = (Raise ValueError, b1)).
Proof.
  split.
  - intros b e position Hne. split.
    + intros Hpos. rewrite replace_element_eq.
      rewrite (proj2 (Z.leb_gt _ _)) by lia. by rewrite bool_decide_eq_true_2.
    + intros Hcs Hpos. rewrite insert_element_eq.
      rewrite (proj2 (Z.ltb_ge _ _)) by lia.
      rewrite bool_decide_eq_false_2 by done. by rewrite bool_decide_eq_true_2.
  - intros name e1 e2 Hcs Hne. eexists. split; [reflexivity|]. split; [reflexivity|].
    rewrite insert_element_eq. simpl.
    rewrite bool_decide_eq_false_2 by done. by rewrite bool_decide_eq_true_2.
Qed.

Lemma channel_set_mismatch_witness :
  (PulseBlock.replace_element 0 (Inst Examples.e_other) Examples.block_one
   = (Raise ValueError, Examples.block_one)
   /\ PulseBlock.insert_element 1 (Inst Examples.e_other) Examples.block_one
      = (Raise ValueError, Examples.block_one))
  /\ exists b1,
       PulseBlock.insert_element 0 (Inst Examples.e_10ns) (BlockScript.empty "B")
       = (Ret 0, b1)
       /\ PulseBlock.element_list b1 = [Examples.e_10ns]
       /\ PulseBlock.insert_element 1 (Inst Examples.e_other) b1 = (Raise ValueError, b1).
Proof.
  destruct (channel_set_mismatch_raises (SF := Examples.wave)) as [H1 H2].
  split.
  - destruct (H1 Examples.block_one Examples.e_other 0) as [Hr _]; [by vm_compute|].
    destruct (H1 Examples.block_one Examples.e_other 1) as [_ Hi]; [by vm_compute|].
    split; [apply Hr; len_lia|apply Hi; [by vm_compute|len_lia]].
  - apply H2; by vm_compute.
Defined.

(** C5 as stated fails twice: at a position past the end [replace_element]
    returns -1 although the channel sets differ; and a block that holds an
    element without channels accepts an element with another channel set. *)
Lemma channel_set_mismatch_not_always_raised :
  (PulseBlock.element_list Examples.block_one = [Examples.e_10ns]
   /\ PulseBlockElement.channel_set Examples.e_other
      ≠ PulseBlock.channel_set Examples.block_one
   /\ PulseBlock.replace_element 1 (Inst Examples.e_other) Examples.block_one
      = (Ret (-1), Examples.block_one))
  /\ (let b1 := (PulseBlock.insert_element 0 (Inst Examples.e_default)
                   (BlockScript.empty "B")).2 in
      PulseBlock.element_list b1 = [Examples.e_default]
      /\ PulseBlockElement.channel_set Examples.e_default
         ≠ PulseBlockElement.channel_set Examples.e_10ns
      /\ PulseBlockElement.channel_set Examples.e_10ns ≠ PulseBlock.channel_set b1
      /\ (PulseBlock.insert_element 1 (Inst Examples.e_10ns) b1).1 = Ret 0
      /\ PulseBlock.element_list (PulseBlock.insert_element 1 (Inst Examples.e_10ns) b1).2
         = [Examples.e_default; Examples.e_10ns]).
Proof. repeat split; by vm_compute. Qed.

(** The examples of the specification. *)

(** The lengths of the examples are the floats Python reads from
    [10e-9], [5e-9], [15e-9] and [36e-9]. *)
Example ns_literals :
  Examples.ns 10 = 0x1.5798ee2308c3ap-27%float
  /\ Examples.ns 5 = 0x1.5798ee2308c3ap-28%float
  /\ Examples.ns 15 = 0x1.01b2b29a4692bp-26%float
  /\ Examples.ns 36 = 0x1.353cd652bb167p-25%float.
Proof. repeat split; reflexivity. Qed.


Example sequence_finiteness_example :
  PulseSequence.is_finite Examples.sequence_two = false
  /\ (PulseSequence.delete_ensemble 1 Examples.sequence_two).1 = Ret 0
  /\ PulseSequence.is_finite (PulseSequence.delete_ensemble 1 Examples.sequence_two).2
     = true.
Proof. repeat split; by vm_compute. Qed.

Lemma is_finite_witness :
  exists s0 : PulseSequence.t Z,
    PulseSequence.init "seq" (Some [mk_step tuple "E1"%string (Examples.reps 3)]) false
    = Ret s0
    /\ let s := SequenceScript.run
                  [SequenceScript.append_ensemble (Inst "E2"%string)
                     (Examples.reps (-1)) false] s0 in
       (PulseSequence.is_finite s = false <->
        exists st r, st ∈ PulseSequence.ensemble_list s
                     /\ repetitions (step_param st) = Ret r /\ r < 0)
       /\ forall position st,
            0 <= position < len (PulseSequence.ensemble_list s) ->
            PulseSequence.ensemble_list s !! Z.to_nat position = Some st ->
            is_negative st = true ->
            (forall k st', k <> Z.to_nat position ->
               PulseSequence.ensemble_list s !! k = Some st' -> is_negative st' = false) ->
            exists s',
              PulseSequence.delete_ensemble position s = (Ret 0, s')
              /\ PulseSequence.ensemble_list s'
                 = delete (Z.to_nat position) (PulseSequence.ensemble_list s)
              /\ PulseSequence.is_finite s' = true.
Proof.
  apply (is_finite_iff_no_negative_step (V := Z)).
  - repeat constructor. exists 3. reflexivity.
  - repeat constructor. exists (-1). reflexivity.
Defined.

(** C3 as stated fails: repetitions of -2 make the sequence infinite for the
    code, and no step has repetitions equal to -1. *)
Lemma is_finite_false_without_minus_one :
  exists s : PulseSequence.t Z,
    PulseSequence.init "seq" (Some [mk_step tuple "E1"%string (Examples.reps (-2))]) false
    = Ret s
    /\ PulseSequence.is_finite s = false
    /\ ~ exists st, st ∈ PulseSequence.ensemble_list s
                    /\ repetitions (step_param st) = Ret (-1).
Proof.
  eexists. split; [reflexivity|]. split; [reflexivity|].
  intros (st & Hin & Hr). simpl in Hin.
  apply list_elem_of_singleton in Hin as ->. by vm_compute in Hr.
Qed.

(** ** Playback duration of an ensemble *)

Section PlaybackDuration.
Context {SF V : Type}.
Implicit Types (created_blocks : list (PulseBlock.t SF)) (steps : list (step Z)).

Lemma blocks_by_name_snoc created_blocks block :
  PredefinedGeneratorBase.blocks_by_name (created_blocks ++ [block]) =
  <[PulseBlock.name block := block]>
    (PredefinedGeneratorBase.blocks_by_name created_blocks).
Proof. unfold PredefinedGeneratorBase.blocks_by_name. by rewrite fold_left_app. Qed.

(** The dictionary of blocks finds the last block of a name. *)
Lemma blocks_by_name_lookup created_blocks block_name :
  PredefinedGeneratorBase.blocks_by_name created_blocks !! block_name
  = block_named created_blocks block_name.
Proof.
  induction created_blocks as [|block created_blocks IH] using rev_ind; [done|].
  rewrite blocks_by_name_snoc. unfold block_named in *.
  rewrite filter_app, filter_cons, filter_nil.
  destruct (decide (PulseBlock.name block = block_name)) as [->|Hne].
  - by rewrite lookup_insert_eq, last_snoc.
  - by rewrite lookup_insert_ne, app_nil_r.
Qed.

Lemma block_named_Some created_blocks block_name :
  (exists block, block ∈ created_blocks /\ PulseBlock.name block = block_name) ->
  is_Some (block_named created_blocks block_name).
Proof.
  intros (block & Hin & Hname). unfold block_named.
  destruct (filter _ created_blocks) as [|b l] eqn:Hf using rev_ind.
  - assert (block ∈ filter (fun block => PulseBlock.name block = block_name)
                      created_blocks) as H by (by apply list_elem_of_filter).
    rewrite Hf in H. by apply elem_of_nil in H.
  - rewrite last_snoc. by eexists.
Qed.

(** The loop counts the steps one after the other, as
    [ensemble_playback_duration] words it. *)
Lemma count_loop_eq created_blocks steps (length : float) :
  match for_each steps
          (PredefinedGeneratorBase.count_step
             (PredefinedGeneratorBase.blocks_by_name created_blocks)) length with
  | (Ret _, length') => Ret length'
  | (Raise e, _) => Raise e
  end = ensemble_playback_duration created_blocks steps length.
Proof.
  revert length. induction steps as [|st steps IH]; intros length; [done|].
  cbn [for_each ensemble_playback_duration]. run.
  unfold PredefinedGeneratorBase.count_step at 1. run.
  unfold PredefinedGeneratorBase.lookup_block. rewrite blocks_by_name_lookup.
  destruct (block_named created_blocks (step_name st)) as [block|]; [|done].
  unfold add_step_duration. rewrite Z.pow_2_r.
  destruct (float_of_int _); [|done].
  destruct (int_truediv_2 _); [|done]. apply IH.
Qed.

Lemma count_length_loop_eq created_blocks steps (length : float) :
  match for_each steps
          (PredefinedGeneratorBase.count_step
             (PredefinedGeneratorBase.blocks_by_name created_blocks)) length with
  | (Ret _, length') => Ret (PredefinedGeneratorBase.PNum length')
  | (Raise e, _) => Raise e
  end
  = match ensemble_playback_duration created_blocks steps length with
    | Ret length' => Ret (PredefinedGeneratorBase.PNum length')
    | Raise e => Raise e
    end.
Proof. rewrite <- count_loop_eq. by destruct (for_each _ _ _) as [[[]|e] length']. Qed.

(** Counting two lists of steps one after the other. *)
Lemma playback_duration_app created_blocks steps steps' (length : float) :
  ensemble_playback_duration created_blocks (steps ++ steps') length
  = match ensemble_playback_duration created_blocks steps length with
    | Ret length' => ensemble_playback_duration created_blocks steps' length'
    | Raise e => Raise e
    end.
Proof.
  revert length. induction steps as [|st steps IH]; intros length; [done|].
  cbn [app ensemble_playback_duration].
  destruct (block_named _ _); [|done].
  destruct (add_step_duration _ _ _); [apply IH|done].
Qed.

(** Steps whose blocks are known and whose integers are within the double
    range are counted without an exception. *)
Lemma playback_duration_returns created_blocks steps (length : float) :
  Forall (fun st => is_Some (block_named created_blocks (step_name st))
                    /\ converts (step_param st)) steps ->
  exists length', ensemble_playback_duration created_blocks steps length = Ret length'.
Proof.
  intros H. revert length.
  induction H as [|st steps [[block Hb] [[n Hn] [h Hh]]] _ IH]; intros length.
  - by eexists.
  - cbn [ensemble_playback_duration]. rewrite Hb. unfold add_step_duration.
    rewrite Hn, Hh. apply IH.
Qed.

(** C7.  With a gate channel configured the result is the float
    [laser_length + laser_delay], whatever the ensemble and the blocks are.
    Without one the steps are counted in their order from [0.0]: for a step
    [(block_name, reps)] and the last block of that name,
    [total_duration * (reps+1)] is added, then
    [total_increment * ((reps² + reps)/2)], every operation rounded; the
    result is that float when every block name of the ensemble occurs in the
    collection and the integers are within the double range; a block name
    that does not occur raises [KeyError], an integer beyond the range
    [OverflowError], at the first such step. *)
Theorem ensemble_count_length_value (self : PredefinedGeneratorBase.t)
    (ensemble : PulseBlockEnsemble.t V) created_blocks :
  (PredefinedGeneratorBase.truth (PredefinedGeneratorBase.gate_channel self) = true ->
   PredefinedGeneratorBase._get_ensemble_count_length self ensemble created_blocks
   = PredefinedGeneratorBase.py_add (PredefinedGeneratorBase.laser_length self)
                                    (PredefinedGeneratorBase.laser_delay self)
   /\ forall a b,
        PredefinedGeneratorBase.laser_length self = Some (PredefinedGeneratorBase.PNum a) ->
        PredefinedGeneratorBase.laser_delay self = Some (PredefinedGeneratorBase.PNum b) ->
        PredefinedGeneratorBase._get_ensemble_count_length self ensemble created_blocks
        = Ret (PredefinedGeneratorBase.PNum (a + b)%float))
  /\ (PredefinedGeneratorBase.truth (PredefinedGeneratorBase.gate_channel self) = false ->
      PredefinedGeneratorBase._get_ensemble_count_length self ensemble created_blocks
      = match ensemble_playback_duration created_blocks
                (PulseBlockEnsemble.block_list ensemble) 0%float with
        | Ret length => Ret (PredefinedGeneratorBase.PNum length)
        | Raise e => Raise e
        end
      /\ ((forall st, st ∈ PulseBlockEnsemble.block_list ensemble ->
             (exists block, block ∈ created_blocks /\ PulseBlock.name block = step_name st)
             /\ converts (step_param st)) ->
          exists length,
            ensemble_playback_duration created_blocks
              (PulseBlockEnsemble.block_list ensemble) 0%float = Ret length
            /\ PredefinedGeneratorBase._get_ensemble_count_length self ensemble
                 created_blocks = Ret (PredefinedGeneratorBase.PNum length))).
Proof.
  unfold PredefinedGeneratorBase._get_ensemble_count_length. split.
  - intros ->. split; [done|]. by intros a b -> ->.
  - intros ->. cbv zeta.
    pose proof (count_length_loop_eq created_blocks
                  (PulseBlockEnsemble.block_list ensemble) 0%float) as Heq.
    split; [done|]. intros Hsteps.
    destruct (playback_duration_returns created_blocks
                (PulseBlockEnsemble.block_list ensemble) 0%float) as [length Hlen].
    { apply Forall_forall. intros st Hin. destruct (Hsteps st Hin) as [Hb Hc].
      split; [by apply block_named_Some|done]. }
    exists length. split; [done|]. by rewrite Heq, Hlen.
Qed.
End PlaybackDuration.

Lemma ensemble_count_length_witness :
  PredefinedGeneratorBase._get_ensemble_count_length Examples.with_gate
    Examples.ensemble_B [Examples.block_B]
  = Ret (PredefinedGeneratorBase.PNum (Examples.ns 3000 + Examples.ns 500)%float)
  /\ PredefinedGeneratorBase._get_ensemble_count_length Examples.no_gate
       Examples.ensemble_B [Examples.block_B]
     = Ret (PredefinedGeneratorBase.PNum 0x1.353cd652bb168p-25%float).
Proof.
  split.
  - apply (proj1 (ensemble_count_length_value Examples.with_gate Examples.ensemble_B
                    [Examples.block_B])); reflexivity.
  - etransitivity.
    + apply (proj2 (ensemble_count_length_value Examples.no_gate Examples.ensemble_B
                      [Examples.block_B])). reflexivity.
    + by vm_compute.
Defined.

(** C7 as stated fails.  On the example of the specification, one step
    [(B, 2)] with a total duration of 10 ns and a total increment of 2 ns, the
    result is 3.6000000000000005e-08: not the float 36 ns, and not the number
    the formula gives over the real numbers.  And with repetitions beyond the
    double range the call raises [OverflowError] although the block is in the
    collection. *)
Lemma ensemble_count_length_is_rounded :
  PulseBlock.init_length_s Examples.block_B = Examples.ns 10
  /\ PulseBlock.increment_s Examples.block_B = Examples.ns 2
  /\ PulseBlockEnsemble.block_list Examples.ensemble_B = [mk_step tuple "B"%string 2]
  /\ (exists length duration increment,
        PredefinedGeneratorBase._get_ensemble_count_length Examples.no_gate
          Examples.ensemble_B [Examples.block_B]
        = Ret (PredefinedGeneratorBase.PNum length)
        /\ length = 0x1.353cd652bb168p-25%float
        /\ length <> Examples.ns 36
        /\ exact (Examples.ns 10) = Some duration
        /\ exact (Examples.ns 2) = Some increment
        /\ exact length <> Some (exact_step_duration duration increment 2))
  /\ PulseBlockEnsemble.block_list Examples.ensemble_huge
     = [mk_step tuple "B"%string (10 ^ 400)]
  /\ PredefinedGeneratorBase._get_ensemble_count_length Examples.no_gate
       Examples.ensemble_huge [Examples.block_B] = Raise OverflowError.
Proof.
  split; [by vm_compute|]. split; [by vm_compute|]. split; [by vm_compute|].
  split; [|split; by vm_compute].
  eexists _, _, _. split; [by vm_compute|]. split; [reflexivity|].
  split; [by vm_compute|]. split; [by vm_compute|]. split; [by vm_compute|].
  by vm_compute.
Qed.

(** ** Loops *)

Section Loops.
Context {S A : Type}.
Implicit Types (l : list A) (body : A -> method S unit).

Lemma for_each_app l1 l2 body s :
  for_each (l1 ++ l2) body s =
  match for_each l1 body s with
  | (Ret _, s') => for_each l2 body s'
  | (Raise e, s') => (Raise e, s')
  end.
Proof.
  revert s. induction l1 as [|x l1 IH]; intros s; [done|].
  simpl. run. destruct (body x s) as [[[]|e] s']; [apply IH|done].
Qed.

(** A loop whose body only assigns is a fold. *)
Lemma for_each_fold l body (f : S -> A -> S) s :
  (forall x s, body x s = (Ret tt, f s x)) ->
  for_each l body s = (Ret tt, fold_left f l s).
Proof.
  intros Hbody. revert s. induction l as [|x l IH]; intros s; [done|].
  simpl. run. rewrite Hbody. apply IH.
Qed.
End Loops.

(** ** The generator registry *)

Section Registry.
Context {M : Type}.
Implicit Types (member : string * M) (members : list (string * M))
  (generate_methods : gmap string M).

(** What one member does to the dictionary of methods. *)
Lemma harvest_eq member generate_methods :
  PulseObjectGenerator.harvest member generate_methods =
  (Ret tt,
   if String.prefix "generate_" member.1
   then <[string_drop 9 member.1 := member.2]> generate_methods
   else generate_methods).
Proof.
  unfold PulseObjectGenerator.harvest. cbv zeta. by destruct (String.prefix _ _).
Qed.

Lemma populate_method_dict_fold (instance_list : list (list (string * M))) :
  PulseObjectGenerator.populate_method_dict instance_list =
  fold_left (fun generate_methods member =>
               if String.prefix "generate_" member.1
               then <[string_drop 9 member.1 := member.2]> generate_methods
               else generate_methods)
            (concat instance_list) ∅.
Proof.
  unfold PulseObjectGenerator.populate_method_dict.
  generalize (∅ : gmap string M).
  induction instance_list as [|instance instance_list IH]; intros m; [done|].
  simpl. run. rewrite (for_each_fold _ _ _ _ harvest_eq).
  rewrite fold_left_app. apply IH.
Qed.

(** The name of a method is its prefix followed by its suffix. *)
Lemma prefix_string_drop (p s : string) :
  String.prefix p s = true -> s = (p ++ string_drop (String.length p) s)%string.
Proof.
  revert s. induction p as [|a p IH]; intros s H; [done|].
  destruct s as [|b s]; [done|]. simpl in *.
  destruct (Ascii.ascii_dec a b) as [->|]; [|done].
  change (String b s = String b (p +:+ string_drop (String.length p) s)).
  f_equal. by apply IH.
Qed.

Lemma generate_suffix_inj (n1 n2 : string) :
  String.prefix "generate_" n1 = true -> String.prefix "generate_" n2 = true ->
  string_drop 9 n1 = string_drop 9 n2 -> n1 = n2.
Proof.
  intros H1 H2 Heq.
  rewrite (prefix_string_drop _ _ H1), (prefix_string_drop _ _ H2).
  change (String.length "generate_") with 9%nat. by rewrite Heq.
Qed.

Lemma fold_harvest_stable members generate_methods (suffix : string) :
  (forall member, member ∈ members -> String.prefix "generate_" member.1 = true ->
     string_drop 9 member.1 ≠ suffix) ->
  fold_left (fun generate_methods member =>
               if String.prefix "generate_" member.1
               then <[string_drop 9 member.1 := member.2]> generate_methods
               else generate_methods) members generate_methods !! suffix
  = generate_methods !! suffix.
Proof.
  revert generate_methods.
  induction members as [|member members IH]; intros generate_methods H; [done|].
  simpl. rewrite IH.
  - destruct (String.prefix _ _) eqn:Hp; [|done].
    apply lookup_insert_ne, H; [by left|done].
  - intros member' Hin. apply H. by right.
Qed.

Lemma fold_harvest_origin members generate_methods (suffix : string) method_ref :
  fold_left (fun generate_methods member =>
               if String.prefix "generate_" member.1
               then <[string_drop 9 member.1 := member.2]> generate_methods
               else generate_methods) members generate_methods !! suffix
  = Some method_ref ->
  generate_methods !! suffix = Some method_ref
  \/ exists method_name, (method_name, method_ref) ∈ members
       /\ String.prefix "generate_" method_name = true
       /\ suffix = string_drop 9 method_name.
Proof.
  revert generate_methods.
  induction members as [|[n r] members IH]; intros generate_methods H; [by left|].
  simpl in H. apply IH in H as [H|(n' & Hin & Hp & ->)].
  - destruct (String.prefix _ _) eqn:Hp; [|by left].
    destruct (decide (string_drop 9 n = suffix)) as [<-|Hne].
    + rewrite lookup_insert_eq in H. injection H as <-.
      right. exists n. split; [by left|done].
    + rewrite lookup_insert_ne in H by done. by left.
  - right. exists n'. split; [by right|done].
Qed.

(** C8.  Every method whose name starts with [generate_] is registered
    under its name without the prefix; of the methods with one suffix the
    entry is the one discovered last; and nothing else is registered. *)
Theorem generate_methods_last_writer_wins (instance_list : list (list (string * M))) :
  let generate_methods := PulseObjectGenerator.populate_method_dict instance_list in
  (forall method_name method_ref,
     (method_name, method_ref) ∈ concat instance_list ->
     String.prefix "generate_" method_name = true ->
     is_Some (generate_methods !! string_drop 9 method_name))
  /\ (forall before after method_name method_ref,
        concat instance_list = before ++ (method_name, method_ref) :: after ->
        String.prefix "generate_" method_name = true ->
        (forall member, member ∈ after -> member.1 ≠ method_name) ->
        generate_methods !! string_drop 9 method_name = Some method_ref)
  /\ (forall suffix method_ref,
        generate_methods !! suffix = Some method_ref ->
        exists method_name,
          (method_name, method_ref) ∈ concat instance_list
          /\ String.prefix "generate_" method_name = true
          /\ suffix = string_drop 9 method_name).
Proof.
  cbv zeta. rewrite populate_method_dict_fold.
  assert (forall before after method_name method_ref,
    concat instance_list = before ++ (method_name, method_ref) :: after ->
    String.prefix "generate_" method_name = true ->
    (forall member, member ∈ after -> String.prefix "generate_" member.1 = true ->
       string_drop 9 member.1 ≠ string_drop 9 method_name) ->
    fold_left (fun generate_methods member =>
                 if String.prefix "generate_" member.1
                 then <[string_drop 9 member.1 := member.2]> generate_methods
                 else generate_methods) (concat instance_list) ∅
      !! string_drop 9 method_name = Some method_ref) as Hlast.
  { intros before after n r -> Hp Hafter.
    rewrite fold_left_app. cbn [fold_left fst snd]. rewrite Hp.
    rewrite fold_harvest_stable by done. apply lookup_insert_eq. }
  split; [|split].
  - intros n r Hin Hp.
    (* the last member of that suffix *)
    revert Hin. generalize (concat instance_list). intros l Hin.
    induction l as [|[n' r'] l IH] using rev_ind; [by apply elem_of_nil in Hin|].
    rewrite fold_left_app. cbn [fold_left fst snd].
    destruct (String.prefix "generate_" n') eqn:Hp'.
    + destruct (decide (string_drop 9 n' = string_drop 9 n)) as [->|Hne].
      * rewrite lookup_insert_eq. by eexists.
      * rewrite lookup_insert_ne by done. apply IH.
        apply elem_of_app in Hin as [Hin|Hin]; [done|].
        apply list_elem_of_singleton in Hin. by simplify_eq.
    + apply IH. apply elem_of_app in Hin as [Hin|Hin]; [done|].
      apply list_elem_of_singleton in Hin. simplify_eq. congruence.
  - intros before after n r Hl Hp Hafter. apply (Hlast before after); [done..|].
    intros member Hin Hp' Heq. apply (Hafter member Hin).
    by apply generate_suffix_inj.
  - intros suffix r H. apply fold_harvest_origin in H as [H|H]; [done|done].
Qed.
End Registry.

Lemma generate_methods_witness :
  let generate_methods :=
    PulseObjectGenerator.populate_method_dict
      [PulseObjectGenerator.cls_methods Examples.class_A;
       PulseObjectGenerator.cls_methods Examples.class_B] in
  is_Some (generate_methods !! "bar"%string)
  /\ generate_methods !! "foo"%string = Some 3%nat
  /\ exists method_name,
       (method_name, 3%nat) ∈ concat [PulseObjectGenerator.cls_methods Examples.class_A;
                                      PulseObjectGenerator.cls_methods Examples.class_B]
       /\ String.prefix "generate_" method_name = true
       /\ "foo"%string = string_drop 9 method_name.
Proof.
  destruct (generate_methods_last_writer_wins
              [PulseObjectGenerator.cls_methods Examples.class_A;
               PulseObjectGenerator.cls_methods Examples.class_B]) as (H1 & H2 & H3).
  cbv zeta. split; [|split].
  - apply (H1 "generate_bar"%string 2%nat); [|reflexivity].
    simpl. apply list_elem_of_In. simpl. tauto.
  - apply (H2 [("_helper"%string, 0%nat); ("generate_foo"%string, 1%nat);
               ("generate_bar"%string, 2%nat)] [] "generate_foo"%string 3%nat);
      [reflexivity|reflexivity|].
    intros member Hin. by apply elem_of_nil in Hin.
  - apply H3.
    apply (H2 [("_helper"%string, 0%nat); ("generate_foo"%string, 1%nat);
               ("generate_bar"%string, 2%nat)] [] "generate_foo"%string 3%nat);
      [reflexivity|reflexivity|].
    intros member Hin. by apply elem_of_nil in Hin.
Defined.

(** ** Generator classes *)

Section GeneratorClasses.
Context {M : Type}.
Implicit Types (obj : PulseObjectGenerator.pyobj M)
  (members : list (string * PulseObjectGenerator.pyobj M))
  (class_list : list (PulseObjectGenerator.pyclass M)).

Lemma is_generator_class_iff obj :
  PulseObjectGenerator.is_generator_class obj = true <->
  exists c, obj = PulseObjectGenerator.PyClass c
            /\ PulseObjectGenerator.cls_bases c
               = [PulseObjectGenerator.PredefinedGeneratorBase].
Proof.
  split.
  - destruct obj as [c|]; [|done]. simpl. intros H.
    apply andb_true_iff in H as [Hin Hlen].
    apply bool_decide_eq_true in Hin. apply Z.eqb_eq in Hlen.
    exists c. split; [done|].
    destruct (PulseObjectGenerator.cls_bases c) as [|x [|y l]];
      [by apply elem_of_nil in Hin| |unfold len in Hlen; simpl in Hlen; lia].
    by apply list_elem_of_singleton in Hin as ->.
  - intros (c & -> & Hb). simpl. rewrite Hb.
    apply andb_true_iff. split; [|done].
    apply bool_decide_eq_true. by apply list_elem_of_singleton.
Qed.

Lemma generator_classes_of_app members1 members2 :
  PulseObjectGenerator.generator_classes_of (members1 ++ members2)
  = PulseObjectGenerator.generator_classes_of members1
    ++ PulseObjectGenerator.generator_classes_of members2.
Proof. apply omap_app. Qed.

(** A rejected member adds nothing to the classes of its module. *)
Lemma generator_classes_of_rejected members1 members2 member_name obj :
  PulseObjectGenerator.is_generator_class obj = false ->
  PulseObjectGenerator.generator_classes_of (members1 ++ (member_name, obj) :: members2)
  = PulseObjectGenerator.generator_classes_of (members1 ++ members2).
Proof.
  intros H. rewrite !generator_classes_of_app. f_equal.
  unfold PulseObjectGenerator.generator_classes_of. simpl.
  destruct obj as [c|]; [|done]. simpl in *. by rewrite H.
Qed.

(** The scan of a location depends on a module only through its
    generator classes. *)
Lemma import_modules_rejected modules_before modules_after members members' class_list :
  PulseObjectGenerator.generator_classes_of members
  = PulseObjectGenerator.generator_classes_of members' ->
  for_each (modules_before ++ Ret members :: modules_after)
           PulseObjectGenerator.import_module class_list
  = for_each (modules_before ++ Ret members' :: modules_after)
             PulseObjectGenerator.import_module class_list.
Proof.
  intros H. rewrite !for_each_app.
  destruct (for_each modules_before _ _) as [[[]|e] class_list']; [|done].
  simpl. run. unfold PulseObjectGenerator.import_module. run. by rewrite H.
Qed.

Lemma import_external_generators_rejected
    paths_before paths_after path_name path_exists modules_before modules_after
    members members' class_list log :
  PulseObjectGenerator.generator_classes_of members
  = PulseObjectGenerator.generator_classes_of members' ->
  PulseObjectGenerator.import_external_generators
    (paths_before
     ++ PulseObjectGenerator.mk_location path_name path_exists
          (modules_before ++ Ret members :: modules_after) :: paths_after)
    class_list log
  = PulseObjectGenerator.import_external_generators
      (paths_before
       ++ PulseObjectGenerator.mk_location path_name path_exists
            (modules_before ++ Ret members' :: modules_after) :: paths_after)
      class_list log.
Proof.
  intros H. revert class_list log.
  induction paths_before as [|path paths_before IH]; intros class_list log; simpl.
  - destruct path_exists; simpl; [|done].
    by rewrite (import_modules_rejected _ _ members members').
  - destruct (negb _); [apply IH|].
    destruct (for_each _ _ _) as [[[]|e] class_list']; [apply IH|done].
Qed.

(** C9.  The predicate accepts exactly the classes whose direct bases are
    the generator base and nothing else.  A class with the generator base
    and another base, and a class that has the base only through another
    class, are rejected; and a rejected member of a module changes neither
    the methods that are registered nor the log. *)
Theorem generator_class_single_direct_base :
  (forall obj,
     PulseObjectGenerator.is_generator_class obj = true <->
     exists c, obj = PulseObjectGenerator.PyClass c
               /\ PulseObjectGenerator.cls_bases c
                  = [PulseObjectGenerator.PredefinedGeneratorBase])
  /\ (forall id other more methods,
        PulseObjectGenerator.is_generator_class
          (PulseObjectGenerator.PyClass
             (PulseObjectGenerator.mk_class (M := M) id
                (PulseObjectGenerator.PredefinedGeneratorBase :: other :: more) methods))
        = false)
  /\ (forall id parent more methods,
        parent ≠ PulseObjectGenerator.PredefinedGeneratorBase ->
        PulseObjectGenerator.is_generator_class
          (PulseObjectGenerator.PyClass
             (PulseObjectGenerator.mk_class (M := M) id (parent :: more) methods))
        = false)
  /\ (forall paths_before paths_after path_name path_exists modules_before modules_after
             members1 members2 member_name obj,
        PulseObjectGenerator.is_generator_class obj = false ->
        PulseObjectGenerator.init
          (paths_before
           ++ PulseObjectGenerator.mk_location path_name path_exists
                (modules_before ++ Ret (members1 ++ (member_name, obj) :: members2)
                 :: modules_after) :: paths_after)
        = PulseObjectGenerator.init
            (paths_before
             ++ PulseObjectGenerator.mk_location path_name path_exists
                  (modules_before ++ Ret (members1 ++ members2) :: modules_after)
                :: paths_after)).
Proof.
  split; [apply is_generator_class_iff|]. split; [|split].
  - intros id other more methods. apply not_true_is_false. intros H.
    apply is_generator_class_iff in H as (c & [= <-] & Hb). done.
  - intros id parent more methods Hne. apply not_true_is_false. intros H.
    apply is_generator_class_iff in H as (c & [= <-] & Hb). simpl in Hb. congruence.
  - intros. unfold PulseObjectGenerator.init.
    by rewrite (import_external_generators_rejected _ _ _ _ _ _
                  (members1 ++ (member_name, obj) :: members2) (members1 ++ members2))
      by (by apply generator_classes_of_rejected).
Qed.
End GeneratorClasses.

Lemma generator_class_witness :
  PulseObjectGenerator.is_generator_class (PulseObjectGenerator.PyClass Examples.class_derived)
  = false
  /\ PulseObjectGenerator.init
       [Examples.plugin_dir
          [("A"%string, PulseObjectGenerator.PyClass Examples.class_A);
           ("Mixed"%string, PulseObjectGenerator.PyClass Examples.class_mixed)]]
     = PulseObjectGenerator.init
         [Examples.plugin_dir [("A"%string, PulseObjectGenerator.PyClass Examples.class_A)]].
Proof.
  destruct (generator_class_single_direct_base (M := nat)) as (_ & Hmixed & Hderived & Hinit).
  split.
  - apply Hderived. discriminate.
  - apply (Hinit [] [] "predefined_generate_methods"%string true [] []
             [("A"%string, PulseObjectGenerator.PyClass Examples.class_A)] []
             "Mixed"%string (PulseObjectGenerator.PyClass Examples.class_mixed)).
    apply Hmixed.
Defined.

(** The examples of the specification: of two classes that define
    [generate_foo] the later one provides [foo]; a class with one more base
    provides nothing. *)
Example registry_example :
  exists generate_methods,
    PulseObjectGenerator.init
      [Examples.plugin_dir
         [("A"%string, PulseObjectGenerator.PyClass Examples.class_A);
          ("B"%string, PulseObjectGenerator.PyClass Examples.class_B);
          ("Derived"%string, PulseObjectGenerator.PyClass Examples.class_derived);
          ("Mixed"%string, PulseObjectGenerator.PyClass Examples.class_mixed)]]
    = (Ret generate_methods, [])
    /\ generate_methods !! "foo"%string = Some 3%nat
    /\ generate_methods !! "bar"%string = Some 2%nat
    /\ generate_methods !! "mixed"%string = None
    /\ generate_methods !! "derived"%string = None.
Proof. eexists. split; [reflexivity|]. repeat split; by vm_compute. Qed.

(** ** Dictionaries *)

Section Dicts.
Context {V : Type}.
Implicit Types (d : dict V) (k : string) (v : V).

(** Assigning to the key of an entry replaces the entry where it is. *)
Lemma dict_setitem_middle k v v' d1 d2 :
  k ∉ d1.*1 -> dict_setitem k v (d1 ++ (k, v') :: d2) = d1 ++ (k, v) :: d2.
Proof.
  induction d1 as [|[k1 v1] d1 IH]; intros Hk; simpl.
  - by rewrite String.eqb_refl.
  - apply not_elem_of_cons in Hk as [Hne Hk].
    destruct (String.eqb_spec k1 k) as [->|_]; [done|]. by rewrite IH.
Qed.

End Dicts.

(** ** The record of an element *)

Section ElementRecords.
Context {SF P : Type}.
Variable sf_repr : SF -> PulseBlockElement.sample_dict P.
Variable sf_new : string -> P -> result SF.
Implicit Types (e : PulseBlockElement.t SF)
  (element_dict : PulseBlockElement.dict_repr SF P)
  (items : dict (PulseBlockElement.pf_entry SF P)) (fs : list SF).

(** The entries that take the place of [items] when the catalog builds
    [fs] from them. *)
Local Abbreviation objects_of items fs :=
  (zip_with (fun item f => (item.1, PulseBlockElement.SampleObj (P := P) f)) items fs).


Lemma objects_objects_of items fs :
  length items = length fs ->
  PulseBlockElement.objects (objects_of items fs) = Ret (zip items.*1 fs).
Proof.
  revert fs. induction items as [|[c x] items IH]; intros [|f fs] Hlen; try done.
  simpl in *. rewrite IH by lia. done.
Qed.

(** The loop of [element_from_dict] on the entries not yet visited. *)
Lemma from_dict_loop visited items fs element_dict :
  PulseBlockElement.d_pulse_function element_dict = visited ++ items ->
  NoDup (visited ++ items).*1 ->
  Forall2 (builds sf_new) items fs ->
  for_each items (PulseBlockElement.from_dict_step sf_new) element_dict
  = (Ret tt,
     PulseBlockElement.set_d_pulse_function (visited ++ objects_of items fs) element_dict).
Proof.
  intros Hd Hnd Hb. revert visited element_dict Hd Hnd.
  induction Hb as [|[c x] f items fs (sd & Hx & Hnew) _ IH];
    intros visited element_dict Hd Hnd.
  - simpl. run. rewrite app_nil_r in *. rewrite <- Hd. by destruct element_dict.
  - simpl in Hx. subst x. simpl. run.
    unfold PulseBlockElement.from_dict_step. run. simpl. rewrite Hnew.
    rewrite Hd, dict_setitem_middle.
    + rewrite (IH (visited ++ [(c, PulseBlockElement.SampleObj f)])).
      * by rewrite <- app_assoc.
      * simpl. by rewrite <- app_assoc.
      * rewrite <- app_assoc. simpl. rewrite !fmap_app in *. done.
    + rewrite fmap_app in Hnd. apply NoDup_app in Hnd as (_ & Hnd & _).
      intros Hin. apply (Hnd c Hin). by left.
Qed.

(** What [element_from_dict] returns and what it leaves in the record,
    when the catalog builds an object from every entry. *)
Lemma element_from_dict_eq element_dict fs :
  NoDup (PulseBlockElement.d_pulse_function element_dict).*1 ->
  Forall2 (builds sf_new) (PulseBlockElement.d_pulse_function element_dict) fs ->
  PulseBlockElement.element_from_dict sf_new element_dict
  = (Ret (PulseBlockElement.init
            (Some (PulseBlockElement.d_init_length_s element_dict))
            (Some (PulseBlockElement.d_increment_s element_dict))
            (Some (zip (PulseBlockElement.d_pulse_function element_dict).*1 fs))
            (Some (PulseBlockElement.d_digital_high element_dict))),
     PulseBlockElement.set_d_pulse_function
       (objects_of (PulseBlockElement.d_pulse_function element_dict) fs) element_dict).
Proof.
  intros Hnd Hb. unfold PulseBlockElement.element_from_dict. run.
  rewrite (from_dict_loop [] _ fs) by done. simpl.
  rewrite objects_objects_of by (by eapply Forall2_length). done.
Qed.

End ElementRecords.

(** ** The record of a block *)

Section BlockRecords.
Context {SF P : Type}.
Variable sf_repr : SF -> PulseBlockElement.sample_dict P.
Variable sf_new : string -> P -> result SF.
Implicit Types (b : PulseBlock.t SF) (block_dict : PulseBlock.dict_repr SF P)
  (entries : list (PulseBlock.elem_entry SF P)) (es : list (PulseBlockElement.t SF)).


Lemma elements_objects es :
  PulseBlock.elements (PulseBlock.ElemObj (P := P) <$> es) = Ret es.
Proof.
  induction es as [|e es IH]; [done|].
  rewrite fmap_cons. cbn [PulseBlock.elements]. by rewrite IH.
Qed.

(** The loop of [block_from_dict] on the entries not yet visited. *)
Lemma block_from_dict_loop visited entries es block_dict :
  PulseBlock.d_element_list block_dict = visited ++ entries ->
  Forall2 (reads sf_new) entries es ->
  for_each_enumerate (length visited) entries (PulseBlock.from_dict_step sf_new) block_dict
  = (Ret tt,
     PulseBlock.set_d_element_list (visited ++ (PulseBlock.ElemObj <$> es)) block_dict).
Proof.
  intros Hd Hr. revert visited block_dict Hd.
  induction Hr as [|entry e entries es (d & -> & Hread) _ IH]; intros visited block_dict Hd.
  - simpl. run. rewrite app_nil_r in *. rewrite <- Hd. by destruct block_dict.
  - simpl. run. unfold PulseBlock.from_dict_step at 1.
    destruct (PulseBlockElement.element_from_dict sf_new d) as [r d'].
    simpl in Hread. subst r. run. simpl.
    specialize (IH (visited ++ [PulseBlock.ElemObj e])).
    rewrite length_app, Nat.add_1_r in IH. rewrite IH.
    + by rewrite <- app_assoc.
    + simpl. rewrite Hd, insert_app_r_alt by done.
      rewrite Nat.sub_diag. simpl. by rewrite <- app_assoc.
Qed.

(** What [block_from_dict] returns and what it leaves in the record, when
    every entry can be read as an element. *)
Lemma block_from_dict_eq block_dict es :
  Forall2 (reads sf_new) (PulseBlock.d_element_list block_dict) es ->
  PulseBlock.block_from_dict sf_new block_dict
  = (PulseBlock.init (PulseBlock.d_name block_dict) (Some es),
     PulseBlock.set_d_element_list (PulseBlock.ElemObj <$> es) block_dict).
Proof.
  intros Hr. unfold PulseBlock.block_from_dict. run.
  rewrite (block_from_dict_loop [] _ es) by done. simpl.
  by rewrite elements_objects.
Qed.

End BlockRecords.

(** ** Blocks as the constructor leaves them *)

Section ConstructedBlocks.
Context {SF : Type}.
Implicit Types (b : PulseBlock.t SF) (e : PulseBlockElement.t SF)
  (l : list (PulseBlockElement.t SF)) (X : gset string).

Lemma refresh_step_eq e b :
  PulseBlock.channel_set b = ∅
  \/ PulseBlock.channel_set b = PulseBlockElement.channel_set e ->
  PulseBlock.refresh_step e b
  = (Ret tt,
     PulseBlock.mk (PulseBlock.name b) (PulseBlock.element_list b)
       (PulseBlock.init_length_s b + PulseBlockElement.init_length_s e)%float
       (PulseBlock.increment_s b + PulseBlockElement.increment_s e)%float
       (PulseBlock.analog_channels b) (PulseBlock.digital_channels b)
       (PulseBlockElement.channel_set e)).
Proof.
  intros H. unfold PulseBlock.refresh_step. run. simpl.
  destruct (bool_decide (PulseBlock.channel_set b = ∅)) eqn:E; [done|].
  apply bool_decide_eq_false in E. destruct H as [H|H]; [done|].
  rewrite bool_decide_eq_false_2 by (by intros []). by rewrite <- H.
Qed.

Lemma refresh_loop_same l X b :
  Forall (fun e => PulseBlockElement.channel_set e = X) l ->
  PulseBlock.channel_set b = ∅ \/ PulseBlock.channel_set b = X ->
  for_each l PulseBlock.refresh_step b
  = (Ret tt,
     PulseBlock.mk (PulseBlock.name b) (PulseBlock.element_list b)
       (fold_left PrimFloat.add (PulseBlockElement.init_length_s <$> l)
          (PulseBlock.init_length_s b))
       (fold_left PrimFloat.add (PulseBlockElement.increment_s <$> l)
          (PulseBlock.increment_s b))
       (PulseBlock.analog_channels b) (PulseBlock.digital_channels b)
       (match l with [] => PulseBlock.channel_set b | _ => X end)).
Proof.
  intros Hl. revert b. induction Hl as [|e l He Hl IH]; intros b Hb.
  - simpl. run. by destruct b.
  - simpl. run. rewrite refresh_step_eq by (by rewrite He).
    rewrite IH by (right; done). simpl.
    rewrite He. by destruct l.
Qed.

(** The constructor on elements that share a channel set: the totals are
    the sums accumulated from [0.0] in the order of the list. *)
Lemma init_same name l X :
  Forall (fun e => PulseBlockElement.channel_set e = X) l -> l <> [] ->
  PulseBlock.init name (Some l)
  = Ret (PulseBlock.mk name l (total_duration l) (total_increment l)
           (channels_starting_with "a" X) (channels_starting_with "d" X) X).
Proof.
  intros Hl Hne. unfold PulseBlock.init, PulseBlock.refresh_parameters. run. simpl.
  rewrite (refresh_loop_same l X) by (done || by left). simpl.
  by destruct l.
Qed.







End ConstructedBlocks.

(** ** Round trip through the records *)

Lemma wave_catalog_inverse : catalog_inverse Examples.wave_repr Examples.wave_new.
Proof. by intros []. Qed.

Section RoundTrip.
Context {SF P V : Type}.
Variable sf_repr : SF -> PulseBlockElement.sample_dict P.
Variable sf_new : string -> P -> result SF.



End RoundTrip.



(** The totals do not survive either: the block left by two appends and a
    delete holds a total duration of 5.000000000000002e-09, and the block
    read back from its record one of 5e-09. *)
Example round_trip_recomputes_totals :
  catalog_inverse Examples.wave_repr Examples.wave_new
  /\ PulseBlock.element_list Examples.block_drifted = [Examples.e_5ns]
  /\ exists b',
       (PulseBlock.block_from_dict Examples.wave_new
          (PulseBlock.get_dict_representation Examples.wave_repr Examples.block_drifted)).1
       = Ret b'
       /\ PulseBlock.init_length_s b' = Examples.ns 5
       /\ PulseBlock.init_length_s Examples.block_drifted = 0x1.5798ee2308c3cp-28%float
       /\ b' ≠ Examples.block_drifted.
Proof.
  split; [apply wave_catalog_inverse|]. split; [reflexivity|].
  eexists. split; [by vm_compute|]. split; [by vm_compute|].
  split; [by vm_compute|]. intros Heq.
  apply (f_equal PulseBlock.init_length_s) in Heq. by vm_compute in Heq.
Qed.

(** ** The record after reading it *)

Section RecordsAfterReading.
Context {SF P : Type}.
Variable sf_new : string -> P -> result SF.

(** A record whose first waveform entry is already an object cannot be
    read. *)
Lemma element_from_dict_object element_dict chnl f items :
  PulseBlockElement.d_pulse_function element_dict
  = (chnl, PulseBlockElement.SampleObj f) :: items ->
  PulseBlockElement.element_from_dict sf_new element_dict = (Raise TypeError, element_dict).
Proof.
  intros H. unfold PulseBlockElement.element_from_dict. run. by rewrite H.
Qed.

(** A block record whose first entry is already an element cannot be
    read. *)
Lemma block_from_dict_object block_dict e entries :
  PulseBlock.d_element_list block_dict = PulseBlock.ElemObj e :: entries ->
  PulseBlock.block_from_dict sf_new block_dict = (Raise TypeError, block_dict).
Proof.
  intros H. unfold PulseBlock.block_from_dict. run. by rewrite H.
Qed.

(** C10, amended.  When the catalog builds an object from every waveform
    entry of an element record, [element_from_dict] succeeds and leaves in
    the caller's record each entry overwritten with the object built from
    it, the other fields as they were.  A record with at least one waveform
    entry is then no longer equal to what it was and reading it again
    raises [TypeError]; a record without waveform entries is unchanged.
    Likewise [block_from_dict], when every entry can be read as an element,
    leaves each entry of the element list overwritten with the element
    built from it: a record with at least one element differs from what it
    was and reading it again raises [TypeError]; a record without elements
    is unchanged. *)
Theorem from_dict_overwrites_the_record :
  (forall (element_dict : PulseBlockElement.dict_repr SF P) fs,
     NoDup (PulseBlockElement.d_pulse_function element_dict).*1 ->
     Forall2 (builds sf_new) (PulseBlockElement.d_pulse_function element_dict) fs ->
     exists e element_dict',
       PulseBlockElement.element_from_dict sf_new element_dict = (Ret e, element_dict')
       /\ PulseBlockElement.d_pulse_function element_dict'
          = zip_with (fun item f => (item.1, PulseBlockElement.SampleObj f))
                     (PulseBlockElement.d_pulse_function element_dict) fs
       /\ PulseBlockElement.d_init_length_s element_dict'
          = PulseBlockElement.d_init_length_s element_dict
       /\ PulseBlockElement.d_increment_s element_dict'
          = PulseBlockElement.d_increment_s element_dict
       /\ PulseBlockElement.d_digital_high element_dict'
          = PulseBlockElement.d_digital_high element_dict
       /\ (PulseBlockElement.d_pulse_function element_dict <> [] ->
           element_dict' <> element_dict
           /\ PulseBlockElement.element_from_dict sf_new element_dict'
              = (Raise TypeError, element_dict'))
       /\ (PulseBlockElement.d_pulse_function element_dict = [] ->
           element_dict' = element_dict))
  /\ (forall (block_dict : PulseBlock.dict_repr SF P) es,
        Forall2 (reads sf_new) (PulseBlock.d_element_list block_dict) es ->
        exists block_dict',
          PulseBlock.block_from_dict sf_new block_dict
          = (PulseBlock.init (PulseBlock.d_name block_dict) (Some es), block_dict')
          /\ PulseBlock.d_element_list block_dict' = PulseBlock.ElemObj <$> es
          /\ PulseBlock.d_name block_dict' = PulseBlock.d_name block_dict
          /\ (PulseBlock.d_element_list block_dict <> [] ->
              block_dict' <> block_dict
              /\ PulseBlock.block_from_dict sf_new block_dict'
                 = (Raise TypeError, block_dict'))
          /\ (PulseBlock.d_element_list block_dict = [] -> block_dict' = block_dict)).
Proof.
  split.
  - intros element_dict fs Hnd Hb.
    eexists _, _. split; [by apply element_from_dict_eq|].
    split; [reflexivity|]. split; [reflexivity|]. split; [reflexivity|].
    split; [reflexivity|]. split.
    + intros Hne.
      destruct (PulseBlockElement.d_pulse_function element_dict)
        as [|[c x] items] eqn:E; [done|].
      inversion Hb as [|? f ? fs' (sd & Hx & _) Hb']. subst. split.
      * intros Heq. apply (f_equal PulseBlockElement.d_pulse_function) in Heq.
        rewrite E in Heq. simpl in *. congruence.
      * by eapply element_from_dict_object.
    + intros Hnil. destruct element_dict as [a b c d]. simpl in *. subst d.
      by inversion Hb.
  - intros block_dict es Hr.
    eexists. split; [by apply block_from_dict_eq|].
    split; [reflexivity|]. split; [reflexivity|]. split.
    + intros Hne.
      destruct (PulseBlock.d_element_list block_dict) as [|entry entries] eqn:E; [done|].
      inversion Hr as [|? e ? es' (d & Hentry & _) Hr']. subst. split.
      * intros Heq. apply (f_equal PulseBlock.d_element_list) in Heq.
        rewrite E in Heq. simpl in *. congruence.
      * by eapply block_from_dict_object.
    + intros Hnil. destruct block_dict as [n l]. simpl in *. subst l.
      by inversion Hr.
Qed.
End RecordsAfterReading.

Lemma from_dict_overwrites_witness :
  (exists e element_dict',
     PulseBlockElement.element_from_dict Examples.wave_new Examples.record_sine
     = (Ret e, element_dict')
     /\ element_dict' <> Examples.record_sine
     /\ PulseBlockElement.element_from_dict Examples.wave_new element_dict'
        = (Raise TypeError, element_dict'))
  /\ (exists block_dict',
        PulseBlock.block_from_dict Examples.wave_new Examples.record_block_one
        = (PulseBlock.init "B" (Some [Examples.e_10ns]), block_dict')
        /\ block_dict' <> Examples.record_block_one
        /\ PulseBlock.block_from_dict Examples.wave_new block_dict'
           = (Raise TypeError, block_dict')).
Proof.
  destruct (from_dict_overwrites_the_record Examples.wave_new) as [He Hb].
  split.
  - destruct (He Examples.record_sine
                [Examples.Sin 1%float 2870000000%float 0%float])
      as (e & d' & Hread & _ & _ & _ & _ & Hchanged & _).
    + apply NoDup_singleton.
    + repeat constructor. eexists. split; reflexivity.
    + exists e, d'. split; [done|]. apply Hchanged. discriminate.
  - destruct (Hb Examples.record_block_one [Examples.e_10ns])
      as (d' & Hread & _ & _ & Hchanged & _).
    + repeat constructor. eexists. split; reflexivity.
    + exists d'. split; [done|]. apply Hchanged. discriminate.
Defined.

(** C10 as stated fails: the record of an element without analog channels
    is the same after reading it and can be read again, and so is the record
    of a block without elements. *)
Lemma record_without_entries_is_unchanged :
  PulseBlockElement.d_pulse_function Examples.record_digital = []
  /\ PulseBlockElement.element_from_dict Examples.wave_new Examples.record_digital
     = (Ret Examples.e_10ns, Examples.record_digital)
  /\ PulseBlockElement.element_from_dict Examples.wave_new
       (PulseBlockElement.element_from_dict Examples.wave_new Examples.record_digital).2
     = (Ret Examples.e_10ns, Examples.record_digital)
  /\ PulseBlock.d_element_list Examples.record_block_empty = []
  /\ PulseBlock.block_from_dict Examples.wave_new Examples.record_block_empty
     = (Ret (BlockScript.empty "B"), Examples.record_block_empty)
  /\ PulseBlock.block_from_dict Examples.wave_new
       (PulseBlock.block_from_dict Examples.wave_new Examples.record_block_empty).2
     = (Ret (BlockScript.empty "B"), Examples.record_block_empty).
Proof. repeat split; reflexivity. Qed.


(** * Further properties of the methods *)

(** ** Where an inserted item goes *)

Section PyInsert.
Context {A : Type}.
Implicit Types (l : list A) (i : Z) (k : nat).

Lemma py_insert_pos_in_range l i :
  0 <= i <= len l -> py_insert_pos l i = Z.to_nat i.
Proof.
  intros H. unfold py_insert_pos, len in *.
  destruct (i <? 0) eqn:E; zbool; lia.
Qed.

Lemma py_insert_pos_le l i : (py_insert_pos l i <= length l)%nat.
Proof.
  unfold py_insert_pos, len. destruct (i <? 0) eqn:E; zbool; lia.
Qed.

(** The new item is at the position, the items before it stay and the items
    from the position on move up by one. *)
Lemma py_insert_lookup l i x :
  let k := py_insert_pos l i in
  py_insert l i x !! k = Some x
  /\ (forall j, (j < k)%nat -> py_insert l i x !! j = l !! j)
  /\ (forall j, (k <= j)%nat -> py_insert l i x !! S j = l !! j).
Proof.
  intros k. pose proof (py_insert_pos_le l i) as Hk. fold k in Hk.
  unfold py_insert. fold k.
  assert (length (take k l) = k) as Hlen by (rewrite length_take; lia).
  split; [|split].
  - rewrite lookup_app_r by lia. by rewrite Hlen, Nat.sub_diag.
  - intros j Hj. rewrite lookup_app_l by lia. by apply lookup_take_lt.
  - intros j Hj. rewrite lookup_app_r by lia. rewrite Hlen.
    replace (S j - k)%nat with (S (j - k)) by lia. simpl.
    rewrite lookup_drop. f_equal. lia.
Qed.

Lemma delete_py_insert l i x : delete (py_insert_pos l i) (py_insert l i x) = l.
Proof.
  pose proof (py_insert_pos_le l i) as Hk. unfold py_insert.
  set (k := py_insert_pos l i) in *.
  assert (length (take k l) = k) as Hlen by (rewrite length_take; lia).
  rewrite <- Hlen at 1. rewrite delete_middle. apply take_drop.
Qed.

(** A negative index within the list is the index counted from the end. *)
Lemma py_index_from_end l i :
  - len l <= i < 0 -> py_index l i = py_index l (len l + i).
Proof.
  intros H. rewrite py_index_neg by done. rewrite py_index_nonneg; [done|lia].
Qed.
End PyInsert.

(** ** PulseBlock: insertion, negative positions, failed calls *)

Section BlockEdits.
Context {SF : Type}.
Implicit Types (b : PulseBlock.t SF) (e : PulseBlockElement.t SF) (position : Z).

(** X1.  [insert_element] at a position from 0 to the length, with an
    element that has the channel set of the block (or into a block that has
    none), returns 0; the element is then at that position, the elements
    before it are where they were and the others are one index higher; the
    channel set of the block is the one of the element. *)
Theorem insert_element_places_the_element b e position :
  0 <= position <= len (PulseBlock.element_list b) ->
  PulseBlock.channel_set b = ∅
  \/ PulseBlockElement.channel_set e = PulseBlock.channel_set b ->
  exists b',
    PulseBlock.insert_element position (Inst e) b = (Ret 0, b')
    /\ PulseBlock.element_list b' !! Z.to_nat position = Some e
    /\ (forall j, (j < Z.to_nat position)%nat ->
          PulseBlock.element_list b' !! j = PulseBlock.element_list b !! j)
    /\ (forall j, (Z.to_nat position <= j)%nat ->
          PulseBlock.element_list b' !! S j = PulseBlock.element_list b !! j)
    /\ len (PulseBlock.element_list b') = len (PulseBlock.element_list b) + 1
    /\ PulseBlock.channel_set b' = PulseBlockElement.channel_set e
    /\ PulseBlock.name b' = PulseBlock.name b.
Proof.
  intros Hpos Hcs. rewrite insert_element_eq.
  rewrite (proj2 (Z.ltb_ge _ _)) by lia.
  pose proof (py_insert_lookup (PulseBlock.element_list b) position e) as Hl.
  cbv zeta in Hl. rewrite py_insert_pos_in_range in Hl by done.
  destruct Hl as (H1 & H2 & H3).
  assert (len (py_insert (PulseBlock.element_list b) position e)
          = len (PulseBlock.element_list b) + 1) as Hlen.
  { unfold len. rewrite py_insert_length. lia. }
  destruct (bool_decide (PulseBlock.channel_set b = ∅)) eqn:E.
  - eexists. split; [done|]. simpl. done.
  - apply bool_decide_eq_false in E. destruct Hcs as [Hcs|Hcs]; [done|].
    rewrite bool_decide_eq_false_2 by (by intros []).
    eexists. split; [done|]. simpl. done.
Qed.

(** X2.  [append_element] never returns -1 for an element: it raises
    [ValueError] and leaves the block as it was, or it returns 0 and the
    element is the first, or the last, of the list. *)
Theorem append_element_outcomes b e at_beginning :
  PulseBlock.append_element (Inst e) at_beginning b = (Raise ValueError, b)
  \/ exists b',
       PulseBlock.append_element (Inst e) at_beginning b = (Ret 0, b')
       /\ PulseBlock.element_list b'
          = if at_beginning then e :: PulseBlock.element_list b
            else PulseBlock.element_list b ++ [e].
Proof.
  rewrite append_element_eq, insert_element_eq.
  assert (py_insert (PulseBlock.element_list b)
            (if at_beginning then 0 else len (PulseBlock.element_list b)) e
          = if at_beginning then e :: PulseBlock.element_list b
            else PulseBlock.element_list b ++ [e]) as Hl.
  { unfold py_insert. rewrite py_insert_pos_in_range by (destruct at_beginning; unfold len; lia).
    destruct at_beginning; [done|].
    unfold len. rewrite Nat2Z.id, take_ge, drop_ge by lia. done. }
  rewrite (proj2 (Z.ltb_ge _ _)) by (destruct at_beginning; unfold len; lia).
  destruct (bool_decide (PulseBlock.channel_set b = ∅)).
  - right. eexists. split; [done|]. simpl. by rewrite Hl.
  - destruct (bool_decide _); [by left|].
    right. eexists. split; [done|]. simpl. by rewrite Hl.
Qed.

(** X3.  A negative position down to minus the length addresses from the
    end: [delete_element] and [replace_element] do with it what they do with
    the position plus the length; below minus the length [delete_element]
    raises [IndexError] and leaves the block as it was. *)
Theorem block_negative_positions b position :
  (- len (PulseBlock.element_list b) <= position < 0 ->
   PulseBlock.delete_element position b
   = PulseBlock.delete_element (len (PulseBlock.element_list b) + position) b
   /\ forall element,
        PulseBlock.replace_element position element b
        = PulseBlock.replace_element (len (PulseBlock.element_list b) + position)
            element b)
  /\ (position < - len (PulseBlock.element_list b) ->
      PulseBlock.delete_element position b = (Raise IndexError, b)).
Proof.
  split.
  - intros H. split.
    + rewrite !delete_element_eq.
      rewrite !(proj2 (Z.leb_gt _ _)) by lia. by rewrite py_index_from_end.
    + intros [e|]; [|done]. rewrite !replace_element_eq.
      rewrite !(proj2 (Z.leb_gt _ _)) by lia. by rewrite py_index_from_end.
  - intros H. rewrite delete_element_eq.
    rewrite (proj2 (Z.leb_gt _ _)) by (unfold len in *; lia).
    by rewrite py_index_below.
Qed.

(** X4.  Whatever a call on a block returns or raises, unless it returns 0
    the block is as it was. *)
Theorem block_failed_call_changes_nothing (c : BlockScript.call SF) b :
  (BlockScript.run_call c b).1 <> Ret 0 -> (BlockScript.run_call c b).2 = b.
Proof.
  destruct c as [position [e|]|position [e|]|position|[e|] at_beginning]; simpl;
    try done.
  - rewrite insert_element_eq. by repeat case_match.
  - rewrite replace_element_eq. by repeat case_match.
  - rewrite delete_element_eq. cbv zeta. by repeat case_match.
  - rewrite append_element_eq, insert_element_eq. by repeat case_match.
Qed.

(** X5.  Deleting the last element leaves the channel set of the block as
    it was: the empty block then refuses an element with another channel
    set. *)
Theorem emptied_block_keeps_channel_set b e e' :
  PulseBlock.element_list b = [e] ->
  PulseBlock.channel_set b ≠ ∅ ->
  PulseBlockElement.channel_set e' ≠ PulseBlock.channel_set b ->
  exists b',
    PulseBlock.delete_element 0 b = (Ret 0, b')
    /\ PulseBlock.element_list b' = []
    /\ PulseBlock.channel_set b' = PulseBlock.channel_set b
    /\ PulseBlock.init_length_s b' = 0%float
    /\ PulseBlock.insert_element 0 (Inst e') b' = (Raise ValueError, b').
Proof.
  intros Hl Hcs Hne. rewrite delete_element_eq, Hl. simpl.
  eexists. split; [done|]. split; [done|]. split; [done|]. split; [done|].
  rewrite insert_element_eq. simpl.
  rewrite bool_decide_eq_false_2 by done. by rewrite bool_decide_eq_true_2.
Qed.
End BlockEdits.

(** ** PulseBlockEnsemble: repetitions, failed calls, insert and delete *)

Section EnsembleEdits.
Context {V : Type}.
Implicit Types (e : PulseBlockEnsemble.t V) (position : Z).

Lemma ensemble_call_repetitions (c : EnsembleScript.call) e :
  Forall (fun st => 0 <= step_param st) (PulseBlockEnsemble.block_list e) ->
  Forall (fun st => 0 <= step_param st)
         (PulseBlockEnsemble.block_list (EnsembleScript.run_call c e).2).
Proof.
  intros H.
  assert (forall position n r,
    Forall (fun st => 0 <= step_param st)
      (PulseBlockEnsemble.block_list
         (PulseBlockEnsemble.insert_block position (Inst n) r e).2)) as Hins.
  { intros position n r. rewrite insert_block_eq. cbv zeta.
    destruct (_ || _) eqn:E; [done|]. simpl. zbool.
    unfold py_insert. apply Forall_app. split; [by apply Forall_take|].
    constructor; [simpl; lia|by apply Forall_drop]. }
  destruct c as [position [n|] r|position [n|] [r|]|position|[n|] r b]; simpl.
  - apply Hins.
  - exact H.
  - rewrite replace_block_eq. cbv zeta.
    destruct (_ <=? _); [done|]. destruct (0 <=? r) eqn:E; [|done].
    destruct (py_index _ _); [|done]. simpl. zbool. by apply Forall_insert.
  - rewrite replace_block_eq. cbv zeta.
    destruct (_ <=? _); [done|]. destruct (py_index _ _) as [k|]; [|done].
    destruct (_ !! k) as [st|] eqn:Hk; [|done]. destruct (kind st); [done|].
    simpl. apply Forall_insert; [done|]. simpl.
    by apply (Forall_lookup_1 _ _ _ _ H Hk).
  - exact H.
  - exact H.
  - rewrite delete_block_eq. cbv zeta.
    repeat case_match; try done. simpl. by apply Forall_delete.
  - rewrite append_block_eq. apply Hins.
  - exact H.
Qed.

(** X6.  The methods never store negative repetitions: in an ensemble
    built from a list of steps with repetitions of at least 0 and edited by
    any series of calls, every step has repetitions of at least 0. *)
Theorem ensemble_repetitions_are_not_negative name l rotating_frame
    (calls : list EnsembleScript.call) :
  Forall (fun st => 0 <= step_param st) l ->
  Forall (fun st => 0 <= step_param st)
         (PulseBlockEnsemble.block_list
            (EnsembleScript.run calls
               (PulseBlockEnsemble.init (V := V) name (Inst l) rotating_frame))).
Proof.
  intros Hl.
  assert (Forall (fun st => 0 <= step_param st)
            (PulseBlockEnsemble.block_list
               (PulseBlockEnsemble.init (V := V) name (Inst l) rotating_frame))) as H
    by done.
  revert H. generalize (PulseBlockEnsemble.init (V := V) name (Inst l) rotating_frame).
  induction calls as [|c calls IH]; intros e H; [done|].
  simpl. by apply IH, ensemble_call_repetitions.
Qed.

(** X7.  Whatever a call on an ensemble returns or raises, unless it
    returns 0 the ensemble is as it was; and [insert_block] and
    [replace_block] refuse negative repetitions with -1. *)
Theorem ensemble_failed_call_changes_nothing (c : EnsembleScript.call) e :
  ((EnsembleScript.run_call c e).1 <> Ret 0 -> (EnsembleScript.run_call c e).2 = e)
  /\ (forall position block_name reps,
        reps < 0 ->
        PulseBlockEnsemble.insert_block position block_name reps e = (Ret (-1), e)
        /\ (position < len (PulseBlockEnsemble.block_list e) ->
            PulseBlockEnsemble.replace_block position block_name (Some reps) e
            = (Ret (-1), e))).
Proof.
  split.
  - destruct c as [position [n|] r|position [n|] r|position|[n|] r b]; simpl; try done.
    + rewrite insert_block_eq. cbv zeta. by repeat case_match.
    + rewrite replace_block_eq. cbv zeta. by repeat case_match.
    + rewrite delete_block_eq. cbv zeta. by repeat case_match.
    + rewrite append_block_eq, insert_block_eq. cbv zeta. by repeat case_match.
  - intros position [n|] reps Hneg; [|done]. split.
    + rewrite insert_block_eq. cbv zeta.
      rewrite (proj2 (Z.ltb_lt reps 0)) by done. by rewrite orb_true_r.
    + intros Hpos. rewrite replace_block_eq. cbv zeta.
      rewrite (proj2 (Z.leb_gt _ _)) by lia.
      by rewrite (proj2 (Z.leb_gt 0 reps)) by lia.
Qed.

(** X8.  Deleting at the position of an insertion undoes it: after
    [insert_block] at a position from 0 to the length, [delete_block] at the
    same position returns 0 and the ensemble is as before. *)
Theorem delete_block_undoes_insert_block position block_name reps e :
  0 <= position <= len (PulseBlockEnsemble.block_list e) -> 0 <= reps ->
  exists e',
    PulseBlockEnsemble.insert_block position (Inst block_name) reps e = (Ret 0, e')
    /\ len (PulseBlockEnsemble.block_list e') = len (PulseBlockEnsemble.block_list e) + 1
    /\ PulseBlockEnsemble.block_list e' !! Z.to_nat position
       = Some (mk_step tuple block_name reps)
    /\ PulseBlockEnsemble.delete_block position e' = (Ret 0, e).
Proof.
  intros Hpos Hreps. rewrite insert_block_eq. cbv zeta.
  rewrite (proj2 (Z.ltb_ge _ _)) by lia. rewrite (proj2 (Z.ltb_ge reps 0)) by lia.
  simpl. eexists. split; [done|].
  pose proof (py_insert_lookup (PulseBlockEnsemble.block_list e) position
                (mk_step tuple block_name reps)) as (Hat & _ & _).
  rewrite py_insert_pos_in_range in Hat by done.
  assert (len (py_insert (PulseBlockEnsemble.block_list e) position
                 (mk_step tuple block_name reps))
          = len (PulseBlockEnsemble.block_list e) + 1) as Hlen.
  { unfold len. rewrite py_insert_length. lia. }
  split; [done|]. split; [done|].
  rewrite delete_block_eq. cbv zeta. simpl.
  rewrite (proj2 (Z.leb_gt _ _)) by lia.
  rewrite py_index_nonneg by lia.
  rewrite <- (py_insert_pos_in_range (PulseBlockEnsemble.block_list e) position) by done.
  rewrite delete_py_insert. by destruct e.
Qed.
End EnsembleEdits.

(** ** PulseSequence: missing repetitions, insert and delete, the constructor *)

Section SequenceEdits.
Context {V : Type}.
Implicit Types (s : PulseSequence.t V) (position : Z) (p : seq_param).

(** X9.  A parameter dictionary without ['repetitions'] makes
    [insert_ensemble] and [replace_ensemble] raise [KeyError] after the step
    list was changed: the step is in the list when the exception arrives,
    and [is_finite] is as it was. *)
Theorem missing_repetitions_raise_after_the_edit position ensemble_name p s :
  p !! "repetitions"%string = None ->
  (position <= len (PulseSequence.ensemble_list s) ->
   PulseSequence.insert_ensemble position (Inst ensemble_name) p s
   = (Raise KeyError,
      PulseSequence.set_ensemble_list
        (py_insert (PulseSequence.ensemble_list s) position
           (mk_step tuple ensemble_name p)) s))
  /\ (0 <= position < len (PulseSequence.ensemble_list s) ->
      PulseSequence.replace_ensemble position (Inst ensemble_name) (Some p) s
      = (Raise KeyError,
         PulseSequence.set_ensemble_list
           (<[Z.to_nat position := mk_step tuple ensemble_name p]>
              (PulseSequence.ensemble_list s)) s)).
Proof.
  intros Hp. split.
  - intros Hpos. unfold PulseSequence.insert_ensemble. run.
    rewrite (proj2 (Z.ltb_ge _ _)) by lia.
    unfold repetitions. by rewrite Hp.
  - intros Hpos. unfold PulseSequence.replace_ensemble. run.
    rewrite (proj2 (Z.leb_gt _ _)) by lia.
    unfold py_setitem. rewrite py_index_nonneg by done.
    unfold repetitions. by rewrite Hp.
Qed.

(** X10.  In a sequence whose flag is up to date, deleting at the position
    of an insertion undoes it, the flag included. *)
Theorem delete_ensemble_undoes_insert_ensemble position ensemble_name p s :
  sequence_ok s -> has_repetitions p ->
  0 <= position <= len (PulseSequence.ensemble_list s) ->
  exists s',
    PulseSequence.insert_ensemble position (Inst ensemble_name) p s = (Ret 0, s')
    /\ PulseSequence.ensemble_list s' !! Z.to_nat position
       = Some (mk_step tuple ensemble_name p)
    /\ PulseSequence.delete_ensemble position s' = (Ret 0, s).
Proof.
  intros [Hwf Hfin] Hp Hpos. destruct (repetitions_Some p Hp) as [r Hr].
  rewrite (insert_ensemble_eq _ _ _ r) by done. cbv zeta.
  rewrite (proj2 (Z.ltb_ge _ _)) by lia.
  eexists. split; [done|].
  pose proof (py_insert_lookup (PulseSequence.ensemble_list s) position
                (mk_step tuple ensemble_name p)) as (Hat & _ & _).
  rewrite py_insert_pos_in_range in Hat by done. split; [done|].
  rewrite delete_ensemble_eq.
  - cbv zeta. simpl.
    assert (len (py_insert (PulseSequence.ensemble_list s) position
                   (mk_step tuple ensemble_name p))
            = len (PulseSequence.ensemble_list s) + 1) as Hlen.
    { unfold len. rewrite py_insert_length. lia. }
    rewrite (proj2 (Z.leb_gt _ _)) by lia.
    rewrite py_index_nonneg by lia. rewrite Hat.
    rewrite <- (py_insert_pos_in_range (PulseSequence.ensemble_list s) position) by done.
    rewrite delete_py_insert.
    rewrite (is_negative_repetitions (mk_step tuple ensemble_name p) r Hr).
    destruct (r <? 0); [rewrite <- Hfin|]; by destruct s.
  - simpl. unfold py_insert. apply Forall_app. split; [by apply Forall_take|].
    constructor; [done|by apply Forall_drop].
Qed.

(** X11.  The constructor scans the steps up to the first one with negative
    repetitions: steps behind it are not looked at, so the sequence is built
    (and is not finite) even when a later step has no repetitions; a step
    without repetitions before any negative one makes the constructor raise
    [KeyError]. *)
Theorem constructor_stops_at_first_negative_step name rotating_frame
    (before after : list (step seq_param)) (st : step seq_param) :
  Forall (fun st => exists r, repetitions (step_param st) = Ret r /\ 0 <= r) before ->
  ((exists r, repetitions (step_param st) = Ret r /\ r < 0) ->
   PulseSequence.init (V := V) name (Some (before ++ st :: after)) rotating_frame
   = Ret (PulseSequence.mk name rotating_frame (before ++ st :: after) false ∅ ∅))
  /\ (step_param st !! "repetitions"%string = None ->
      PulseSequence.init (V := V) name (Some (before ++ st :: after)) rotating_frame
      = Raise KeyError).
Proof.
  intros Hbefore.
  assert (forall s : PulseSequence.t V,
    PulseSequence.refresh_loop (before ++ st :: after) s
    = PulseSequence.refresh_loop (st :: after) s) as Hloop.
  { intros s. induction Hbefore as [|st' l (r & Hr & Hpos) _ IH]; [done|].
    simpl. run. rewrite Hr. by rewrite (proj2 (Z.ltb_ge r 0)) by lia. }
  unfold PulseSequence.init, PulseSequence.refresh_parameters. run. simpl.
  rewrite Hloop. split.
  - intros (r & Hr & Hneg). simpl. run. rewrite Hr.
    by rewrite (proj2 (Z.ltb_lt r 0)) by lia.
  - intros Hnone. simpl. run. unfold repetitions. by rewrite Hnone.
Qed.
End SequenceEdits.

(** ** The constructor of a block *)

Section BlockConstructor.
Context {SF : Type}.
Implicit Types (e : PulseBlockElement.t SF) (l : list (PulseBlockElement.t SF))
  (X : gset string).

(** X12.  [PulseBlock(name, element_list)] on elements that share a channel
    set builds the block with that channel set and, as totals, the
    floating-point sums of the durations and of the increments, accumulated
    from [0.0] in the order of the list; on a list where an element follows
    elements of another, non-empty channel set it raises [ValueError]. *)
Theorem block_constructor_checks_channel_sets name X :
  (forall l,
     Forall (fun e => PulseBlockElement.channel_set e = X) l -> l <> [] ->
     PulseBlock.init name (Some l)
     = Ret (PulseBlock.mk name l (total_duration l) (total_increment l)
              (channels_starting_with "a" X) (channels_starting_with "d" X) X))
  /\ (forall before e after,
        Forall (fun e => PulseBlockElement.channel_set e = X) before ->
        before <> [] -> X ≠ ∅ -> PulseBlockElement.channel_set e ≠ X ->
        PulseBlock.init name (Some (before ++ e :: after)) = Raise ValueError).
Proof.
  split; [intros l; apply init_same|].
  intros before e after Hbefore Hne HX He.
  unfold PulseBlock.init, PulseBlock.refresh_parameters. run. simpl.
  rewrite for_each_app.
  rewrite (refresh_loop_same before X) by (done || by left).
  simpl. run. unfold PulseBlock.refresh_step. run. simpl.
  destruct before; [done|].
  rewrite bool_decide_eq_false_2 by done.
  rewrite bool_decide_eq_true_2 by (by intros ->). done.
Qed.
End BlockConstructor.

(** ** Playback duration: missing and repeated block names *)

Section PlaybackEdges.
Context {SF V : Type}.
Implicit Types (created_blocks : list (PulseBlock.t SF)) (st : step Z).

(** X13.  Without a gate channel, a step whose block name is not among the
    blocks makes [_get_ensemble_count_length] raise [KeyError], when the
    steps before it have known blocks and integers within the double
    range. *)
Theorem count_length_of_unknown_block (self : PredefinedGeneratorBase.t)
    (ensemble : PulseBlockEnsemble.t V) created_blocks before st after :
  PredefinedGeneratorBase.truth (PredefinedGeneratorBase.gate_channel self) = false ->
  PulseBlockEnsemble.block_list ensemble = before ++ st :: after ->
  Forall (fun st => is_Some (block_named created_blocks (step_name st))
                    /\ converts (step_param st)) before ->
  block_named created_blocks (step_name st) = None ->
  PredefinedGeneratorBase._get_ensemble_count_length self ensemble created_blocks
  = Raise KeyError.
Proof.
  intros Hgate Hl Hbefore Hnone.
  unfold PredefinedGeneratorBase._get_ensemble_count_length. rewrite Hgate, Hl.
  cbv zeta. rewrite count_length_loop_eq, playback_duration_app.
  destruct (playback_duration_returns created_blocks before 0%float Hbefore)
    as [length ->].
  cbn [ensemble_playback_duration]. by rewrite Hnone.
Qed.

(** X14.  Without a gate channel and for an ensemble of one step, the last
    of the blocks with the name of the step counts: the result is
    [0.0 + total_duration * (reps+1) + total_increment * ((reps² + reps)/2)]
    in floats, added from the left, when the two integers are within the
    double range; when [reps + 1] is beyond it the call raises
    [OverflowError]. *)
Theorem count_length_of_one_step (self : PredefinedGeneratorBase.t)
    (ensemble : PulseBlockEnsemble.t V) (before after : list (PulseBlock.t SF))
    (block : PulseBlock.t SF) st :
  PredefinedGeneratorBase.truth (PredefinedGeneratorBase.gate_channel self) = false ->
  PulseBlockEnsemble.block_list ensemble = [st] ->
  PulseBlock.name block = step_name st ->
  Forall (fun block' => PulseBlock.name block' ≠ step_name st) after ->
  (forall n h,
     float_of_int (step_param st + 1) = Ret n ->
     int_truediv_2 (step_param st * step_param st + step_param st) = Ret h ->
     PredefinedGeneratorBase._get_ensemble_count_length self ensemble
       (before ++ block :: after)
     = Ret (PredefinedGeneratorBase.PNum
              (0 + PulseBlock.init_length_s block * n
               + PulseBlock.increment_s block * h)%float))
  /\ (float_of_int (step_param st + 1) = Raise OverflowError ->
      PredefinedGeneratorBase._get_ensemble_count_length self ensemble
        (before ++ block :: after) = Raise OverflowError).
Proof.
  intros Hgate Hl Hname Hafter.
  assert (block_named (before ++ block :: after) (step_name st) = Some block) as Hb.
  { unfold block_named. rewrite filter_app, filter_cons.
    rewrite decide_True by done.
    assert (filter (fun block' => PulseBlock.name block' = step_name st) after = [])
      as ->; [|by rewrite last_snoc].
    induction Hafter as [|block' after Hne _ IH]; [done|].
    by rewrite filter_cons, decide_False. }
  unfold PredefinedGeneratorBase._get_ensemble_count_length. rewrite Hgate, Hl.
  cbv zeta. rewrite count_length_loop_eq. cbn [ensemble_playback_duration].
  rewrite Hb. unfold add_step_duration. split.
  - intros n h Hn Hh. by rewrite Hn, Hh.
  - intros Hn. by rewrite Hn.
Qed.
End PlaybackEdges.

(** ** The scan of the plugin locations *)

Section ScanFacts.
Context {M : Type}.
Implicit Types (paths : list (PulseObjectGenerator.location M))
  (class_list : list (PulseObjectGenerator.pyclass M)) (log : list string).

Lemma import_modules_all (modules : list (result (list (string * PulseObjectGenerator.pyobj M))))
    class_list :
  Forall (fun module => exists members, module = Ret members) modules ->
  for_each modules PulseObjectGenerator.import_module class_list
  = (Ret tt,
     class_list ++ (modules ≫=
       (fun module => match module with
                      | Ret members => PulseObjectGenerator.generator_classes_of members
                      | Raise _ => []
                      end))).
Proof.
  intros H. revert class_list.
  induction H as [|module modules [members ->] _ IH]; intros class_list.
  - simpl. by rewrite app_nil_r.
  - simpl. run. unfold PulseObjectGenerator.import_module at 1. run.
    rewrite IH. by rewrite <- app_assoc.
Qed.

Lemma missing_paths_cons (path : PulseObjectGenerator.location M) paths :
  Scan.missing_paths (path :: paths)
  = if PulseObjectGenerator.loc_exists path then Scan.missing_paths paths
    else PulseObjectGenerator.loc_path path :: Scan.missing_paths paths.
Proof.
  unfold Scan.missing_paths. rewrite filter_cons.
  destruct (PulseObjectGenerator.loc_exists path); by case_decide.
Qed.

Lemma discovered_classes_cons (path : PulseObjectGenerator.location M) paths :
  Scan.discovered_classes (path :: paths)
  = Scan.classes_of_location path ++ Scan.discovered_classes paths.
Proof. reflexivity. Qed.

Lemma import_external_generators_all paths class_list log :
  Scan.all_imports_succeed paths ->
  PulseObjectGenerator.import_external_generators paths class_list log
  = (Ret (class_list ++ Scan.discovered_classes paths), log ++ Scan.missing_paths paths).
Proof.
  intros H. revert class_list log.
  induction H as [|path paths Hpath _ IH]; intros class_list log.
  - simpl. by rewrite !app_nil_r.
  - rewrite missing_paths_cons, discovered_classes_cons.
    unfold Scan.classes_of_location.
    cbn [PulseObjectGenerator.import_external_generators].
    destruct (PulseObjectGenerator.loc_exists path) eqn:E; cbn [negb].
    + rewrite import_modules_all by (by apply Hpath).
      rewrite IH. by rewrite <- app_assoc.
    + rewrite IH. by rewrite <- app_assoc, app_nil_l.
Qed.

(** X15.  When every module of every existing location can be imported,
    the registry holds the methods harvested from the generator classes of
    those modules in the order of the scan, and the log names exactly the
    locations that do not exist, in that order.  When an import raises, the
    construction of the registry raises the same exception. *)
Theorem registry_scan paths :
  (Scan.all_imports_succeed paths ->
   PulseObjectGenerator.init paths
   = (Ret (PulseObjectGenerator.populate_method_dict
             (PulseObjectGenerator.cls_methods <$> Scan.discovered_classes paths)),
      Scan.missing_paths paths))
  /\ (forall before path after modules_before modules_after e,
        paths = before ++ path :: after ->
        Scan.all_imports_succeed before ->
        PulseObjectGenerator.loc_exists path = true ->
        PulseObjectGenerator.loc_modules path
        = modules_before ++ Raise e :: modules_after ->
        Forall (fun module => exists members, module = Ret members) modules_before ->
        PulseObjectGenerator.init paths = (Raise e, Scan.missing_paths before)).
Proof.
  split.
  - intros H. unfold PulseObjectGenerator.init.
    by rewrite import_external_generators_all.
  - intros before path after modules_before modules_after e -> Hbefore Hex Hmods Hok.
    unfold PulseObjectGenerator.init.
    assert (forall class_list log,
      PulseObjectGenerator.import_external_generators (before ++ path :: after)
        class_list log
      = (Raise e, log ++ Scan.missing_paths before)) as H; [|by rewrite H].
    induction Hbefore as [|path' before Hpath' _ IH]; intros class_list log.
    + cbn [app PulseObjectGenerator.import_external_generators].
      rewrite Hex, Hmods. cbn [negb]. rewrite for_each_app.
      rewrite import_modules_all by done. simpl. run.
      by rewrite app_nil_r.
    + rewrite missing_paths_cons. rewrite <- app_comm_cons.
      cbn [PulseObjectGenerator.import_external_generators].
      destruct (PulseObjectGenerator.loc_exists path') eqn:E; cbn [negb].
      * rewrite import_modules_all by (by apply Hpath').
        by rewrite IH.
      * rewrite IH. by rewrite <- app_assoc.
Qed.
End ScanFacts.

(** ** Dictionaries: keys and lookups *)

Section DictFacts.
Context {V : Type}.
Implicit Types (d : dict V) (k : string) (v : V).

Lemma elem_of_keys_dict_setitem k v d x :
  x ∈ (dict_setitem k v d).*1 <-> x = k \/ x ∈ d.*1.
Proof.
  induction d as [|[k' v'] d IH].
  - simpl. rewrite list_elem_of_singleton. split; [by left|].
    intros [->|H]; [done|by apply elem_of_nil in H].
  - cbn [dict_setitem]. destruct (String.eqb_spec k' k) as [->|Hne].
    + rewrite !fmap_cons. cbn [fst]. rewrite !elem_of_cons. tauto.
    + rewrite !fmap_cons. cbn [fst]. rewrite !elem_of_cons, IH. tauto.
Qed.

Lemma keys_dict_setitem k v d : keys (dict_setitem k v d) = {[k]} ∪ keys d.
Proof.
  unfold keys. apply set_eq. intros x.
  rewrite elem_of_union, elem_of_singleton, !elem_of_list_to_set.
  apply elem_of_keys_dict_setitem.
Qed.

Lemma keys_dict_from_set (X : gset string) v : keys (dict_from_set X v) = X.
Proof.
  unfold keys, dict_from_set. rewrite <- list_fmap_compose.
  rewrite (list_fmap_ext _ id (elements X)) by done.
  rewrite list_fmap_id. apply list_to_set_elements_L.
Qed.

Lemma dict_get_setitem_eq k v d : dict_get k (dict_setitem k v d) = Some v.
Proof.
  induction d as [|[k' v'] d IH]; simpl.
  - by rewrite String.eqb_refl.
  - destruct (String.eqb_spec k' k) as [->|Hne]; simpl.
    + by rewrite String.eqb_refl.
    + by rewrite (proj2 (String.eqb_neq k' k)).
Qed.

Lemma dict_get_setitem_ne k k' v d :
  k ≠ k' -> dict_get k' (dict_setitem k v d) = dict_get k' d.
Proof.
  intros Hne. induction d as [|[k1 v1] d IH]; simpl.
  - by rewrite (proj2 (String.eqb_neq k k')).
  - destruct (String.eqb_spec k1 k) as [->|Hne1]; simpl.
    + by rewrite !(proj2 (String.eqb_neq k k')).
    + by rewrite IH.
Qed.

Lemma dict_get_from_set (X : gset string) v k :
  k ∈ X -> dict_get k (dict_from_set X v) = Some v.
Proof.
  intros Hin. apply elem_of_elements in Hin. unfold dict_from_set.
  induction (elements X) as [|c l IH]; [by apply elem_of_nil in Hin|].
  simpl. destruct (String.eqb_spec c k) as [->|Hne]; [done|].
  apply IH. apply elem_of_cons in Hin as [->|Hin]; done.
Qed.
End DictFacts.

(** ** The element helpers *)

Section HelperFacts.
Context {SF A : Type}.
Variable sf_Idle : SF.
Variable sf_DC : option PredefinedGeneratorBase.pval -> SF.
Variable sf_Sin : A -> A -> A -> SF.
Variable sf_DoubleSin : A -> A -> A -> A -> A -> A -> SF.
Variable sf_TripleSin : A -> A -> A -> A -> A -> A -> A -> A -> A -> SF.
Implicit Types (self : GeneratorHelpers.t) (length increment : float)
  (channels : list string).

(** X16.  The idle element has the analog and the digital channels of the
    activation configuration, and only those: every analog channel idles,
    every digital channel is low; an active channel that starts with neither
    [a] nor [d] is not in the element. *)
Theorem idle_element_channels self length increment :
  let e := GeneratorHelpers._get_idle_element sf_Idle self length increment in
  PulseBlockElement.channel_set e
  = GeneratorHelpers.analog_channels self ∪ GeneratorHelpers.digital_channels self
  /\ PulseBlockElement.channel_set e ⊆ GeneratorHelpers.channel_set self
  /\ PulseBlockElement.init_length_s e = length
  /\ PulseBlockElement.increment_s e = increment
  /\ (forall chnl, chnl ∈ GeneratorHelpers.analog_channels self ->
        dict_get chnl (PulseBlockElement.pulse_function e) = Some sf_Idle)
  /\ (forall chnl, chnl ∈ GeneratorHelpers.digital_channels self ->
        dict_get chnl (PulseBlockElement.digital_high e) = Some false)
  /\ (forall chnl, chnl ∈ GeneratorHelpers.channel_set self ->
        String.prefix "a" chnl = false -> String.prefix "d" chnl = false ->
        chnl ∉ PulseBlockElement.channel_set e).
Proof.
  cbv zeta. unfold GeneratorHelpers._get_idle_element. simpl.
  rewrite !keys_dict_from_set.
  unfold GeneratorHelpers.analog_channels, GeneratorHelpers.digital_channels,
    channels_starting_with.
  split; [done|]. split; [set_solver|]. split; [done|]. split; [done|].
  split; [intros chnl Hin; by apply dict_get_from_set|].
  split; [intros chnl Hin; by apply dict_get_from_set|].
  intros chnl _ Ha Hd Hin.
  apply elem_of_union in Hin as [Hin|Hin]; apply elem_of_filter in Hin as [Hp _];
    congruence.
Qed.

(** The loop of [_get_trigger_element]. *)
Lemma trigger_loop self channels (pf : dict SF) (dh : dict bool) :
  exists pf' dh',
    for_each channels (GeneratorHelpers.trigger_step sf_DC self) (pf, dh)
    = (Ret tt, (pf', dh'))
    /\ keys pf' ∪ keys dh' = keys pf ∪ keys dh ∪ list_to_set channels
    /\ (forall chnl, chnl ∈ channels -> String.prefix "d" chnl = true ->
          dict_get chnl dh' = Some true)
    /\ (forall chnl, chnl ∈ channels -> String.prefix "d" chnl = false ->
          dict_get chnl pf'
          = Some (sf_DC (GeneratorHelpers.analog_trigger_voltage self)))
    /\ (forall chnl, chnl ∉ channels ->
          dict_get chnl dh' = dict_get chnl dh /\ dict_get chnl pf' = dict_get chnl pf).
Proof.
  revert pf dh. induction channels as [|c channels IH]; intros pf dh.
  - exists pf, dh. split; [done|]. split; [set_solver|].
    split; [intros ? Hin; by apply elem_of_nil in Hin|].
    split; [intros ? Hin; by apply elem_of_nil in Hin|]. done.
  - simpl. run. unfold GeneratorHelpers.trigger_step at 1.
    destruct (String.prefix "d" c) eqn:Hc; unfold assign; simpl.
    + destruct (IH pf (dict_setitem c true dh)) as (pf' & dh' & Hrun & Hkeys & Hd & Ha & Hno).
      exists pf', dh'. split; [done|].
      split; [rewrite Hkeys, keys_dict_setitem; set_solver|].
      split; [|split].
      * intros chnl Hin Hp. destruct (decide (chnl ∈ channels)) as [Hin'|Hout].
        { by apply Hd. }
        apply elem_of_cons in Hin as [->|Hin]; [|done].
        destruct (Hno c Hout) as [-> _]. apply dict_get_setitem_eq.
      * intros chnl Hin Hp. destruct (decide (chnl ∈ channels)) as [Hin'|Hout].
        { by apply Ha. }
        apply elem_of_cons in Hin as [->|Hin]; [congruence|done].
      * intros chnl Hout. apply not_elem_of_cons in Hout as [Hne Hout].
        destruct (Hno chnl Hout) as [-> ->]. split; [|done].
        by apply dict_get_setitem_ne.
    + destruct (IH (dict_setitem c (sf_DC (GeneratorHelpers.analog_trigger_voltage self)) pf) dh)
        as (pf' & dh' & Hrun & Hkeys & Hd & Ha & Hno).
      exists pf', dh'. split; [done|].
      split; [rewrite Hkeys, keys_dict_setitem; set_solver|].
      split; [|split].
      * intros chnl Hin Hp. destruct (decide (chnl ∈ channels)) as [Hin'|Hout].
        { by apply Hd. }
        apply elem_of_cons in Hin as [->|Hin]; [congruence|done].
      * intros chnl Hin Hp. destruct (decide (chnl ∈ channels)) as [Hin'|Hout].
        { by apply Ha. }
        apply elem_of_cons in Hin as [->|Hin]; [|done].
        destruct (Hno c Hout) as [_ ->]. apply dict_get_setitem_eq.
      * intros chnl Hout. apply not_elem_of_cons in Hout as [Hne Hout].
        destruct (Hno chnl Hout) as [-> ->]. split; [done|].
        by apply dict_get_setitem_ne.
Qed.

(** The trigger element for a list of channels. *)
Lemma trigger_element_of_list self length increment channels :
  exists e,
    GeneratorHelpers._get_trigger_element sf_Idle sf_DC self length increment
      (GeneratorHelpers.ChList channels) = Ret e
    /\ PulseBlockElement.channel_set e
       = keys (PulseBlockElement.pulse_function e) ∪ keys (PulseBlockElement.digital_high e)
    /\ PulseBlockElement.channel_set e
       = GeneratorHelpers.analog_channels self ∪ GeneratorHelpers.digital_channels self
         ∪ list_to_set channels
    /\ PulseBlockElement.init_length_s e = length
    /\ PulseBlockElement.increment_s e = increment
    /\ (forall chnl, chnl ∈ channels -> String.prefix "d" chnl = true ->
          dict_get chnl (PulseBlockElement.digital_high e) = Some true)
    /\ (forall chnl, chnl ∈ channels -> String.prefix "d" chnl = false ->
          dict_get chnl (PulseBlockElement.pulse_function e)
          = Some (sf_DC (GeneratorHelpers.analog_trigger_voltage self)))
    /\ (forall chnl, chnl ∉ channels ->
          dict_get chnl (PulseBlockElement.digital_high e)
          = dict_get chnl (PulseBlockElement.digital_high
                             (GeneratorHelpers._get_idle_element sf_Idle self length increment))
          /\ dict_get chnl (PulseBlockElement.pulse_function e)
             = dict_get chnl (PulseBlockElement.pulse_function
                                (GeneratorHelpers._get_idle_element sf_Idle self length increment))).
Proof.
  unfold GeneratorHelpers._get_trigger_element. cbv zeta.
  destruct (trigger_loop self channels
              (dict_from_set (GeneratorHelpers.analog_channels self) sf_Idle)
              (dict_from_set (GeneratorHelpers.digital_channels self) false))
    as (pf' & dh' & Hrun & Hkeys & Hd & Ha & Hno).
  rewrite Hrun. eexists. split; [done|]. simpl.
  rewrite !keys_dict_from_set in Hkeys.
  split; [done|]. split; [done|]. split; [done|]. split; [done|]. split; [done|].
  split; done.
Qed.

(** A string as [channels] is the list of that string. *)
Lemma trigger_element_of_str self length increment s :
  GeneratorHelpers._get_trigger_element sf_Idle sf_DC self length increment
    (GeneratorHelpers.ChStr s)
  = GeneratorHelpers._get_trigger_element sf_Idle sf_DC self length increment
      (GeneratorHelpers.ChList [s]).
Proof. reflexivity. Qed.

(** X17.  The trigger element for a list of channels has the channels of the
    idle element and the triggered channels: a triggered channel that starts
    with [d] is high, any other carries the constant trigger voltage, and a
    channel that is not triggered is as in the idle element.  The element has
    the channel set of the idle element exactly when every triggered channel
    is an active analog or digital channel.  Channels that cannot be iterated
    ([None]) give a [TypeError]. *)
Theorem trigger_element_channels self length increment channels :
  (exists e,
     GeneratorHelpers._get_trigger_element sf_Idle sf_DC self length increment
       (GeneratorHelpers.ChList channels) = Ret e
     /\ PulseBlockElement.channel_set e
        = GeneratorHelpers.analog_channels self ∪ GeneratorHelpers.digital_channels self
          ∪ list_to_set channels
     /\ PulseBlockElement.init_length_s e = length
     /\ PulseBlockElement.increment_s e = increment
     /\ (forall chnl, chnl ∈ channels -> String.prefix "d" chnl = true ->
           dict_get chnl (PulseBlockElement.digital_high e) = Some true)
     /\ (forall chnl, chnl ∈ channels -> String.prefix "d" chnl = false ->
           dict_get chnl (PulseBlockElement.pulse_function e)
           = Some (sf_DC (GeneratorHelpers.analog_trigger_voltage self)))
     /\ (forall chnl, chnl ∉ channels ->
           dict_get chnl (PulseBlockElement.digital_high e)
           = dict_get chnl (PulseBlockElement.digital_high
                              (GeneratorHelpers._get_idle_element sf_Idle self length increment))
           /\ dict_get chnl (PulseBlockElement.pulse_function e)
              = dict_get chnl (PulseBlockElement.pulse_function
                                 (GeneratorHelpers._get_idle_element sf_Idle self length increment)))
     /\ (PulseBlockElement.channel_set e
         = PulseBlockElement.channel_set
             (GeneratorHelpers._get_idle_element sf_Idle self length increment)
         <-> forall chnl, chnl ∈ channels ->
               chnl ∈ GeneratorHelpers.analog_channels self
                      ∪ GeneratorHelpers.digital_channels self))
  /\ (forall s,
        GeneratorHelpers._get_trigger_element sf_Idle sf_DC self length increment
          (GeneratorHelpers.ChStr s)
        = GeneratorHelpers._get_trigger_element sf_Idle sf_DC self length increment
            (GeneratorHelpers.ChList [s]))
  /\ GeneratorHelpers._get_trigger_element sf_Idle sf_DC self length increment
       GeneratorHelpers.ChOther = Raise TypeError.
Proof.
  split; [|done].
  destruct (trigger_element_of_list self length increment channels)
    as (e & He & _ & Hcs & Hlen & Hinc & Hd & Ha & Hno).
  exists e. split; [done|]. split; [done|]. split; [done|]. split; [done|].
  split; [done|]. split; [done|]. split; [done|].
  rewrite Hcs. simpl. rewrite !keys_dict_from_set. split.
  - intros Heq chnl Hin. rewrite <- Heq. apply elem_of_union_r.
    by apply elem_of_list_to_set.
  - intros Hall. apply set_eq. intros chnl. split; [|set_solver].
    intros Hin. apply elem_of_union in Hin as [Hin|Hin]; [done|].
    apply Hall. by apply elem_of_list_to_set in Hin.
Qed.

(** A setting that is kept by [None if channel == '' else channel] is a
    string with at least one character, or a number. *)
Lemma none_if_empty_str (v : option PredefinedGeneratorBase.pval) (s : string) :
  GeneratorHelpers.none_if_empty v = Some (PredefinedGeneratorBase.PStr s) ->
  v = Some (PredefinedGeneratorBase.PStr s)
  /\ PredefinedGeneratorBase.truth (Some (PredefinedGeneratorBase.PStr s)) = true.
Proof.
  unfold GeneratorHelpers.none_if_empty.
  destruct (PredefinedGeneratorBase.is_empty_str v) eqn:E; [done|].
  intros ->. split; [done|]. simpl in *. by rewrite E.
Qed.

Lemma not_digital_not_in_digital_channels self chnl :
  String.prefix "d" chnl = false -> chnl ∉ GeneratorHelpers.digital_channels self.
Proof.
  intros Hp Hin. unfold GeneratorHelpers.digital_channels, channels_starting_with in Hin.
  apply elem_of_filter in Hin as [Hd _]. congruence.
Qed.

(** X18.  With a microwave channel that starts with [d] the microwave
    element is the trigger element of that channel.  With any other
    microwave channel it is the idle element with the sine on that channel:
    the other channels idle, the digital channels are low; the channel set is
    the one computed for the idle element, so a microwave channel that is
    not an active analog channel carries the sine without being in the
    channel set of the element. *)
Theorem mw_element_channels self length increment (amp freq phase : A) mw :
  GeneratorHelpers.microwave_channel self = Some (PredefinedGeneratorBase.PStr mw) ->
  (String.prefix "d" mw = true ->
   GeneratorHelpers._get_mw_element sf_Idle sf_DC sf_Sin self length increment amp freq phase
   = GeneratorHelpers._get_trigger_element sf_Idle sf_DC self length increment
       (GeneratorHelpers.ChList [mw]))
  /\ (String.prefix "d" mw = false ->
      exists e,
        GeneratorHelpers._get_mw_element sf_Idle sf_DC sf_Sin self length increment
          amp freq phase = Ret e
        /\ dict_get mw (PulseBlockElement.pulse_function e) = Some (sf_Sin amp freq phase)
        /\ (forall chnl, chnl ≠ mw ->
              dict_get chnl (PulseBlockElement.pulse_function e)
              = dict_get chnl (PulseBlockElement.pulse_function
                                 (GeneratorHelpers._get_idle_element sf_Idle self length increment)))
        /\ PulseBlockElement.digital_high e
           = dict_from_set (GeneratorHelpers.digital_channels self) false
        /\ PulseBlockElement.init_length_s e = length
        /\ PulseBlockElement.increment_s e = increment
        /\ PulseBlockElement.channel_set e
           = GeneratorHelpers.analog_channels self ∪ GeneratorHelpers.digital_channels self
        /\ keys (PulseBlockElement.pulse_function e)
           = {[mw]} ∪ GeneratorHelpers.analog_channels self
        /\ (mw ∉ GeneratorHelpers.analog_channels self ->
            mw ∉ PulseBlockElement.channel_set e)).
Proof.
  intros Hmw. unfold GeneratorHelpers._get_mw_element. rewrite Hmw. simpl.
  split; intros Hp; rewrite Hp; [done|].
  eexists. split; [done|]. simpl.
  split; [apply dict_get_setitem_eq|].
  split; [intros chnl Hne; by apply dict_get_setitem_ne|].
  split; [done|]. split; [done|]. split; [done|].
  rewrite keys_dict_setitem, !keys_dict_from_set.
  split; [done|]. split; [done|].
  intros Hout Hin. apply elem_of_union in Hin as [Hin|Hin]; [done|].
  by apply (not_digital_not_in_digital_channels self mw).
Qed.

(** X19.  Without a gate channel the laser-gate element is the laser
    element.  With a gate channel it is the laser element with the gate
    channel high (a channel that starts with [d]) or at the constant trigger
    voltage (any other); the channel set stays the one computed for the laser
    element, so a gate channel that is not among the channels of the laser
    element is in a dictionary of the element and not in its channel set. *)
Theorem laser_gate_element_channels self length increment :
  (PredefinedGeneratorBase.truth (GeneratorHelpers.gate_channel self) = false ->
   GeneratorHelpers._get_laser_gate_element sf_Idle sf_DC self length increment
   = GeneratorHelpers._get_laser_element sf_Idle sf_DC self length increment)
  /\ (forall laser gate,
        GeneratorHelpers.laser_channel self = Some (PredefinedGeneratorBase.PStr laser) ->
        GeneratorHelpers.gate_channel self = Some (PredefinedGeneratorBase.PStr gate) ->
        exists e0 e,
          GeneratorHelpers._get_laser_element sf_Idle sf_DC self length increment = Ret e0
          /\ GeneratorHelpers._get_laser_gate_element sf_Idle sf_DC self length increment
             = Ret e
          /\ PulseBlockElement.channel_set e = PulseBlockElement.channel_set e0
          /\ PulseBlockElement.channel_set e0
             = GeneratorHelpers.analog_channels self ∪ GeneratorHelpers.digital_channels self
               ∪ {[laser]}
          /\ (String.prefix "d" gate = true ->
              dict_get gate (PulseBlockElement.digital_high e) = Some true
              /\ PulseBlockElement.pulse_function e = PulseBlockElement.pulse_function e0)
          /\ (String.prefix "d" gate = false ->
              dict_get gate (PulseBlockElement.pulse_function e)
              = Some (sf_DC (GeneratorHelpers.analog_trigger_voltage self))
              /\ PulseBlockElement.digital_high e = PulseBlockElement.digital_high e0)
          /\ keys (PulseBlockElement.pulse_function e) ∪ keys (PulseBlockElement.digital_high e)
             = {[gate]} ∪ PulseBlockElement.channel_set e0
          /\ (gate ∉ PulseBlockElement.channel_set e0 ->
              gate ∉ PulseBlockElement.channel_set e)).
Proof.
  split.
  - intros Hgate. unfold GeneratorHelpers._get_laser_gate_element. rewrite Hgate.
    by destruct (GeneratorHelpers._get_laser_element _ _ _ _ _).
  - intros laser gate Hlaser Hgate.
    destruct (none_if_empty_str _ _ Hgate) as [_ Htruth].
    destruct (trigger_element_of_list self length increment [laser])
      as (e0 & He0 & Hkeys & Hcs & _).
    unfold GeneratorHelpers._get_laser_gate_element, GeneratorHelpers._get_laser_element.
    rewrite Hlaser. cbn [GeneratorHelpers.channels_of].
    rewrite trigger_element_of_str, He0, Hgate, Htruth.
    cbn [GeneratorHelpers.starts_with_d].
    exists e0. destruct (String.prefix "d" gate) eqn:Hp.
    + eexists. split; [done|]. split; [done|]. simpl.
      split; [done|]. split; [rewrite Hcs; set_solver|].
      split; [intros _; split; [apply dict_get_setitem_eq|done]|].
      split; [done|]. rewrite keys_dict_setitem, Hkeys.
      split; [set_solver|done].
    + eexists. split; [done|]. split; [done|]. simpl.
      split; [done|]. split; [rewrite Hcs; set_solver|].
      split; [done|].
      split; [intros _; split; [apply dict_get_setitem_eq|done]|].
      rewrite keys_dict_setitem, Hkeys.
      split; [set_solver|done].
Qed.

(** [l[i]] for an index from 0 that is in the list. *)
Lemma py_getitem_lookup {B} (l : list B) (i : Z) (x : B) :
  0 <= i -> l !! Z.to_nat i = Some x -> py_getitem l i = Ret x.
Proof.
  intros Hi Hl. pose proof (lookup_lt_Some _ _ _ Hl) as Hlt.
  unfold py_getitem. rewrite py_index_nonneg by (unfold len; lia). by rewrite Hl.
Qed.

(** X20.  [_get_multiple_mw_element] on an analog microwave channel: the
    number of tones is the length of the shortest of the three lists.  One
    tone gives the element of [_get_mw_element], two a double sine, three or
    more a triple sine of the first three tones; an empty list raises
    [IndexError], [None] for a list raises [TypeError]; a number counts as a
    list of one.  On a microwave channel that starts with [d] the lists are
    not looked at. *)
Theorem multiple_mw_element_tones self length increment mw :
  GeneratorHelpers.microwave_channel self = Some (PredefinedGeneratorBase.PStr mw) ->
  let multiple := GeneratorHelpers._get_multiple_mw_element sf_Idle sf_DC sf_Sin
                    sf_DoubleSin sf_TripleSin self length increment in
  let single := GeneratorHelpers._get_mw_element sf_Idle sf_DC sf_Sin self length increment in
  let idle := GeneratorHelpers._get_idle_element sf_Idle self length increment in
  (String.prefix "d" mw = true ->
   forall amps freqs phases,
     multiple amps freqs phases
     = GeneratorHelpers._get_trigger_element sf_Idle sf_DC self length increment
         (GeneratorHelpers.ChList [mw]))
  /\ (String.prefix "d" mw = false ->
      (forall amps freqs phases,
         amps = [] \/ freqs = [] \/ phases = [] ->
         multiple (GeneratorHelpers.Values amps) (GeneratorHelpers.Values freqs)
           (GeneratorHelpers.Values phases) = Raise IndexError)
      /\ (forall a f p amps freqs phases,
            amps = [] \/ freqs = [] \/ phases = [] ->
            multiple (GeneratorHelpers.Values (a :: amps)) (GeneratorHelpers.Values (f :: freqs))
              (GeneratorHelpers.Values (p :: phases)) = single a f p)
      /\ (forall a1 a2 f1 f2 p1 p2 amps freqs phases,
            amps = [] \/ freqs = [] \/ phases = [] ->
            multiple (GeneratorHelpers.Values (a1 :: a2 :: amps))
              (GeneratorHelpers.Values (f1 :: f2 :: freqs))
              (GeneratorHelpers.Values (p1 :: p2 :: phases))
            = Ret (GeneratorHelpers.set_pulse_function mw
                     (sf_DoubleSin a1 a2 f1 f2 p1 p2) idle))
      /\ (forall a1 a2 a3 f1 f2 f3 p1 p2 p3 amps freqs phases,
            multiple (GeneratorHelpers.Values (a1 :: a2 :: a3 :: amps))
              (GeneratorHelpers.Values (f1 :: f2 :: f3 :: freqs))
              (GeneratorHelpers.Values (p1 :: p2 :: p3 :: phases))
            = Ret (GeneratorHelpers.set_pulse_function mw
                     (sf_TripleSin a1 a2 a3 f1 f2 f3 p1 p2 p3) idle))
      /\ (forall a f p,
            multiple (GeneratorHelpers.Scalar a) (GeneratorHelpers.Scalar f)
              (GeneratorHelpers.Scalar p) = single a f p)
      /\ (forall amps freqs phases,
            amps = GeneratorHelpers.NoValues \/ freqs = GeneratorHelpers.NoValues
            \/ phases = GeneratorHelpers.NoValues ->
            multiple amps freqs phases = Raise TypeError)).
Proof.
  intros Hmw. cbv zeta.
  unfold GeneratorHelpers._get_multiple_mw_element, GeneratorHelpers._get_mw_element.
  rewrite Hmw. cbn [GeneratorHelpers.starts_with_d GeneratorHelpers.channels_of].
  split; intros Hp; rewrite Hp; [done|].
  unfold GeneratorHelpers.multiple_sine. cbn [GeneratorHelpers.as_list].
  split; [|split; [|split; [|split; [|split]]]].
  - intros amps freqs phases H.
    assert ((Z.min (Z.min (len amps) (len freqs)) (len phases) <? 2) = true) as ->.
    { apply Z.ltb_lt. unfold len. destruct H as [->|[->| ->]]; simpl; lia. }
    destruct amps as [|a amps]; [done|].
    rewrite (py_getitem_lookup (a :: amps) 0 a) by done.
    destruct freqs as [|f freqs]; [done|].
    rewrite (py_getitem_lookup (f :: freqs) 0 f) by done.
    destruct phases as [|p phases]; [done|]. by destruct H as [?|[?|?]].
  - intros a f p amps freqs phases H.
    assert ((Z.min (Z.min (len (a :: amps)) (len (f :: freqs))) (len (p :: phases)) <? 2)
            = true) as ->.
    { apply Z.ltb_lt. unfold len. destruct H as [->|[->| ->]]; cbn [Datatypes.length]; lia. }
    by rewrite !(py_getitem_lookup (_ :: _) 0 _) by done.
  - intros a1 a2 f1 f2 p1 p2 amps freqs phases H.
    assert (Z.min (Z.min (len (a1 :: a2 :: amps)) (len (f1 :: f2 :: freqs)))
              (len (p1 :: p2 :: phases)) = 2) as ->.
    { unfold len. destruct H as [->|[->| ->]]; cbn [Datatypes.length]; lia. }
    cbn [Z.ltb Z.eqb Z.compare Pos.compare Pos.compare_cont Pos.eqb].
    rewrite !(py_getitem_lookup (_ :: _) 0 _) by done.
    by rewrite !(py_getitem_lookup (_ :: _ :: _) 1 _) by done.
  - intros a1 a2 a3 f1 f2 f3 p1 p2 p3 amps freqs phases.
    assert (3 <= Z.min (Z.min (len (a1 :: a2 :: a3 :: amps)) (len (f1 :: f2 :: f3 :: freqs)))
                   (len (p1 :: p2 :: p3 :: phases))) as Hn.
    { unfold len. cbn [Datatypes.length]. lia. }
    rewrite (proj2 (Z.ltb_ge _ 2)) by lia.
    rewrite (proj2 (Z.eqb_neq _ 2)) by lia.
    rewrite !(py_getitem_lookup (_ :: _) 0 _) by done.
    rewrite !(py_getitem_lookup (_ :: _ :: _) 1 _) by done.
    by rewrite !(py_getitem_lookup (_ :: _ :: _ :: _) 2 _) by done.
  - done.
  - intros amps freqs phases H.
    destruct amps, freqs, phases; try done; by destruct H as [?|[?|?]].
Qed.

(** X21.  A helper whose channel is not set raises: without a laser channel
    [_get_laser_element] and [_get_laser_gate_element] raise [TypeError];
    without a sync channel, or with the empty string as sync channel,
    [_get_sync_element] raises [TypeError]; without a microwave channel, or
    with the empty string, the microwave helpers raise [AttributeError].  The
    empty string as laser channel is not refused: the laser element then has
    a channel with the empty name. *)
Theorem helpers_without_channel self length increment (amp freq phase : A)
    (amps freqs phases : GeneratorHelpers.values_arg A) :
  (GeneratorHelpers.parameter self "laser_channel" = None ->
   GeneratorHelpers._get_laser_element sf_Idle sf_DC self length increment = Raise TypeError
   /\ GeneratorHelpers._get_laser_gate_element sf_Idle sf_DC self length increment
      = Raise TypeError)
  /\ (GeneratorHelpers.parameter self "sync_channel" = None
      \/ GeneratorHelpers.parameter self "sync_channel"
          = Some (PredefinedGeneratorBase.PStr "") ->
      GeneratorHelpers._get_sync_element sf_Idle sf_DC self = Raise TypeError)
  /\ (GeneratorHelpers.parameter self "microwave_channel" = None
      \/ GeneratorHelpers.parameter self "microwave_channel"
          = Some (PredefinedGeneratorBase.PStr "") ->
      GeneratorHelpers._get_mw_element sf_Idle sf_DC sf_Sin self length increment
        amp freq phase = Raise AttributeError
      /\ GeneratorHelpers._get_mw_laser_element sf_Idle sf_DC sf_Sin self length increment
           amp freq phase = Raise AttributeError
      /\ GeneratorHelpers._get_multiple_mw_element sf_Idle sf_DC sf_Sin sf_DoubleSin
           sf_TripleSin self length increment amps freqs phases = Raise AttributeError)
  /\ (GeneratorHelpers.parameter self "laser_channel"
      = Some (PredefinedGeneratorBase.PStr "") ->
      exists e,
        GeneratorHelpers._get_laser_element sf_Idle sf_DC self length increment = Ret e
        /\ dict_get "" (PulseBlockElement.pulse_function e)
           = Some (sf_DC (GeneratorHelpers.analog_trigger_voltage self))
        /\ ""%string ∈ PulseBlockElement.channel_set e).
Proof.
  split; [|split; [|split]].
  - intros H.
    unfold GeneratorHelpers._get_laser_gate_element, GeneratorHelpers._get_laser_element,
      GeneratorHelpers.laser_channel.
    by rewrite H.
  - intros H. unfold GeneratorHelpers._get_sync_element, GeneratorHelpers.sync_channel.
    by destruct H as [H|H]; rewrite H.
  - intros H.
    unfold GeneratorHelpers._get_mw_laser_element, GeneratorHelpers._get_multiple_mw_element,
      GeneratorHelpers._get_mw_element, GeneratorHelpers.microwave_channel.
    by destruct H as [H|H]; rewrite H.
  - intros H.
    destruct (trigger_element_of_list self length increment [""%string])
      as (e & He & _ & Hcs & _ & _ & _ & Ha & _).
    unfold GeneratorHelpers._get_laser_element, GeneratorHelpers.laser_channel.
    rewrite H. cbn [GeneratorHelpers.channels_of]. rewrite trigger_element_of_str, He.
    exists e. split; [done|]. split.
    + apply Ha; [apply list_elem_of_singleton; done|done].
    + rewrite Hcs. set_solver.
Qed.

(** X22.  With an active digital laser channel and an active analog
    microwave channel the microwave-laser element is the idle element with
    the sine on the microwave channel and the laser channel high: its
    dictionaries have the active analog and digital channels as keys, which
    is the channel set of the element. *)
Theorem mw_laser_element_channels self length increment (amp freq phase : A) mw laser :
  GeneratorHelpers.microwave_channel self = Some (PredefinedGeneratorBase.PStr mw) ->
  GeneratorHelpers.laser_channel self = Some (PredefinedGeneratorBase.PStr laser) ->
  mw ∈ GeneratorHelpers.analog_channels self ->
  laser ∈ GeneratorHelpers.digital_channels self ->
  String.prefix "d" mw = false ->
  exists e,
    GeneratorHelpers._get_mw_laser_element sf_Idle sf_DC sf_Sin self length increment
      amp freq phase = Ret e
    /\ dict_get mw (PulseBlockElement.pulse_function e) = Some (sf_Sin amp freq phase)
    /\ dict_get laser (PulseBlockElement.digital_high e) = Some true
    /\ (forall chnl, chnl ∈ GeneratorHelpers.analog_channels self -> chnl ≠ mw ->
          dict_get chnl (PulseBlockElement.pulse_function e) = Some sf_Idle)
    /\ (forall chnl, chnl ∈ GeneratorHelpers.digital_channels self -> chnl ≠ laser ->
          dict_get chnl (PulseBlockElement.digital_high e) = Some false)
    /\ keys (PulseBlockElement.pulse_function e) = GeneratorHelpers.analog_channels self
    /\ keys (PulseBlockElement.digital_high e) = GeneratorHelpers.digital_channels self
    /\ PulseBlockElement.channel_set e
       = GeneratorHelpers.analog_channels self ∪ GeneratorHelpers.digital_channels self.
Proof.
  clear sf_DoubleSin sf_TripleSin. intros Hmw Hlaser Hmw_in Hlaser_in Hp.
  assert (String.prefix "d" laser = true) as Hd.
  { unfold GeneratorHelpers.digital_channels, channels_starting_with in Hlaser_in.
    by apply elem_of_filter in Hlaser_in as [Hd _]. }
  unfold GeneratorHelpers._get_mw_laser_element, GeneratorHelpers._get_mw_element.
  rewrite Hmw, Hlaser. cbn [GeneratorHelpers.starts_with_d]. rewrite Hp, Hd.
  eexists. split; [done|]. simpl.
  split; [apply dict_get_setitem_eq|].
  split; [apply dict_get_setitem_eq|].
  split.
  { intros chnl Hin Hne. rewrite dict_get_setitem_ne by done.
    by apply dict_get_from_set. }
  split.
  { intros chnl Hin Hne. rewrite dict_get_setitem_ne by done.
    by apply dict_get_from_set. }
  rewrite !keys_dict_setitem, !keys_dict_from_set.
  split; [set_solver|]. split; [set_solver|done].
Qed.
End HelperFacts.

(** ** The parameters of the generate methods *)

Section ParameterFacts.
Context {M D : Type}.
Variable py_None : D.
Variable signature : M -> list (string * option D).
Implicit Types (generate_methods : gmap string M) (method : M).

Lemma dict_setitem_new {V} (k : string) (v : V) (d : dict V) :
  k ∉ d.*1 -> dict_setitem k v d = d ++ [(k, v)].
Proof.
  induction d as [|[k' v'] d IH]; [done|].
  rewrite fmap_cons, not_elem_of_cons. cbn [fst dict_setitem]. intros [Hne Hout].
  rewrite (proj2 (String.eqb_neq k' k)) by done. by rewrite IH.
Qed.

Lemma param_loop_distinct (params : list (string * option D)) (acc : dict D) :
  NoDup (acc.*1 ++ params.*1) ->
  fold_left (fun param_dict param =>
               dict_setitem param.1 (MethodParameters.recorded_default py_None param.2)
                 param_dict) params acc
  = acc ++ ((fun param => (param.1, MethodParameters.recorded_default py_None param.2))
              <$> params).
Proof.
  revert acc. induction params as [|param params IH]; intros acc Hnd.
  - simpl. by rewrite app_nil_r.
  - rewrite fmap_cons in Hnd. cbn [fold_left]. rewrite fmap_cons.
    apply NoDup_app in Hnd as (Hacc & Hdisj & Hparams).
    apply NoDup_cons in Hparams as [Hhead Hparams].
    rewrite dict_setitem_new by (intros Hin; apply (Hdisj _ Hin); by left).
    rewrite IH.
    + by rewrite <- app_assoc.
    + rewrite fmap_app. cbn [fmap list_fmap fst]. rewrite <- app_assoc.
      apply NoDup_app. split; [done|]. split.
      * intros x Hin Hx. apply (Hdisj x Hin). done.
      * by apply NoDup_cons.
Qed.

(** X23.  [__populate_parameter_dict] gives every registered method, and
    nothing else, its parameter dictionary; the dictionary of a method has
    the parameters of the signature in their order, a parameter without
    default recorded as [None], like a parameter whose default is [None]. *)
Theorem parameter_dict_of_the_registry generate_methods :
  (forall method_name,
     MethodParameters.populate_parameter_dict py_None signature generate_methods
       !! method_name
     = MethodParameters.param_dict py_None signature <$> generate_methods !! method_name)
  /\ (forall method,
        NoDup (signature method).*1 ->
        MethodParameters.param_dict py_None signature method
        = (fun param => (param.1, default py_None param.2)) <$> signature method).
Proof.
  split.
  - assert (MethodParameters.populate_parameter_dict py_None signature generate_methods
            = MethodParameters.param_dict py_None signature <$> generate_methods) as ->;
      [|intros; apply lookup_fmap].
    unfold MethodParameters.populate_parameter_dict.
    apply (map_fold_weak_ind
             (fun r (m : gmap string M) =>
                r = MethodParameters.param_dict py_None signature <$> m)).
    + by rewrite fmap_empty.
    + intros method_name method m r _ ->. by rewrite fmap_insert.
  - intros method Hnd. unfold MethodParameters.param_dict.
    rewrite param_loop_distinct by done. simpl.
    apply list_fmap_ext. intros _ [name [d|]] _; done.
Qed.
End ParameterFacts.

(** * Concrete runs of the further properties *)

Lemma insert_element_witness :
  exists b',
    PulseBlock.insert_element 1 (Inst Examples.e_5ns) Examples.block_one = (Ret 0, b')
    /\ PulseBlock.element_list b' !! 1%nat = Some Examples.e_5ns
    /\ PulseBlock.element_list b' !! 0%nat = Some Examples.e_10ns.
Proof.
  destruct (insert_element_places_the_element Examples.block_one Examples.e_5ns 1)
    as (b' & H1 & H2 & H3 & _); [len_lia|right; by vm_compute|].
  exists b'. split; [exact H1|]. split; [exact H2|].
  rewrite (H3 0%nat); [reflexivity|simpl; lia].
Defined.

Lemma block_negative_positions_witness :
  PulseBlock.delete_element (-1) Examples.block_one
  = PulseBlock.delete_element (len (PulseBlock.element_list Examples.block_one) + -1)
      Examples.block_one
  /\ PulseBlock.delete_element (-2) Examples.block_one
     = (Raise IndexError, Examples.block_one).
Proof.
  split.
  - apply (proj1 (block_negative_positions Examples.block_one (-1))). len_lia.
  - apply (proj2 (block_negative_positions Examples.block_one (-2))). len_lia.
Defined.

Lemma block_failed_call_witness :
  (BlockScript.run_call (BlockScript.replace_element 5 (Inst Examples.e_5ns))
     Examples.block_one).2 = Examples.block_one.
Proof.
  apply block_failed_call_changes_nothing. by vm_compute.
Defined.

Lemma emptied_block_witness :
  exists b',
    PulseBlock.delete_element 0 Examples.block_one = (Ret 0, b')
    /\ PulseBlock.element_list b' = []
    /\ PulseBlock.insert_element 0 (Inst Examples.e_other) b' = (Raise ValueError, b').
Proof.
  destruct (emptied_block_keeps_channel_set Examples.block_one Examples.e_10ns
              Examples.e_other) as (b' & H1 & H2 & _ & _ & H5);
    [reflexivity|by vm_compute|by vm_compute|].
  exists b'. split; [exact H1|]. split; [exact H2|exact H5].
Defined.

Lemma ensemble_repetitions_witness :
  Forall (fun st => 0 <= step_param st)
    (PulseBlockEnsemble.block_list
       (EnsembleScript.run
          [EnsembleScript.replace_block 0 (Inst "B"%string) (Some (-3));
           EnsembleScript.insert_block 0 (Inst "C"%string) 0]
          (PulseBlockEnsemble.init (V := Z) "ens" (Inst [mk_step tuple "A"%string 2])
             true))).
Proof.
  apply ensemble_repetitions_are_not_negative.
  constructor; [simpl; lia|constructor].
Defined.

Lemma ensemble_failed_call_witness :
  (EnsembleScript.run_call (EnsembleScript.delete_block 3) Examples.ensemble_one).2
  = Examples.ensemble_one
  /\ PulseBlockEnsemble.insert_block 0 (Inst "B"%string) (-1) Examples.ensemble_one
     = (Ret (-1), Examples.ensemble_one).
Proof.
  destruct (ensemble_failed_call_changes_nothing (EnsembleScript.delete_block 3)
              Examples.ensemble_one) as [H1 H2].
  split; [apply H1; by vm_compute|].
  apply (proj1 (H2 0 (Inst "B"%string) (-1) ltac:(lia))).
Defined.

Lemma delete_block_undoes_insert_block_witness :
  exists e',
    PulseBlockEnsemble.insert_block 1 (Inst "B"%string) 4 Examples.ensemble_one
    = (Ret 0, e')
    /\ PulseBlockEnsemble.delete_block 1 e' = (Ret 0, Examples.ensemble_one).
Proof.
  destruct (delete_block_undoes_insert_block 1 "B"%string 4 Examples.ensemble_one)
    as (e' & H1 & _ & _ & H4); [len_lia|lia|].
  exists e'. split; [exact H1|exact H4].
Defined.

Lemma missing_repetitions_witness :
  PulseSequence.insert_ensemble 0 (Inst "E2"%string) MoreExamples.no_repetitions
    Examples.sequence_one
  = (Raise KeyError,
     PulseSequence.set_ensemble_list
       (py_insert (PulseSequence.ensemble_list Examples.sequence_one) 0
          (mk_step tuple "E2"%string MoreExamples.no_repetitions))
       Examples.sequence_one).
Proof.
  apply (proj1 (missing_repetitions_raise_after_the_edit 0 "E2"%string
                  MoreExamples.no_repetitions Examples.sequence_one ltac:(reflexivity))).
  len_lia.
Defined.

Lemma delete_ensemble_undoes_insert_ensemble_witness :
  exists s',
    PulseSequence.insert_ensemble 0 (Inst "E2"%string) (Examples.reps (-1))
      Examples.sequence_empty = (Ret 0, s')
    /\ PulseSequence.delete_ensemble 0 s' = (Ret 0, Examples.sequence_empty).
Proof.
  destruct (delete_ensemble_undoes_insert_ensemble 0 "E2"%string (Examples.reps (-1))
              Examples.sequence_empty) as (s' & H1 & _ & H3).
  - split; [constructor|reflexivity].
  - by eexists.
  - len_lia.
  - exists s'. split; [exact H1|exact H3].
Defined.

Lemma constructor_stops_witness :
  PulseSequence.init (V := Z) "seq"
    (Some ([mk_step tuple "E1"%string (Examples.reps 3)]
           ++ mk_step tuple "E2"%string (Examples.reps (-1))
              :: [mk_step tuple "E3"%string MoreExamples.no_repetitions])) true
  = Ret (PulseSequence.mk "seq" true
           ([mk_step tuple "E1"%string (Examples.reps 3)]
            ++ mk_step tuple "E2"%string (Examples.reps (-1))
               :: [mk_step tuple "E3"%string MoreExamples.no_repetitions])
           false ∅ ∅).
Proof.
  apply (proj1 (constructor_stops_at_first_negative_step "seq" true
                  [mk_step tuple "E1"%string (Examples.reps 3)]
                  [mk_step tuple "E3"%string MoreExamples.no_repetitions]
                  (mk_step tuple "E2"%string (Examples.reps (-1)))
                  ltac:(constructor; [exists 3; split; [reflexivity|lia]|constructor]))).
  exists (-1). split; [reflexivity|lia].
Defined.

Lemma block_constructor_witness :
  PulseBlock.init "B" (Some [Examples.e_10ns; Examples.e_5ns])
  = Ret (PulseBlock.mk "B" [Examples.e_10ns; Examples.e_5ns]
           (total_duration [Examples.e_10ns; Examples.e_5ns])
           (total_increment [Examples.e_10ns; Examples.e_5ns])
           (channels_starting_with "a" {["d_ch1"%string]})
           (channels_starting_with "d" {["d_ch1"%string]}) {["d_ch1"%string]})
  /\ total_duration [Examples.e_10ns; Examples.e_5ns] = 0x1.01b2b29a4692cp-26%float
  /\ PulseBlock.init "B" (Some ([Examples.e_10ns] ++ Examples.e_other :: []))
     = Raise ValueError.
Proof.
  split; [|split; [reflexivity|]].
  - apply (proj1 (block_constructor_checks_channel_sets "B" {["d_ch1"%string]})).
    + repeat constructor; by vm_compute.
    + done.
  - apply (proj2 (block_constructor_checks_channel_sets "B" {["d_ch1"%string]})).
    + constructor; [by vm_compute|constructor].
    + done.
    + by vm_compute.
    + by vm_compute.
Defined.

Lemma count_length_of_unknown_block_witness :
  PredefinedGeneratorBase._get_ensemble_count_length Examples.no_gate
    Examples.ensemble_one [Examples.block_B] = Raise KeyError.
Proof.
  apply (count_length_of_unknown_block Examples.no_gate Examples.ensemble_one
           [Examples.block_B] [] (mk_step tuple "A"%string 2) []).
  - reflexivity.
  - reflexivity.
  - constructor.
  - reflexivity.
Defined.

Lemma count_length_of_one_step_witness :
  PredefinedGeneratorBase._get_ensemble_count_length Examples.no_gate Examples.ensemble_B
    ([Examples.block_one] ++ Examples.block_B :: [])
  = Ret (PredefinedGeneratorBase.PNum
           (0 + PulseBlock.init_length_s Examples.block_B * 3
            + PulseBlock.increment_s Examples.block_B * 3)%float)
  /\ (0 + PulseBlock.init_length_s Examples.block_B * 3
      + PulseBlock.increment_s Examples.block_B * 3)%float
     = 0x1.353cd652bb168p-25%float
  /\ PredefinedGeneratorBase._get_ensemble_count_length Examples.no_gate
       Examples.ensemble_huge ([Examples.block_one] ++ Examples.block_B :: [])
     = Raise OverflowError.
Proof.
  split; [|split; [reflexivity|]].
  - apply (proj1 (count_length_of_one_step Examples.no_gate Examples.ensemble_B
                    [Examples.block_one] [] Examples.block_B (mk_step tuple "B"%string 2)
                    ltac:(reflexivity) ltac:(reflexivity) ltac:(reflexivity)
                    ltac:(constructor)) 3%float 3%float);
      by vm_compute.
  - apply (proj2 (count_length_of_one_step Examples.no_gate Examples.ensemble_huge
                    [Examples.block_one] [] Examples.block_B
                    (mk_step tuple "B"%string (10 ^ 400))
                    ltac:(reflexivity) ltac:(by vm_compute) ltac:(reflexivity)
                    ltac:(constructor))).
    by vm_compute.
Defined.

Lemma registry_scan_witness :
  PulseObjectGenerator.init
    [MoreExamples.missing_dir;
     Examples.plugin_dir [("A"%string, PulseObjectGenerator.PyClass Examples.class_A)]]
  = (Ret (PulseObjectGenerator.populate_method_dict
            (PulseObjectGenerator.cls_methods
               <$> Scan.discovered_classes
                     [MoreExamples.missing_dir;
                      Examples.plugin_dir
                        [("A"%string, PulseObjectGenerator.PyClass Examples.class_A)]])),
     Scan.missing_paths
       [MoreExamples.missing_dir;
        Examples.plugin_dir [("A"%string, PulseObjectGenerator.PyClass Examples.class_A)]])
  /\ PulseObjectGenerator.init [MoreExamples.missing_dir; MoreExamples.broken_dir]
     = (Raise AttributeError, Scan.missing_paths [MoreExamples.missing_dir]).
Proof.
  split.
  - apply (proj1 (registry_scan _)).
    constructor; [intros H; discriminate H|].
    constructor; [|constructor].
    intros _. constructor; [by eexists|constructor].
  - apply (proj2 (registry_scan [MoreExamples.missing_dir; MoreExamples.broken_dir])
             [MoreExamples.missing_dir] MoreExamples.broken_dir [] [] [] AttributeError).
    + reflexivity.
    + constructor; [intros H; discriminate H|constructor].
    + reflexivity.
    + reflexivity.
    + constructor.
Defined.

Lemma idle_element_witness :
  dict_get "d_ch2"
    (PulseBlockElement.digital_high
       (GeneratorHelpers._get_idle_element MoreExamples.Idle MoreExamples.context
          (Examples.ns 10) 0%float)) = Some false
  /\ dict_get "a_ch1"
       (PulseBlockElement.pulse_function
          (GeneratorHelpers._get_idle_element MoreExamples.Idle MoreExamples.context
             (Examples.ns 10) 0%float)) = Some MoreExamples.Idle.
Proof.
  pose proof (idle_element_channels MoreExamples.Idle MoreExamples.context
                (Examples.ns 10) 0%float) as H.
  cbv zeta in H. destruct H as (_ & _ & _ & _ & Ha & Hd & _).
  split; [apply Hd|apply Ha]; by vm_compute.
Defined.

Lemma trigger_element_witness :
  exists e,
    GeneratorHelpers._get_trigger_element MoreExamples.Idle MoreExamples.DC
      MoreExamples.context (Examples.ns 10) 0%float
      (GeneratorHelpers.ChList ["d_ch1"%string; "a_ch2"%string]) = Ret e
    /\ dict_get "d_ch1" (PulseBlockElement.digital_high e) = Some true
    /\ dict_get "a_ch2" (PulseBlockElement.pulse_function e)
       = Some (MoreExamples.DC (GeneratorHelpers.analog_trigger_voltage MoreExamples.context))
    /\ "a_ch2"%string ∈ PulseBlockElement.channel_set e.
Proof.
  destruct (trigger_element_channels MoreExamples.Idle MoreExamples.DC MoreExamples.context
              (Examples.ns 10) 0%float ["d_ch1"%string; "a_ch2"%string])
    as [(e & He & Hcs & _ & _ & Hd & Ha & _) _].
  exists e. split; [exact He|]. split; [|split].
  - apply Hd; [by left|reflexivity].
  - apply Ha; [right; by left|reflexivity].
  - rewrite Hcs. apply elem_of_union_r. apply elem_of_list_to_set. right; by left.
Defined.

Lemma mw_element_witness :
  exists e,
    GeneratorHelpers._get_mw_element MoreExamples.Idle MoreExamples.DC MoreExamples.Sin
      MoreExamples.context (Examples.ns 20) 0%float 1 2870 0 = Ret e
    /\ dict_get "a_ch1" (PulseBlockElement.pulse_function e)
       = Some (MoreExamples.Sin 1 2870 0).
Proof.
  destruct (mw_element_channels MoreExamples.Idle MoreExamples.DC MoreExamples.Sin
              MoreExamples.context (Examples.ns 20) 0%float 1 2870 0 "a_ch1"
              ltac:(reflexivity)) as [_ H].
  destruct (H ltac:(reflexivity)) as (e & He & Hsin & _).
  exists e. split; [exact He|exact Hsin].
Defined.

Lemma laser_gate_element_witness :
  exists e,
    GeneratorHelpers._get_laser_gate_element MoreExamples.Idle MoreExamples.DC
      MoreExamples.context (Examples.ns 3000) 0%float = Ret e
    /\ dict_get "d_ch3" (PulseBlockElement.digital_high e) = Some true
    /\ "d_ch3"%string ∉ PulseBlockElement.channel_set e.
Proof.
  destruct (laser_gate_element_channels MoreExamples.Idle MoreExamples.DC
              MoreExamples.context (Examples.ns 3000) 0%float) as [_ H].
  destruct (H "d_ch1"%string "d_ch3"%string ltac:(reflexivity) ltac:(reflexivity))
    as (e0 & e & _ & He & _ & Hcs0 & Hd & _ & _ & Hout).
  exists e. split; [exact He|]. split; [apply Hd; reflexivity|].
  apply Hout. rewrite Hcs0. by vm_compute.
Defined.

Lemma multiple_mw_element_witness :
  GeneratorHelpers._get_multiple_mw_element MoreExamples.Idle MoreExamples.DC
    MoreExamples.Sin MoreExamples.DoubleSin MoreExamples.TripleSin MoreExamples.context
    (Examples.ns 20) 0%float
    (GeneratorHelpers.Values (1 :: 2 :: 3 :: [4]))
    (GeneratorHelpers.Values (5 :: 6 :: 7 :: []))
    (GeneratorHelpers.Values (8 :: 9 :: 10 :: []))
  = Ret (GeneratorHelpers.set_pulse_function "a_ch1"
           (MoreExamples.TripleSin 1 2 3 5 6 7 8 9 10)
           (GeneratorHelpers._get_idle_element MoreExamples.Idle MoreExamples.context
              (Examples.ns 20) 0%float)).
Proof.
  pose proof (multiple_mw_element_tones MoreExamples.Idle MoreExamples.DC MoreExamples.Sin
                MoreExamples.DoubleSin MoreExamples.TripleSin MoreExamples.context
                (Examples.ns 20) 0%float "a_ch1" ltac:(reflexivity)) as H.
  cbv zeta in H. destruct H as [_ H].
  destruct (H ltac:(reflexivity)) as (_ & _ & _ & H3 & _).
  apply H3.
Defined.

Lemma helpers_without_channel_witness :
  GeneratorHelpers._get_sync_element MoreExamples.Idle MoreExamples.DC MoreExamples.context
  = Raise TypeError.
Proof.
  apply (helpers_without_channel MoreExamples.Idle MoreExamples.DC MoreExamples.Sin
           MoreExamples.DoubleSin MoreExamples.TripleSin MoreExamples.context
           (Examples.ns 20) 0%float 0 0 0
           GeneratorHelpers.NoValues GeneratorHelpers.NoValues GeneratorHelpers.NoValues).
  left. reflexivity.
Defined.

Lemma mw_laser_element_witness :
  exists e,
    GeneratorHelpers._get_mw_laser_element MoreExamples.Idle MoreExamples.DC MoreExamples.Sin
      MoreExamples.context (Examples.ns 20) 0%float 1 2870 0 = Ret e
    /\ dict_get "a_ch1" (PulseBlockElement.pulse_function e)
       = Some (MoreExamples.Sin 1 2870 0)
    /\ dict_get "d_ch1" (PulseBlockElement.digital_high e) = Some true
    /\ dict_get "d_ch2" (PulseBlockElement.digital_high e) = Some false.
Proof.
  destruct (mw_laser_element_channels MoreExamples.Idle MoreExamples.DC MoreExamples.Sin
              MoreExamples.context (Examples.ns 20) 0%float 1 2870 0
              "a_ch1" "d_ch1")
    as (e & He & Hsin & Hlaser & _ & Hlow & _);
    [reflexivity|reflexivity|by vm_compute|by vm_compute|reflexivity|].
  exists e. split; [exact He|]. split; [exact Hsin|]. split; [exact Hlaser|].
  apply Hlow; [by vm_compute|done].
Defined.

Lemma parameter_dict_witness :
  MethodParameters.param_dict MoreExamples.VNone MoreExamples.signature 1%nat
  = (fun param => (param.1, default MoreExamples.VNone param.2))
      <$> MoreExamples.signature 1%nat.
Proof.
  apply (proj2 (parameter_dict_of_the_registry MoreExamples.VNone MoreExamples.signature
                  ∅)).
  apply (bool_decide_unpack _). by vm_compute.
Defined.
